(* ===== verification/_CoqProject ===== *)
-Q . S2P
Prelude.v
Timing.v
Status.v
Channel.v
DryRun.v
TarLoop.v
Forever.v
Uploader.v
Scenario.v
CycleSpec.v
Paths.v
Calls.v
Logs.v
Startup.v
Restart.v
Delays.v
RunLoop.v
Clock.v
Timed.v
WellFormed.v
Ghost.v
Wakeup.v
Rate.v
Cadence.v
Start.v
