(* ===== verification/Prelude.v ===== *)
(** * Verification of the support-operator reporting scheduler

    The program (two Go files) periodically asks a summarizer for a bundle of
    diagnostic data gathered since the last successful report, uploads it
    through an upload client, and publishes a health summary.  All scheduling
    logic lives in [src/pkg/insights/insightsuploader/insightsuploader.go]
    (the functions [New], [Run], [Init] and [reportToLogs]);
    [src/pkg/cmd/start/start.go] is the process bootstrap.

    ** Parts of the program and the files that model them

    - [Prelude] (this file): the procedure monad [Proc] in which Go function
      bodies are written (state passing, the [return] statement, [defer], a
      panic), its notation scope [proc_scope], the tactics and the hint
      databases the other files share, and generic lemmas on integers,
      sorted lists and strings.
    - [Timing]: [time.Duration] and [time.Time] as integers ([Duration] is
      an int64 count of nanoseconds, kept as [Z] with the range written as
      [is_Duration]; Go's integer division is [Z.quot]), the operations of
      package [time] the scheduler calls (module [time]), and the contract
      of [wait.Jitter] as the class [Jitterer] with two implementations:
      [wait_Jitter], the range [[d, d + f*d)] of the Kubernetes library the
      code links against, and [spec_Jitter], the range [[d, d*f)] that
      spec.md states.
    - [Status]: the class [Errors] (what the scheduler needs of Go's error
      values), [controllerstatus.Summary], the store behind
      [controllerstatus.Simple.UpdateStatus] (last write wins), and the
      well-formedness predicate "healthy, disabled, or neither with a
      reason".
    - [Channel]: buffered channels with the non-blocking send and the
      receive, the channel [enabledCh] of [Run], and the enabled-state
      watcher goroutine ([Run], lines 68-80): [watch] is one iteration of
      its loop, [watcher] the loop over a list of answers of [Enabled()].
    - [DryRun]: [reportToLogs] (lines 215-235), the loop over
      [tar.Reader.Next] behind a [gzip.NewReader], with a bundle
      represented by what the two decoders return on it.
    - [TarLoop]: the same loop as the source runs it, an endless [for]
      around [tr.Next()] on a reader that need not end ([Stream]), with
      fuel ([loop], [reportToLogs_on]).
    - [Forever]: the two loops of the source that have no bound, the
      [for] of the watcher goroutine and the [for] of [reportToLogs], as
      interaction trees built with [ITree.iter] from the body of the
      loop, with handlers that leave visible the sends, the sleeps and the
      lines printed.
    - [Uploader]: the interfaces [Authorizer], [Summarizer],
      [StatusReporter], the struct [Controller.t] and [New]; the variables
      the closure of [Run] captures ([State], with the trace of collaborator
      calls and the log as ghost fields); what a cycle finds around it
      ([Env]: the heap the collaborators read, the case the [select] picks,
      the clock, the draw of the random source, the verbosity); the closure
      passed to [wait.Until] ([cycle], lines 93-185, composed of
      [select_wait], [query_enabled], [upload] and [dry_run]); the start of
      [Run] up to [wait.Until] ([startup], [start_delay], lines 54-91); and
      [Init] (lines 189-213).
    - [Scenario]: scripted collaborators and one environment per path, on
      which the theorems are applied.
    - [CycleSpec]: the abstraction [abs] of a state (delay, working
      interval, watermark, time held by the reporter, published summary),
      the paths through a cycle ([Path], [path]), the specification
      [spec_step] of a cycle on abstract states, the proof [step_sim] that
      [step] commutes with it, and the invariants of runs.
    - [Paths]: the behaviour of a cycle on each path, stated on the
      concrete state, with the delay bounded against the [Jitterer]
      contract.
    - [Calls]: the collaborator calls of a cycle and of a run, in order
      ([path_calls], [run_calls]), and what follows from the list.
    - [Logs]: the lines a cycle prints ([path_logs]), with the listing of
      the dry run.
    - [Startup]: the initial delay, the state in which [wait.Until] is
      entered, and [Init].
    - [Restart]: [Run] in a process that starts again around the reporter
      the process before wrote ([rebuilt], [restart]).
    - [Delays]: the delay of every path as integer ranges, for the jitter
      of the library and for the jitter of spec.md, and the int64 bound.
    - [RunLoop]: the two goroutines [Run] leaves behind as a transition
      system ([Sys], [Event], [sys_step]): an iteration of the watcher, the
      cancellation of the context, an iteration of [wait.Until]; the
      reachable states and the iterations that call the closure
      ([executed]).
    - [WellFormed]: the Go types of the variables of [Run] as a predicate
      on states ([typed]): [time.Duration] for the delay and the interval,
      capacity 2 for the channel, the shapes of the published summary,
      kept under every interleaving and on the clock.
    - [Clock]: the two goroutines on a clock.  A [World] gives the inputs
      by the time (the heap, the instant of the cancellation, how long a
      cycle takes); [iteration] is one iteration of [wait.Until] with all
      the watcher does meanwhile: polls two minutes apart ([poll_period],
      line 78), the [select] ended by the earliest of its timer, the
      cancellation and the first poll that leaves a wake-up ([select_at],
      [await], [deadline]), the next test fifteen seconds after the
      closure returned ([next_head], line 185).  It is built from the
      transitions of [RunLoop].  The theorems on it are in four files:
      [Timed] (a run on the clock is a run; the loop returns; the order of
      the cycles), [Wakeup] (what the polls of the watcher do to the wait
      of the loop), [Rate] (the least distance between two cycles, the
      loop without an interval, the time at which [Run] returns) and
      [Cadence] (the period of the reports).
    - [Ghost]: the fields of the model the source does not have (the
      trace of calls, the log) and the inputs that reach only them (the
      verbosity, the time the upload ended), as two equivalences the
      closure respects.
    - [Start]: [NewOperator] of [start.go]: the defaults of the operator
      and the [Run] function of the start command ([command_Run], lines
      29-69) as a procedure over the trace of its library calls.

    ** How state and effects are represented

    A Go function body is a [Proc St A]: a function from the state to an
    [outcome] ([Next a] when control falls through with value [a],
    [Returned] after a [return] statement, [Panicked] after the use of a
    nil pointer, [Exited] after [klog.Fatal]) and the new state.  [bind]
    skips its continuation after the last three; [defer d rest] runs [d]
    when [rest] is left in any way but the exit of the process; [call]
    turns a body into the state transformer of the function call.  Interfaces of the source become records of methods or
    classes.  The collaborators are objects behind references: a method is
    a function of the heap at the time of the call, and the heap, like the
    clock and the random source, is a field of the [Env] of the cycle.  A
    run of n cycles is therefore a fold over a list of n environments
    ([steps]), an interleaving a fold over a list of events ([sys_run]),
    and a run on the clock n iterations of [iteration] ([timed_run]): the
    number of polls inside an iteration is computed from the times
    ([count_polls]), so none of these needs fuel.  The one loop of the
    source that may not end, the loop of [reportToLogs], is the one
    definition with fuel ([TarLoop.loop]); its outcome says whether the
    loop has returned, and the theorems give the fuel that suffices.
    [Forever] has the same loop, and the goroutine, without fuel: trees of
    the library ITree, compared up to silent steps by what they show and
    return, and reasoned on by the equations of [iter] and [interp_state]
    and induction on the number of iterations.

    ** What the theorems show

    - refinement: [step] implements [spec_step] through [abs], and so do
      runs, interleavings with the watcher and runs on the clock, which are
      among the interleavings ([CycleSpec], [RunLoop], [Timed]);
    - non-interference: the trace, the log and the verbosity do not steer
      the program; [step] and [steps] are morphisms for the equivalence of
      states that agree on the variables of [Run] ([Ghost]);
    - liveness on the clock: after the cancellation the loop returns
      within a bounded number of iterations, at a time that is no earlier
      than the cancellation and no later than the longest cycle after it,
      and not without it ([Timed], [Rate]); a change of the enabled state
      that lasts a poll period ends the [select] within a poll period, and
      the wait of the loop never outlasts the first poll that finds a
      change ([Wakeup]);
    - timing: a cycle starts within the window of its [select]; after a
      summary that failed or had nothing the next cycle starts fifteen
      seconds after the last returned; the cycles start in the order of
      the clock, so the watermark does not go back ([Timed]); two cycles
      are at least the time of the first and fifteen seconds apart, so at
      most [d / 15 s], rounded up, start in a window of length [d]; with
      an interval that is not positive every cycle starts at that least
      distance ([Rate]); while the enabled state does not change the
      report after a report starts the time of the cycle, fifteen seconds
      and the jittered interval later, by the timer ([Cadence]);
    - types: from the call of [wait.Until] on, under every interleaving,
      the variables of [Run] stay within their Go types ([WellFormed]);
    - round trip: the watermark a run writes to the reporter is the one
      the next process starts from, and a restart less than an interval
      after an upload computes a negative delay ([Restart]);
    - termination: the loop of [reportToLogs] returns at the first error
      of [Next], agrees with [DryRun] on finite archives, and does not
      return on a reader without end ([TarLoop]);
    - the loops as they run: the goroutine, which cannot return, is what
      is seen of its first [n] iterations followed by the goroutine from
      the state [Channel.watcher] computes, for every [n], and the polls
      of [Clock] are those iterations; [reportToLogs] without fuel is the
      listing of [DryRun] on every finite archive and prints without end
      on a reader without end ([Forever], [Wakeup]);
    - invariants of runs: the watermark moves only by a successful upload
      and never decreases under a monotone clock, the reporter holds the
      watermark, the published summary is well formed, the channel never
      holds more than its capacity ([CycleSpec], [Calls], [RunLoop],
      [Channel]);
    - per path of [cycle]: the delay, the watermark, the reporter write, the
      published summary ([Paths]), the calls made ([Calls]) and the lines
      printed ([Logs]), errors included; no cycle panics;
    - the bounds of every delay against the [Jitterer] contract ([Paths],
      [Startup]) and, at the two implementations, in integers; no delay
      leaves the int64 range while four times the interval fits in it
      ([Delays]);
    - [reportToLogs] prints one line per entry in order and returns the
      first error that is not [io.EOF] ([DryRun]);
    - the start command makes its calls in the order of the source, exits
      at the first error without running what it deferred, and configures
      an interval whose delays fit a [time.Duration] ([Start]);
    - where the code departs from spec.md or from its own comments: the
      negative initial delay of line 88, the nil client at line 91, the two
      pending wake-ups, the cycle that runs after cancellation, the context
      of the calls, the ranges of the jitter, the dry run that reads
      nothing below verbosity 4, the retry every fifteen seconds while the
      summarizer fails, the listing without bound, the interval that is
      never checked to be positive, the return of [Run] a cycle after the
      cancellation ([Restart], [Startup], [Calls], [Channel], [Delays],
      [Logs], [Timed], [TarLoop], [Rate]).

    ** Bounds

    Durations are unbounded integers in the model; [is_Duration] is the
    int64 range, and [Delays] and [WellFormed] give the condition under
    which the delays of [Run] stay in it: intervals of at most
    [maxDuration / 4], about 73 years.  The fuel of [TarLoop.loop] counts
    calls of [Next]: one more than the position of the first error is
    enough, and more changes nothing.  In [Clock] a poll due at the very
    instant the timer of a [select] fires comes after it, and a run of [n]
    iterations needs no fuel: the polls inside an iteration are counted
    from the times.  [Rate] bounds the time of the return of [Run] by a
    bound [B] on the time a cycle takes, which the source does not give:
    the two calls of a cycle have a context of one minute each to respect.  [time.Sub] saturates as in Go.  The
    random source is a rational in [[0, 1)] ([is_sample]), which covers
    every float64 [rand.Float64] returns.

    ** Not modelled

    Float rounding inside [wait.Jitter] (the product is computed in exact
    rationals and truncated; the theorems on delays hold of every
    [Jitterer], and the bounds of the float64 product differ from the exact
    ones by its rounding, which would need a model of IEEE 754 arithmetic
    the development does not have), the one-minute timeout of the per-cycle
    context (what [Summary] and [Send] return is an input, whether they
    ran into the timeout or not), the time the calls of a cycle take one by
    one (a cycle takes [busy] from the end of its [select] to its return,
    and reads the clock at the end of the [select]), the bytes of the
    bundle and of the HTTP upload, the
    layout of time stamps (a class parameter), and, of [start.go], what
    the libraries it calls do (flags, configuration, leader election, the
    controller builder, profiling): their calls are actions of a trace and
    their errors inputs.  That a method of the nil [*insightsclient.Client]
    panics is assumed of [Endpoint] and [Send], as the nil guards of the
    source suggest.  The reporter and the status store belong to the
    controller: no other party writes them between two cycles. *)

From Stdlib Require Import ZArith Lia Sorted.
From stdpp Require Import base tactics option list strings sorting.

#[global] Open Scope Z_scope.

(** ** Hint databases of the development *)

(** [proc]: unfolding of the monad's combinators; [sched]: facts about
    delays, channels and summaries that close side conditions of the
    scheduler. *)
Create HintDb proc discriminated.
Create HintDb sched discriminated.

(** ** The procedure monad *)

Declare Scope proc_scope.
Delimit Scope proc_scope with proc.

(** How control leaves a statement: it falls through with a value, the
    enclosing function has executed [return], the goroutine panics, or the
    process exits ([os.Exit], [klog.Fatal]). *)
Inductive outcome (A : Type) : Type :=
| Next (a : A)
| Returned
| Panicked
| Exited.
Arguments Next {A} a.
Arguments Returned {A}.
Arguments Panicked {A}.
Arguments Exited {A}.

Definition Proc (St A : Type) : Type := St -> outcome A * St.

Section ProcOps.
Context {St : Type}.

Definition ret {A} (a : A) : Proc St A := fun s => (Next a, s).

Definition bind {A B} (m : Proc St A) (k : A -> Proc St B) : Proc St B :=
  fun s => match m s with
           | (Next a, s') => k a s'
           | (Returned, s') => (Returned, s')
           | (Panicked, s') => (Panicked, s')
           | (Exited, s') => (Exited, s')
           end.

(** The [return] statement of a function without results. *)
Definition Return {A} : Proc St A := fun s => (Returned, s).

(** A run-time panic, such as the use of a nil pointer. *)
Definition Panic {A} : Proc St A := fun s => (Panicked, s).

(** [os.Exit]: the process ends here. *)
Definition Exit {A} : Proc St A := fun s => (Exited, s).

Definition gets {A} (f : St -> A) : Proc St A := fun s => (Next (f s), s).

Definition modify (f : St -> St) : Proc St unit := fun s => (Next tt, f s).

(** [if b { body }] with no else branch. *)
Definition when (b : bool) (body : Proc St unit) : Proc St unit :=
  if b then body else ret tt.

(** [defer d] followed by the rest of the function: [d] runs when the rest is
    left by falling off its end, by [return] or by a panic, and does not run
    when the process exits. *)
Definition defer {A} (d : St -> St) (rest : Proc St A) : Proc St A :=
  fun s => let (o, s') := rest s in
           match o with Exited => (o, s') | _ => (o, d s') end.

(** The call of a function with body [m]: the state it leaves. *)
Definition call (m : Proc St unit) : St -> St := fun s => snd (m s).

(** The call panics. *)
Definition panics {A} (m : Proc St A) (s : St) : bool :=
  match fst (m s) with Panicked => true | _ => false end.

End ProcOps.

Notation "x <- m ;; k" := (bind m (fun x => k))
  (at level 100, m at next level, right associativity) : proc_scope.
Notation "m ;; k" := (bind m (fun _ => k))
  (at level 100, right associativity) : proc_scope.

#[export] Hint Unfold ret bind Return Panic Exit gets modify when defer call panics
  : proc.

(** Unfold the combinators and compute. *)
Ltac proc_simpl := repeat (autounfold with proc in *; cbn in * ).

Section ProcLaws.
Context {St A B C : Type}.
Local Open Scope proc_scope.

Lemma bind_ret_l (a : A) (k : A -> Proc St B) s : bind (ret a) k s = k a s.
Proof. reflexivity. Qed.

Lemma bind_ret_r (m : Proc St A) s : bind m ret s = m s.
Proof. unfold bind, ret. by destruct (m s) as [[a| | |] s']. Qed.

Lemma bind_assoc (m : Proc St A) (k : A -> Proc St B) (h : B -> Proc St C) s :
  bind (bind m k) h s = bind m (fun a => bind (k a) h) s.
Proof. unfold bind. by destruct (m s) as [[a| | |] s']. Qed.

(** Nothing after a [return] runs. *)
Lemma bind_Return (k : A -> Proc St B) s : bind Return k s = (Returned, s).
Proof. reflexivity. Qed.

(** A deferred call keeps the outcome, and runs unless the process has
    exited. *)
Lemma defer_runs (d : St -> St) (m : Proc St A) s :
  fst (defer d m s) = fst (m s)
  /\ snd (defer d m s) =
       match fst (m s) with Exited => snd (m s) | _ => d (snd (m s)) end.
Proof. unfold defer. by destruct (m s) as [[a| | |] s']. Qed.

(** Nothing after an exit runs, deferred calls included. *)
Lemma defer_Exit (d : St -> St) (k : A -> Proc St B) s :
  defer d (bind Exit k) s = (Exited, s).
Proof. reflexivity. Qed.

End ProcLaws.

Lemma call_defer {St} (d : St -> St) (m : Proc St unit) s :
  fst (m s) <> Exited -> call (defer d m) s = d (call m s).
Proof.
  intros Hm. unfold call. destruct (defer_runs d m s) as [_ ->].
  by destruct (fst (m s)).
Qed.

(** ** Integers *)

(** Go's [/] on integers truncates toward zero: [Z.quot]. *)
Lemma quot8_bounds (d : Z) : 0 <= d -> 0 <= d ÷ 8 <= d.
Proof. intros. Z.to_euclidean_division_equations. lia. Qed.

Lemma quot8_pos (d : Z) : 8 <= d -> 0 < d ÷ 8.
Proof. intros. Z.to_euclidean_division_equations. lia. Qed.

Lemma quot8_mul (d : Z) : 0 <= d -> 8 * (d ÷ 8) <= d < 8 * (d ÷ 8) + 8.
Proof. intros. Z.to_euclidean_division_equations. lia. Qed.

Lemma quot8_nonpos (d : Z) : d <= 0 -> d ÷ 8 <= 0.
Proof. intros. Z.to_euclidean_division_equations. lia. Qed.

#[export] Hint Resolve quot8_bounds quot8_pos quot8_nonpos : sched.

(** ** Lists *)

Lemma elem_of_rev {A} (x : A) (l : list A) : x ∈ rev l <-> x ∈ l.
Proof. rewrite !list_elem_of_In. symmetry. apply in_rev. Qed.

Section Sorted.
Context {A : Type} (R : relation A).

(** Neighbours of a sorted list are related. *)
Lemma Sorted_lookup_S (l : list A) i x y :
  Sorted R l -> l !! i = Some x -> l !! S i = Some y -> R x y.
Proof.
  intros Hs. revert i.
  induction Hs as [|a l Hs IH Hh]; intros [|i] Hx Hy; simplify_eq/=.
  - destruct Hh; by simplify_eq/=.
  - by eapply IH.
Qed.

Lemma StronglySorted_filter (P : A -> Prop) `{!forall x, Decision (P x)}
    (l : list A) :
  StronglySorted R l -> StronglySorted R (filter P l).
Proof.
  induction 1 as [|x l _ IH Hx]; [constructor|].
  rewrite filter_cons. case_decide; [|done].
  constructor; [done|]. rewrite Forall_forall in *.
  intros y [_ Hy]%list_elem_of_filter. auto.
Qed.

End Sorted.

(** ** Strings *)

(** [len(s) == 0]. *)
Definition is_empty (s : string) : bool :=
  match s with EmptyString => true | String _ _ => false end.

Lemma is_empty_spec (s : string) : is_empty s = true <-> s = "".
Proof. by destruct s. Qed.

Lemma is_empty_length (s : string) : is_empty s = (String.length s =? 0)%nat.
Proof. by destruct s. Qed.

(** [if len(s) == 0 { s = d }]. *)
Definition or_default (s d : string) : string := if is_empty s then d else s.

Lemma or_default_nonempty (s d : string) : d <> "" -> or_default s d <> "".
Proof. unfold or_default. destruct s; naive_solver. Qed.

Lemma or_default_keep (s d : string) : s <> "" -> or_default s d = s.
Proof. unfold or_default. by destruct s. Qed.

#[export] Hint Resolve or_default_nonempty : sched.
