(* ===== verification/Timing.v ===== *)
(** * Timing: durations, instants and jitter

    [time.Duration] is an int64 count of nanoseconds and [time.Time] an
    instant; both are integers here, an instant counting nanoseconds from
    the zero [Time] so that [IsZero] is a comparison with 0.  Module [time]
    holds the operations of Go's package [time] that [Run] calls, module
    [wait] the jitter of [k8s.io/apimachinery/pkg/util/wait].  The scheduler
    is proved against the class [Jitterer]; [wait_Jitter] and [spec_Jitter]
    are its two instances. *)

From Stdlib Require Import ZArith QArith Qround Lia Lqa.
From stdpp Require Import base tactics strings pretty.
From S2P Require Import Prelude.

#[local] Open Scope Z_scope.

Definition Duration : Type := Z.
Definition Time : Type := Z.

(** The range of an int64. *)
Definition minDuration : Duration := - 2 ^ 63.
Definition maxDuration : Duration := 2 ^ 63 - 1.
Definition is_Duration (d : Z) : Prop := minDuration <= d <= maxDuration.

#[export] Instance is_Duration_dec d : Decision (is_Duration d).
Proof. unfold is_Duration. apply _. Defined.

Module time.

Definition Nanosecond : Duration := 1.
Definition Second : Duration := 1000000000 * Nanosecond.
Definition Minute : Duration := 60 * Second.

(** A difference of instants that does not fit a [Duration] is replaced by
    the nearest bound. *)
Definition saturate (z : Z) : Duration := Z.max minDuration (Z.min maxDuration z).

Definition IsZero (t : Time) : bool := t =? 0.
Definition Add (t : Time) (d : Duration) : Time := t + d.
Definition After (t u : Time) : bool := u <? t.
Definition Sub (t u : Time) : Duration := saturate (t - u).
Definition UTC (t : Time) : Time := t.

(** [d.Truncate(m)]: [d] rounded toward zero to a multiple of [m]. *)
Definition Truncate (d m : Duration) : Duration :=
  if m <=? 0 then d else d - Z.rem d m.

End time.

(** [t.Format(time.RFC3339)] and [d.String()]: the text of an instant and
    of a duration.  The layouts are not modelled; the scheduler only passes
    the texts on. *)
Class TimeFormat : Type := {
  RFC3339 : Time -> string;
  Duration_String : Duration -> string;
}.

(** An instance to compute with: instants and durations in decimal. *)
#[export] Instance decimal_TimeFormat : TimeFormat := {|
  RFC3339 := fun t => pretty t;
  Duration_String := fun d => pretty d +:+ "ns";
|}.

(** ** Jitter *)

(** The conversion of a float to an integer drops the fraction. *)
Definition Qtrunc (q : Q) : Z :=
  if Qlt_le_dec q 0 then Qceiling q else Qfloor q.

(** What [rand.Float64] returns: a number of [[0, 1)]. *)
Definition is_sample (r : Q) : Prop := (0 <= r /\ r < 1)%Q.

(** [d] plus the integer part of [r * w * d]: a point of the range from
    [d] to [d + w * d]. *)
Definition scaled (d : Duration) (w r : Q) : Duration :=
  d + Qtrunc (r * w * inject_Z d).

(** What the scheduler relies on: [jitter d f r] is the delay drawn for the
    base [d] and the factor [f] when the random source yields [r];
    [width f] is the width of its range relative to the base. *)
Class Jitterer : Type := {
  jitter : Duration -> Q -> Q -> Duration;
  width : Q -> Q;
  width_nonneg f : (0 <= width f)%Q;
  jitter_ge d f r : 0 <= d -> is_sample r -> d <= jitter d f r;
  jitter_le d f r :
    0 <= d -> is_sample r ->
    (inject_Z (jitter d f r) <= inject_Z d * (1 + width f))%Q;
  jitter_lt d f r :
    0 < d -> (0 < width f)%Q -> is_sample r ->
    (inject_Z (jitter d f r) < inject_Z d * (1 + width f))%Q;
  jitter_nonpos d f r : d <= 0 -> is_sample r -> jitter d f r <= d;
}.

Module wait.

(** [Jitter(duration, maxFactor)]: a factor that is not positive counts
    as 1; the result is [duration] plus a random share of
    [maxFactor * duration]. *)
Definition Jitter (duration : Duration) (maxFactor rnd : Q) : Duration :=
  let maxFactor := if Qle_bool maxFactor 0 then 1%Q else maxFactor in
  duration + Qtrunc (rnd * maxFactor * inject_Z duration).

(** The width of the range of [Jitter], relative to [duration]. *)
Definition Jitter_width (maxFactor : Q) : Q :=
  if Qle_bool maxFactor 0 then 1%Q else maxFactor.

End wait.

(** The contract spec.md states: a value of [[base, base * maxFactor)], a
    factor of 1 giving the base itself. *)
Definition spec_width (maxFactor : Q) : Q :=
  if Qle_bool maxFactor 1 then 0%Q else (maxFactor - 1)%Q.

Definition spec_jitter (base : Duration) (maxFactor rnd : Q) : Duration :=
  scaled base (spec_width maxFactor) rnd.

(** ** Lemmas on [Qtrunc] and [scaled] *)

Lemma Qtrunc_nonneg (q : Q) : (0 <= q)%Q -> Qtrunc q = Qfloor q /\ 0 <= Qfloor q.
Proof.
  intros Hq. unfold Qtrunc. destruct (Qlt_le_dec q 0) as [Hlt|_]; [lra|].
  split; [done|]. change 0 with (Qfloor 0). by apply Qfloor_resp_le.
Qed.

Lemma Qtrunc_nonpos (q : Q) : (q <= 0)%Q -> Qtrunc q <= 0.
Proof.
  intros Hq. unfold Qtrunc. destruct (Qlt_le_dec q 0) as [_|Hge].
  - change 0 with (Qceiling 0). by apply Qceiling_resp_le.
  - change 0 with (Qfloor 0). by apply Qfloor_resp_le.
Qed.

Lemma Qtrunc_0 : Qtrunc 0 = 0.
Proof. reflexivity. Qed.

Lemma Qtrunc_comp (p q : Q) : (p == q)%Q -> Qtrunc p = Qtrunc q.
Proof.
  intros E. unfold Qtrunc.
  destruct (Qlt_le_dec p 0), (Qlt_le_dec q 0); try lra;
    [by apply Qceiling_comp | by apply Qfloor_comp].
Qed.

Lemma inject_Z_nonneg (d : Z) : 0 <= d -> (0 <= inject_Z d)%Q.
Proof. intros. change 0%Q with (inject_Z 0). by rewrite <- Zle_Qle. Qed.

Lemma inject_Z_nonpos (d : Z) : d <= 0 -> (inject_Z d <= 0)%Q.
Proof. intros. change 0%Q with (inject_Z 0). by rewrite <- Zle_Qle. Qed.

Lemma inject_Z_pos (d : Z) : 0 < d -> (0 < inject_Z d)%Q.
Proof. intros. change 0%Q with (inject_Z 0). by rewrite <- Zlt_Qlt. Qed.

(** The product the jitter truncates has the sign of the base. *)
Lemma share_nonneg (d : Z) (w r : Q) :
  0 <= d -> (0 <= w)%Q -> (0 <= r)%Q -> (0 <= r * w * inject_Z d)%Q.
Proof.
  intros Hd Hw Hr. pose proof (inject_Z_nonneg d Hd).
  apply Qmult_le_0_compat; [by apply Qmult_le_0_compat | done].
Qed.

Lemma share_nonpos (d : Z) (w r : Q) :
  d <= 0 -> (0 <= w)%Q -> (0 <= r)%Q -> (r * w * inject_Z d <= 0)%Q.
Proof.
  intros Hd Hw Hr. pose proof (inject_Z_nonpos d Hd).
  assert (0 <= r * w)%Q by (by apply Qmult_le_0_compat). nra.
Qed.

Lemma Qmult_le_1 (r x : Q) : (r <= 1 -> 0 <= x -> r * x <= x)%Q.
Proof. intros. nra. Qed.

Lemma Qmult_lt_1 (r x : Q) : (r < 1 -> 0 < x -> r * x < x)%Q.
Proof. intros. nra. Qed.

Lemma share_le (d : Z) (w r : Q) :
  0 <= d -> (0 <= w)%Q -> (r < 1)%Q -> (r * w * inject_Z d <= w * inject_Z d)%Q.
Proof.
  intros Hd Hw Hr. pose proof (inject_Z_nonneg d Hd).
  assert (0 <= w * inject_Z d)%Q by (by apply Qmult_le_0_compat).
  pose proof (Qmult_le_1 r (w * inject_Z d)). lra.
Qed.

Lemma share_lt (d : Z) (w r : Q) :
  0 < d -> (0 < w)%Q -> (r < 1)%Q -> (r * w * inject_Z d < w * inject_Z d)%Q.
Proof.
  intros Hd Hw Hr. pose proof (inject_Z_pos d Hd).
  assert (0 < w * inject_Z d)%Q by (by apply Qmult_lt_0_compat).
  pose proof (Qmult_lt_1 r (w * inject_Z d)). lra.
Qed.

Section Scaled.
Context (d : Duration) (w r : Q) (Hw : (0 <= w)%Q) (Hr : is_sample r).

Lemma scaled_ge : 0 <= d -> d <= scaled d w r.
Proof.
  intros Hd. unfold scaled. destruct Hr as [Hr0 _].
  destruct (Qtrunc_nonneg _ (share_nonneg d w r Hd Hw Hr0)) as [-> ?]. lia.
Qed.

Lemma scaled_nonpos : d <= 0 -> scaled d w r <= d.
Proof.
  intros Hd. unfold scaled. destruct Hr as [Hr0 _].
  pose proof (Qtrunc_nonpos _ (share_nonpos d w r Hd Hw Hr0)). lia.
Qed.

Lemma scaled_le : 0 <= d -> (inject_Z (scaled d w r) <= inject_Z d * (1 + w))%Q.
Proof.
  intros Hd. unfold scaled. destruct Hr as [Hr0 Hr1].
  destruct (Qtrunc_nonneg _ (share_nonneg d w r Hd Hw Hr0)) as [-> _].
  rewrite inject_Z_plus. pose proof (Qfloor_le (r * w * inject_Z d)).
  pose proof (share_le d w r Hd Hw Hr1). lra.
Qed.

Lemma scaled_lt : 0 < d -> (0 < w)%Q -> (inject_Z (scaled d w r) < inject_Z d * (1 + w))%Q.
Proof.
  intros Hd Hw'. unfold scaled. destruct Hr as [Hr0 Hr1].
  destruct (Qtrunc_nonneg _ (share_nonneg d w r ltac:(lia) Hw Hr0)) as [-> _].
  rewrite inject_Z_plus. pose proof (Qfloor_le (r * w * inject_Z d)).
  pose proof (share_lt d w r Hd Hw' Hr1). lra.
Qed.

End Scaled.

(** With no width the jitter is the base. *)
Lemma scaled_width_0 (d : Duration) (r : Q) : scaled d 0 r = d.
Proof.
  unfold scaled. rewrite (Qtrunc_comp _ 0); [rewrite Qtrunc_0; lia | ring].
Qed.

Lemma wait_width_pos (f : Q) : (0 < wait.Jitter_width f)%Q.
Proof.
  unfold wait.Jitter_width. destruct (Qle_bool f 0) eqn:E; [lra|].
  destruct (Qlt_le_dec 0 f) as [?|Hle]; [done|].
  apply Qle_bool_iff in Hle. congruence.
Qed.

Lemma spec_width_nonneg (f : Q) : (0 <= spec_width f)%Q.
Proof.
  unfold spec_width. destruct (Qle_bool f 1) eqn:E; [lra|].
  destruct (Qlt_le_dec 1 f) as [?|Hle]; [lra|].
  apply Qle_bool_iff in Hle. congruence.
Qed.

Lemma Jitter_scaled (d : Duration) (f r : Q) :
  wait.Jitter d f r = scaled d (wait.Jitter_width f) r.
Proof. reflexivity. Qed.

(** ** The two instances *)

#[export, refine] Instance wait_Jitter : Jitterer :=
  {| jitter := wait.Jitter; width := wait.Jitter_width |}.
Proof.
  - intros f. apply Qlt_le_weak, wait_width_pos.
  - intros. rewrite Jitter_scaled. apply scaled_ge; auto using Qlt_le_weak, wait_width_pos.
  - intros. rewrite Jitter_scaled. apply scaled_le; auto using Qlt_le_weak, wait_width_pos.
  - intros. rewrite Jitter_scaled. apply scaled_lt; auto using Qlt_le_weak, wait_width_pos.
  - intros. rewrite Jitter_scaled. apply scaled_nonpos; auto using Qlt_le_weak, wait_width_pos.
Defined.

#[refine] Definition spec_Jitter : Jitterer :=
  {| jitter := spec_jitter; width := spec_width |}.
Proof.
  - apply spec_width_nonneg.
  - intros. apply scaled_ge; auto using spec_width_nonneg.
  - intros. apply scaled_le; auto using spec_width_nonneg.
  - intros. apply scaled_lt; auto using spec_width_nonneg.
  - intros. apply scaled_nonpos; auto using spec_width_nonneg.
Defined.

(** ** From rational bounds to integer bounds *)

Lemma Qlt_inject_frac (a b n : Z) (m : positive) :
  (inject_Z a < inject_Z b * (n # m))%Q <-> a * Z.pos m < b * n.
Proof. unfold Qlt, Qmult, inject_Z. cbn. lia. Qed.

Lemma Qle_inject_frac (a b n : Z) (m : positive) :
  (inject_Z a <= inject_Z b * (n # m))%Q <-> a * Z.pos m <= b * n.
Proof. unfold Qle, Qmult, inject_Z. cbn. lia. Qed.

(** ** Facts on package [time] *)

Lemma saturate_is_Duration (z : Z) : is_Duration (time.saturate z).
Proof. unfold is_Duration, time.saturate, minDuration, maxDuration. lia. Qed.

Lemma saturate_id (z : Z) : is_Duration z -> time.saturate z = z.
Proof. unfold is_Duration, time.saturate, minDuration, maxDuration. lia. Qed.

Lemma saturate_sign (z : Z) :
  (z < 0 -> time.saturate z < 0) /\ (0 <= z -> 0 <= time.saturate z).
Proof. unfold time.saturate, minDuration, maxDuration. lia. Qed.

Lemma After_spec (t u : Time) : time.After t u = true <-> u < t.
Proof. unfold time.After. apply Z.ltb_lt. Qed.

Lemma IsZero_spec (t : Time) : time.IsZero t = true <-> t = 0.
Proof. unfold time.IsZero. apply Z.eqb_eq. Qed.

#[export] Hint Resolve saturate_is_Duration : sched.
