(* ===== verification/Status.v ===== *)
(** * Status: errors and health summaries

    What the scheduler needs of Go's error values is the class [Errors]:
    identity ([==]), the text [%v] prints, the sentinels [io.EOF] and
    [insightsclient.ErrWaitingForVersion], and the predicate
    [authorizer.IsAuthorizationError].  [Summary] is
    [controllerstatus.Summary] with the fields the controller sets, [Simple]
    the store behind [controllerstatus.Simple.UpdateStatus]. *)

From stdpp Require Import base tactics strings.
From S2P Require Import Prelude.

(** ** Errors *)

Class Errors : Type := {
  error : Type;
  #[global] error_eq_dec :: EqDecision error;
  Error : error -> string;
  EOF : error;
  ErrWaitingForVersion : error;
  IsAuthorizationError : error -> bool;
}.

(** [fmt.Sprintf(prefix + "%v", err)]. *)
Definition Sprintf_v `{Errors} (prefix : string) (err : error) : string :=
  prefix +:+ Error err.

(** An instance to compute with: an error is its text and whether it is an
    authorization error. *)
Definition text_error : Type := string * bool.

#[export] Instance text_Errors : Errors := {|
  error := text_error;
  Error := fst;
  EOF := ("EOF", false);
  ErrWaitingForVersion := ("waiting for version", false);
  IsAuthorizationError := snd;
|}.

(** ** Summaries *)

Module controllerstatus.

Record Summary : Type := mkSummary {
  Healthy : bool;
  Disabled : bool;
  Reason : string;
  Message : string;
}.

#[export] Instance Summary_eq_dec : EqDecision Summary.
Proof. solve_decision. Defined.

(** The store of [controllerstatus.Simple]: its name and the summary written
    last, if any. *)
Record Simple : Type := mkSimple {
  Name : string;
  current : option Summary;
}.

Definition UpdateStatus (s : Simple) (x : Summary) : Simple :=
  {| Name := Name s; current := Some x |}.

End controllerstatus.

Abbreviation Summary := controllerstatus.Summary.
Abbreviation Healthy := controllerstatus.Healthy.
Abbreviation Disabled := controllerstatus.Disabled.
Abbreviation Reason := controllerstatus.Reason.
Abbreviation Message := controllerstatus.Message.
Abbreviation mkSummary := controllerstatus.mkSummary.

(** A summary says one thing: healthy, or disabled, or neither, and then it
    carries a reason. *)
Definition well_formed (x : Summary) : bool :=
  match Healthy x, Disabled x with
  | true, true => false
  | true, false => true
  | false, true => true
  | false, false => negb (is_empty (Reason x))
  end.

(** A summary that reports a failure. *)
Definition unhealthy (x : Summary) : bool :=
  negb (Healthy x) && negb (Disabled x).

(** ** Lemmas *)

Section Store.
Import controllerstatus.

Lemma UpdateStatus_current (s : Simple) (x : Summary) :
  current (UpdateStatus s x) = Some x.
Proof. reflexivity. Qed.

Lemma UpdateStatus_last_wins (s : Simple) (x y : Summary) :
  UpdateStatus (UpdateStatus s x) y = UpdateStatus s y.
Proof. reflexivity. Qed.

Lemma UpdateStatus_Name (s : Simple) (x : Summary) :
  Name (UpdateStatus s x) = Name s.
Proof. reflexivity. Qed.

End Store.

Lemma well_formed_spec (x : Summary) :
  well_formed x = true <->
  (Healthy x = true /\ Disabled x = false) \/
  (Healthy x = false /\ Disabled x = true) \/
  (Healthy x = false /\ Disabled x = false /\ Reason x <> "").
Proof.
  unfold well_formed. destruct x as [[] [] [] ?]; cbn; intuition congruence.
Qed.

Lemma well_formed_reason (h d : bool) (r m : string) :
  r <> "" -> h && d = false -> well_formed (mkSummary h d r m) = true.
Proof. destruct h, d, r; cbn; intuition congruence. Qed.

#[export] Hint Resolve well_formed_reason : sched.
