(* ===== verification/Channel.v ===== *)
(** * Channel: the wake-up channel and the enabled-state watcher

    [Run] creates [enabledCh], a buffered channel of capacity 2, and, when a
    client is configured, a goroutine that polls [c.client.Enabled()] every
    two minutes and, when the answer differs from the one it saw before,
    sends on the channel without blocking.  A buffered channel is its
    capacity and the queue of values it holds.  One call of [watch] is one
    iteration of the loop of the goroutine; its sleep is in [Clock]. *)

From stdpp Require Import base tactics list.
From S2P Require Import Prelude.

(** ** Buffered channels *)

Record Chan (A : Type) : Type := mkChan {
  cap : nat;
  buf : list A;
}.
Arguments mkChan {A} cap buf.
Arguments cap {A} c.
Arguments buf {A} c.

(** [make(chan A, n)]. *)
Definition make {A} (n : nat) : Chan A := mkChan n [].

(** The send can proceed: the buffer has room. *)
Definition can_send {A} (c : Chan A) : bool := (length (buf c) <? cap c)%nat.

(** [select { case c <- v: default: }]: the value is queued if there is room
    and dropped otherwise.  The result tells which case ran. *)
Definition try_send {A} (v : A) (c : Chan A) : bool * Chan A :=
  if can_send c then (true, mkChan (cap c) (buf c ++ [v])) else (false, c).

(** The receive case of a [select] is ready when the buffer holds a value;
    the receive takes the oldest. *)
Definition can_recv {A} (c : Chan A) : bool :=
  match buf c with [] => false | _ :: _ => true end.

Definition recv {A} (c : Chan A) : option (A * Chan A) :=
  match buf c with
  | [] => None
  | v :: rest => Some (v, mkChan (cap c) rest)
  end.

(** A channel never holds more than its capacity. *)
Definition chan_ok {A} (c : Chan A) : Prop := (length (buf c) <= cap c)%nat.

#[export] Instance chan_ok_dec {A} (c : Chan A) : Decision (chan_ok c).
Proof. unfold chan_ok. apply _. Defined.

(** ** The watcher *)

(** [enabledCh := make(chan struct{}, 2)]. *)
Definition enabledCh0 : Chan unit := make 2.

(** One iteration of the goroutine's loop: [enabled] is what
    [c.client.Enabled()] answers, [initialEnabled] the answer seen before.
    The result is the new [initialEnabled] and the channel. *)
Definition watch (enabled : bool) (initialEnabled : bool) (ch : Chan unit)
  : bool * Chan unit :=
  if negb (eqb initialEnabled enabled)
  then (enabled, snd (try_send tt ch))
  else (initialEnabled, ch).

(** The goroutine over a sequence of answers. *)
Fixpoint watcher (answers : list bool) (initialEnabled : bool) (ch : Chan unit)
  : bool * Chan unit :=
  match answers with
  | [] => (initialEnabled, ch)
  | enabled :: rest =>
      let (seen, ch') := watch enabled initialEnabled ch in
      watcher rest seen ch'
  end.

(** The number of changes in a sequence of answers, from the one seen
    before. *)
Fixpoint edges (answers : list bool) (seen : bool) : nat :=
  match answers with
  | [] => 0
  | e :: rest => (if eqb seen e then 0 else 1) + edges rest e
  end.

(** ** Lemmas on channels *)

Section ChanLemmas.
Context {A : Type}.
Implicit Types (c : Chan A) (v : A).

Lemma make_ok n : chan_ok (make (A:=A) n).
Proof. unfold chan_ok; cbn; lia. Qed.

Lemma can_send_spec c : can_send c = true <-> (length (buf c) < cap c)%nat.
Proof. unfold can_send. apply Nat.ltb_lt. Qed.

Lemma try_send_cap v c : cap (snd (try_send v c)) = cap c.
Proof. unfold try_send. by destruct (can_send c). Qed.

Lemma try_send_ok v c : chan_ok c -> chan_ok (snd (try_send v c)).
Proof.
  unfold try_send, chan_ok. destruct (can_send c) eqn:E; cbn; [|done].
  apply can_send_spec in E. rewrite length_app. cbn. lia.
Qed.

Lemma try_send_length v c :
  length (buf (snd (try_send v c))) = Nat.min (cap c) (S (length (buf c)))
  \/ ~ chan_ok c.
Proof.
  unfold try_send, chan_ok. destruct (can_send c) eqn:E; cbn.
  - apply can_send_spec in E. rewrite length_app. cbn. lia.
  - apply Nat.ltb_ge in E. lia.
Qed.

Lemma try_send_sent v c : fst (try_send v c) = can_send c.
Proof. unfold try_send. by destruct (can_send c). Qed.

Lemma try_send_can_recv v c :
  (0 < cap c)%nat -> can_recv (snd (try_send v c)) = true.
Proof.
  intros Hcap. unfold try_send, can_recv.
  destruct (can_send c) eqn:E; cbn.
  - by destruct (buf c).
  - apply Nat.ltb_ge in E. destruct (buf c); cbn in *; [lia | done].
Qed.

Lemma recv_ok c v c' : recv c = Some (v, c') -> chan_ok c -> chan_ok c'.
Proof.
  unfold recv, chan_ok. destruct (buf c) eqn:E; intros; simplify_eq; cbn in *. lia.
Qed.

Lemma recv_can_recv c : is_Some (recv c) <-> can_recv c = true.
Proof. unfold recv, can_recv. destruct (buf c); split; (done || by inversion 1). Qed.

(** Values leave in the order they were sent. *)
Lemma send_recv_fifo v c :
  can_send c = true ->
  recv (snd (try_send v c)) =
    match buf c with
    | [] => Some (v, mkChan (cap c) [])
    | w :: rest => Some (w, mkChan (cap c) (rest ++ [v]))
    end.
Proof. intros E. unfold try_send, recv. rewrite E. cbn. by destruct (buf c). Qed.

End ChanLemmas.

#[export] Hint Resolve make_ok try_send_ok : sched.

(** ** Lemmas on the watcher *)

Lemma watch_seen enabled seen ch : fst (watch enabled seen ch) = enabled.
Proof. unfold watch. by destruct seen, enabled. Qed.

Lemma watch_ok enabled seen ch : chan_ok ch -> chan_ok (snd (watch enabled seen ch)).
Proof. unfold watch. destruct (negb _); cbn; auto with sched. Qed.

Lemma watch_cap enabled seen ch : cap (snd (watch enabled seen ch)) = cap ch.
Proof. unfold watch. destruct (negb _); cbn; auto using try_send_cap. Qed.

Lemma watch_same seen ch : watch seen seen ch = (seen, ch).
Proof. unfold watch. by destruct seen. Qed.

Lemma watch_edge enabled seen ch :
  enabled <> seen -> watch enabled seen ch = (enabled, snd (try_send tt ch)).
Proof. unfold watch. by destruct seen, enabled. Qed.

Lemma watch_length enabled seen ch :
  chan_ok ch ->
  length (buf (snd (watch enabled seen ch))) =
    if eqb seen enabled then length (buf ch)
    else Nat.min (cap ch) (S (length (buf ch))).
Proof.
  intros Hok. unfold watch. destruct (eqb seen enabled); cbn; [done|].
  by destruct (try_send_length tt ch).
Qed.

Lemma watcher_cons enabled rest seen ch :
  watcher (enabled :: rest) seen ch =
    watcher rest enabled (snd (watch enabled seen ch)).
Proof.
  cbn. pose proof (watch_seen enabled seen ch).
  destruct (watch enabled seen ch); cbn in *. by subst.
Qed.

Lemma watcher_ok answers seen ch :
  chan_ok ch ->
  chan_ok (snd (watcher answers seen ch))
  /\ cap (snd (watcher answers seen ch)) = cap ch.
Proof.
  revert seen ch. induction answers as [|e rest IH]; intros seen ch Hok; [done|].
  rewrite watcher_cons.
  destruct (IH e _ (watch_ok e seen ch Hok)) as [? ->].
  by rewrite watch_cap.
Qed.

Lemma watcher_length answers seen ch :
  chan_ok ch ->
  length (buf (snd (watcher answers seen ch))) =
    Nat.min (cap ch) (length (buf ch) + edges answers seen).
Proof.
  revert seen ch. induction answers as [|e rest IH]; intros seen ch Hok.
  - cbn. unfold chan_ok in Hok. lia.
  - rewrite watcher_cons, (IH e _ (watch_ok e seen ch Hok)), watch_cap,
      (watch_length e seen ch Hok).
    cbn. unfold chan_ok in Hok. destruct (eqb seen e); lia.
Qed.

(** ** The watcher goroutine *)

(** C29: after any sequence of answers of [Enabled()] the channel holds one
    wake-up for every change of the answer, up to its capacity: the
    goroutine never blocks, never overfills the channel, and drops the
    wake-ups that find it full. *)
Theorem watcher_pending answers seen ch :
  chan_ok ch ->
  chan_ok (snd (watcher answers seen ch))
  /\ length (buf (snd (watcher answers seen ch))) =
       Nat.min (cap ch) (length (buf ch) + edges answers seen).
Proof.
  intros Hok. split; [by apply watcher_ok | by apply watcher_length].
Qed.

(** The answer the goroutine compares the next one with is the last
    answer it got, whether or not the wake-up for it was dropped. *)
Theorem watcher_seen answers seen ch :
  fst (watcher answers seen ch) = default seen (last answers).
Proof.
  revert seen ch. induction answers as [|e rest IH]; intros seen ch; [done|].
  rewrite watcher_cons, IH, last_cons. by destruct (last rest).
Qed.

(** The channel of [Run] holds two wake-ups after the enabled state
    went on and off again between two cycles, so the two waits that follow
    are both cut short. *)
Example two_wakes_pending :
  buf (snd (watcher [true; false] false enabledCh0)) = [tt; tt]
  /\ buf (snd (watcher [true; false; true] false enabledCh0)) = [tt; tt].
Proof. by vm_compute. Qed.

Lemma watcher_pending_witness :
  chan_ok (snd (watcher [true; true; false; true] false enabledCh0))
  /\ length (buf (snd (watcher [true; true; false; true] false enabledCh0))) =
       Nat.min (cap enabledCh0)
         (length (buf enabledCh0) + edges [true; true; false; true] false).
Proof. apply watcher_pending. apply make_ok. Defined.
