(* ===== verification/DryRun.v ===== *)
(** * DryRun: listing the bundle instead of uploading it

    [reportToLogs] (lines 215-235 of insightsuploader.go) opens the bundle
    with [gzip.NewReader], walks the archive with [tar.Reader.Next] and
    prints one line per entry.  The bundle is represented by what the two
    decoders return on it ([Reader]): the error of [gzip.NewReader], or the
    results of the successive calls of [Next]; once these are used up
    [Next] returns [io.EOF]. *)

From stdpp Require Import base tactics strings pretty list.
From S2P Require Import Prelude Timing Status.

Module tar.

(** [tar.Header], the fields [reportToLogs] prints. *)
Record Header : Type := mkHeader {
  Name : string;
  Size : Z;
  ModTime : Time;
}.

End tar.

(** [n] spaces. *)
Fixpoint spaces (n : nat) : string :=
  match n with O => "" | S n => String (Ascii.ascii_of_nat 32) (spaces n) end.

(** A text padded with spaces on the left to [n] characters. *)
Definition pad_left (n : nat) (s : string) : string :=
  spaces (n - String.length s) +:+ s.

(** The verb [%7d]. *)
Definition Sprintf_7d (z : Z) : string := pad_left 7 (pretty z).

Section DryRun.
Context `{Errors} `{TimeFormat}.

(** What one call of [tr.Next()] returns: a header, or an error. *)
Definition NextResult : Type := tar.Header + error.

(** An [io.Reader] holding a bundle. *)
Inductive Reader : Type :=
| NotGzip (err : error)
| Archive (next : list NextResult).

(** [fmt.Sprintf("Dry-run: %s %7d %s", hdr.ModTime.Format(time.RFC3339),
    hdr.Size, hdr.Name)]. *)
Definition dry_run_line (hdr : tar.Header) : string :=
  "Dry-run: " +:+ RFC3339 (tar.ModTime hdr) +:+ " " +:+
  Sprintf_7d (tar.Size hdr) +:+ " " +:+ tar.Name hdr.

(** The loop over [tr.Next()]: the lines printed and the error returned. *)
Fixpoint list_entries (next : list NextResult) : list string * option error :=
  match next with
  | [] => ([], None)
  | inl hdr :: rest =>
      let (lines, err) := list_entries rest in (dry_run_line hdr :: lines, err)
  | inr err :: _ =>
      if decide (err = EOF) then ([], None) else ([], Some err)
  end.

(** [reportToLogs(source, klog)]: the lines printed and the error
    returned. *)
Definition reportToLogs (source : Reader) (klog : bool)
  : list string * option error :=
  if negb klog then ([], None)
  else match source with
       | NotGzip err => ([], Some err)
       | Archive next => list_entries next
       end.

(** The headers that [Next] returns before its first error. *)
Fixpoint leading_headers (next : list NextResult) : list tar.Header :=
  match next with
  | inl hdr :: rest => hdr :: leading_headers rest
  | _ => []
  end.

(** The first error of [Next], [io.EOF] when the results are used up. *)
Fixpoint first_error (next : list NextResult) : error :=
  match next with
  | [] => EOF
  | inl _ :: rest => first_error rest
  | inr err :: _ => err
  end.

(** ** Lemmas *)

Lemma list_entries_lines (next : list NextResult) :
  fst (list_entries next) = dry_run_line <$> leading_headers next.
Proof.
  induction next as [|[hdr|err] rest IH]; simpl;
    [done| |by destruct (decide (err = EOF))].
  destruct (list_entries rest); simpl in *. by rewrite IH.
Qed.

Lemma list_entries_error (next : list NextResult) :
  snd (list_entries next) =
    if decide (first_error next = EOF) then None else Some (first_error next).
Proof.
  induction next as [|[hdr|err] rest IH]; simpl.
  - by rewrite decide_True.
  - by destruct (list_entries rest).
  - by destruct (decide (err = EOF)).
Qed.

Lemma leading_headers_all (hdrs : list tar.Header) :
  leading_headers (inl <$> hdrs) = hdrs /\ first_error (inl <$> hdrs) = EOF.
Proof. induction hdrs as [|h l [IH1 IH2]]; cbn; [done|]. by rewrite IH1. Qed.

Lemma leading_headers_app (hdrs : list tar.Header) (err : error) rest :
  leading_headers ((inl <$> hdrs) ++ inr err :: rest) = hdrs
  /\ first_error ((inl <$> hdrs) ++ inr err :: rest) = err.
Proof. induction hdrs as [|h l [IH1 IH2]]; cbn; [done|]. by rewrite IH1. Qed.

Lemma leading_headers_prefix (next : list NextResult) :
  exists rest, next = (inl <$> leading_headers next) ++ rest.
Proof.
  induction next as [|[hdr|err] l [rest IH]]; cbn; [by exists []| |by eexists].
  exists rest. by rewrite <- IH.
Qed.

End DryRun.

(** ** Lemmas on the padding *)

Lemma length_spaces (n : nat) : String.length (spaces n) = n.
Proof. induction n; cbn; congruence. Qed.

Lemma length_string_app (s t : string) :
  String.length (s +:+ t) = (String.length s + String.length t)%nat.
Proof. induction s as [|a s IH]; simpl; [done | by rewrite IH]. Qed.

Lemma length_pad_left (n : nat) (s : string) :
  String.length (pad_left n s) = Nat.max n (String.length s).
Proof. unfold pad_left. rewrite length_string_app, length_spaces. lia. Qed.

Lemma pad_left_id (n : nat) (s : string) :
  (n <= String.length s)%nat -> pad_left n s = s.
Proof. intros Hn. unfold pad_left. by replace (n - _)%nat with O by lia. Qed.

(** ** The listing *)

Section Listing.
Context `{Errors} `{TimeFormat}.

(** [reportToLogs] prints nothing and returns nil when the verbosity
    is off, whatever the bundle; returns the error of [gzip.NewReader] when
    the bundle is not gzip; and otherwise prints one line for each header
    [Next] returns before its first error, in that order, and returns that
    error unless it is [io.EOF]. *)
Theorem reportToLogs_spec (source : Reader) (klog : bool) :
  reportToLogs source klog =
    match klog, source with
    | false, _ => ([], None)
    | true, NotGzip err => ([], Some err)
    | true, Archive next =>
        (dry_run_line <$> leading_headers next,
         if decide (first_error next = EOF) then None
         else Some (first_error next))
    end.
Proof.
  destruct klog, source as [err|next]; try done. cbn.
  by rewrite <- list_entries_lines, <- list_entries_error, <- surjective_pairing.
Qed.

(** A read error other than [io.EOF] stops the listing: the lines of
    the entries before it are printed, the error is returned, and nothing
    after it is read. *)
Theorem reportToLogs_read_error (hdrs : list tar.Header) (err : error)
    (rest : list NextResult) :
  err <> EOF ->
  reportToLogs (Archive ((inl <$> hdrs) ++ inr err :: rest)) true =
    (dry_run_line <$> hdrs, Some err).
Proof.
  intros Herr. cbn.
  rewrite (surjective_pairing (list_entries _)), list_entries_lines,
    list_entries_error.
  destruct (leading_headers_app hdrs err rest) as [-> ->].
  by rewrite decide_False.
Qed.

(** The size column of a line is at least seven characters wide, and
    exactly as wide as the number when that is longer. *)
Theorem Sprintf_7d_width (z : Z) :
  String.length (Sprintf_7d z) = Nat.max 7 (String.length (pretty z)).
Proof. apply length_pad_left. Qed.

End Listing.

(** The listing of an archive whose second read fails. *)
Lemma reportToLogs_read_error_witness :
  reportToLogs
    (Archive ((inl <$> [tar.mkHeader "config/version" 120 1000])
              ++ inr ("unexpected EOF", false) :: [inl (tar.mkHeader "x" 1 1)]))
    true
  = (dry_run_line <$> [tar.mkHeader "config/version" 120 1000],
     Some ("unexpected EOF", false)).
Proof. apply (reportToLogs_read_error (H := text_Errors)). discriminate. Defined.
