(* ===== verification/TarLoop.v ===== *)
(** * TarLoop: the loop of [reportToLogs] as the source runs it

    [DryRun] computes the listing from the list of what [tr.Next()]
    returns.  The source has no such list: lines 224-233 of
    insightsuploader.go are an endless [for] around [tr.Next()], left by
    [break] when the error is [io.EOF] and by [return err] on any other
    error.  Here the reader is the sequence of what its calls return, which
    need not end ([Stream]), and the loop runs on fuel: an outcome of
    [None] says the loop is still running when the fuel is spent.

    The theorems: the loop returns as soon as [Next] returns an error, with
    the lines of the headers before it, and more fuel does not change the
    result; on a reader made of a list it is [list_entries]; on a reader
    that never returns an error it prints a line per iteration and does not
    return. *)

From stdpp Require Import base tactics strings list.
From S2P Require Import Prelude Timing Status DryRun.

Section Loop.
Context `{Errors} `{TimeFormat}.

(** A [*tar.Reader]: what the call number [k] of [Next] returns. *)
Definition Stream : Type := nat -> NextResult.

(** The outcome of the loop: still running, left by [break] (the function
    then returns [nil]), or left by [return err]. *)
Definition Outcome : Type := option (option error).

(** [if err != nil { if err == io.EOF { break }; return err }],
    lines 226-231. *)
Definition on_error (err : error) : option error :=
  if decide (err = EOF) then None else Some err.

(** The loop of lines 224-233 from call [k] on: the lines printed in
    [fuel] iterations, and the outcome. *)
Fixpoint loop (fuel : nat) (tr : Stream) (k : nat) : list string * Outcome :=
  match fuel with
  | O => ([], None)
  | S fuel =>
      match tr k with
      | inr err => ([], Some (on_error err))
      | inl hdr =>
          let r := loop fuel tr (S k) in (dry_run_line hdr :: r.1, r.2)
      end
  end.

(** The source of [reportToLogs] as the two decoders see it: the error of
    [gzip.NewReader], or the reader [tar.NewReader] makes. *)
Definition Opened : Type := error + Stream.

(** [reportToLogs(source, klog)] on [fuel] iterations of its loop. *)
Definition reportToLogs_on (fuel : nat) (source : Opened) (klog : bool)
  : list string * Outcome :=
  if negb klog then ([], Some None)
  else match source with
       | inl err => ([], Some (Some err))
       | inr tr => loop fuel tr 0
       end.

(** The reader over a finite archive: [Next] returns [io.EOF] once the
    results are used up. *)
Definition of_list (next : list NextResult) : Stream :=
  fun k => default (inr EOF) (next !! k).

(** The [Reader] of [DryRun] as the decoders see it. *)
Definition open (source : Reader) : Opened :=
  match source with
  | NotGzip err => inl err
  | Archive next => inr (of_list next)
  end.

(** The headers of the calls [k], ..., [k + n - 1] of [Next]. *)
Definition headers (tr : Stream) (k n : nat) : list tar.Header :=
  omap (fun j => match tr j with inl hdr => Some hdr | inr _ => None end)
       (seq k n).

(** The call [n] of [Next] is the first that returns an error. *)
Definition first_error_at (tr : Stream) (n : nat) (err : error) : Prop :=
  tr n = inr err /\ forall j, (j < n)%nat -> exists hdr, tr j = inl hdr.

(** A reader that never returns an error. *)
Definition endless (tr : Stream) : Prop := forall k, exists hdr, tr k = inl hdr.

(** The archive with an entry per call, without end. *)
Definition zeros : Stream := fun k => inl (tar.mkHeader "zero" 0 (Z.of_nat k)).

(** ** The loop returns at the first error *)

Lemma headers_S tr k n hdr :
  tr k = inl hdr -> headers tr k (S n) = hdr :: headers tr (S k) n.
Proof. intros E. unfold headers. cbn. by rewrite E. Qed.

(** From call [k], with the first error [n] calls later, [n + 1]
    iterations or more give the lines of the [n] headers and the outcome
    of the error. *)
Lemma loop_from tr k n err fuel :
  tr (k + n)%nat = inr err ->
  (forall j, (k <= j < k + n)%nat -> exists hdr, tr j = inl hdr) ->
  (n < fuel)%nat ->
  loop fuel tr k = (dry_run_line <$> headers tr k n, Some (on_error err)).
Proof.
  revert k fuel. induction n as [|n IH]; intros k fuel He Hh Hf;
    (destruct fuel as [|fuel]; [lia|]); cbn [loop].
  - rewrite Nat.add_0_r in He. by rewrite He.
  - destruct (Hh k) as [hdr Hk]; [lia|]. rewrite Hk, (headers_S _ _ _ hdr Hk).
    rewrite (IH (S k) fuel); [done| |intros; apply Hh|]; [|lia..].
    by rewrite <- He, Nat.add_succ_r.
Qed.

(** More fuel does not change the result of a loop that has returned. *)
Lemma loop_mono fuel fuel' tr k :
  (fuel <= fuel')%nat -> is_Some (loop fuel tr k).2 ->
  loop fuel' tr k = loop fuel tr k.
Proof.
  revert fuel' k. induction fuel as [|fuel IH]; intros fuel' k Hf Hr.
  { by destruct Hr. }
  destruct fuel' as [|fuel']; [lia|]. cbn [loop] in *.
  destruct (tr k); [|done]. cbn in Hr. by rewrite (IH fuel' (S k)) by (done || lia).
Qed.

(** A loop that is still running has printed a line per iteration. *)
Lemma loop_running fuel tr k :
  endless tr ->
  (loop fuel tr k).2 = None /\ length (loop fuel tr k).1 = fuel.
Proof.
  intros He. revert k. induction fuel as [|fuel IH]; intros k; [done|].
  cbn [loop]. destruct (He k) as [hdr ->]. cbn. destruct (IH (S k)) as [-> ->].
  done.
Qed.

(** ** The loop on a finite archive *)

Lemma loop_ext fuel tr tr' k k' :
  (forall j, tr (k + j)%nat = tr' (k' + j)%nat) ->
  loop fuel tr k = loop fuel tr' k'.
Proof.
  revert k k'. induction fuel as [|fuel IH]; intros k k' Hext; [done|].
  cbn [loop]. pose proof (Hext O) as E0. rewrite !Nat.add_0_r in E0.
  rewrite E0. destruct (tr' k'); [|done].
  rewrite (IH (S k) (S k')); [done|].
  intros j. specialize (Hext (S j)). by rewrite !Nat.add_succ_r in Hext.
Qed.

Lemma loop_of_list_from next fuel :
  (length next < fuel)%nat ->
  loop fuel (of_list next) 0 = ((list_entries next).1, Some (list_entries next).2).
Proof.
  revert fuel. induction next as [|[hdr|err] next IH]; intros fuel Hf;
    (destruct fuel as [|fuel]; [cbn in Hf; lia|]); cbn [loop].
  - unfold of_list, on_error. cbn. by rewrite decide_True.
  - change (of_list (inl hdr :: next) 0%nat) with (inl (B := error) hdr).
    rewrite (loop_ext fuel _ (of_list next) 1%nat 0%nat) by done.
    rewrite IH by (cbn in Hf; lia). cbn. by destruct (list_entries next).
  - change (of_list (inr err :: next) 0%nat) with (inr (A := tar.Header) err).
    unfold on_error. cbn. by destruct (decide (err = EOF)).
Qed.

End Loop.

(** ** The theorems *)

Section Theorems.
Context `{Errors} `{TimeFormat}.

(** C11: the loop of [reportToLogs] returns as soon as [Next] returns an
    error: if the call [n] is the first to fail, any number of iterations
    above [n] prints the lines of the [n] headers before it, in order, and
    ends by [break] when the error is [io.EOF] and by [return err]
    otherwise; further fuel changes nothing. *)
Theorem loop_returns tr n err fuel :
  first_error_at tr n err -> (n < fuel)%nat ->
  loop fuel tr 0 = (dry_run_line <$> headers tr 0 n, Some (on_error err)).
Proof.
  intros [He Hh] Hf. apply loop_from; [done | | done].
  intros j Hj. apply Hh. lia.
Qed.

(** On a finite archive the loop, given one iteration more than the
    archive has results, computes the listing of [reportToLogs]: the same
    lines and the same error, for every source and either verbosity. *)
Theorem reportToLogs_loop (source : Reader) (klog : bool) fuel :
  (match source with NotGzip _ => 0 | Archive next => length next end < fuel)%nat ->
  reportToLogs_on fuel (open source) klog
  = ((reportToLogs source klog).1, Some (reportToLogs source klog).2).
Proof.
  intros Hf. unfold reportToLogs_on, reportToLogs.
  destruct klog, source as [err|next]; cbn; try done.
  by apply loop_of_list_from.
Qed.

(** C31: on a reader that never returns an error the loop does not return:
    whatever the number of iterations, it is still running and has printed
    one line in each. *)
Theorem loop_runs_on tr fuel :
  endless tr ->
  (reportToLogs_on fuel (inr tr) true).2 = None
  /\ length (reportToLogs_on fuel (inr tr) true).1 = fuel.
Proof. apply loop_running. Qed.

End Theorems.

(** ** The theorems at the archives of the examples *)

Lemma two_then_error :
  first_error_at
    (of_list [inl (tar.mkHeader "a.txt" 10 1000); inl (tar.mkHeader "b.txt" 0 2000);
              inr ("unexpected EOF", false)]) 2 ("unexpected EOF", false).
Proof.
  split; [done|]. intros [|[|j]] Hj; [by eexists..|lia].
Qed.

Lemma loop_returns_witness :
  loop 5
    (of_list [inl (tar.mkHeader "a.txt" 10 1000); inl (tar.mkHeader "b.txt" 0 2000);
              inr ("unexpected EOF", false)]) 0
  = (dry_run_line <$> [tar.mkHeader "a.txt" 10 1000; tar.mkHeader "b.txt" 0 2000],
     Some (Some ("unexpected EOF", false))).
Proof. apply (loop_returns _ 2 _ 5 two_then_error). lia. Defined.

Lemma reportToLogs_loop_witness :
  reportToLogs_on 3 (open (Archive [inl (tar.mkHeader "a.txt" 10 1000)])) true
  = ((reportToLogs (Archive [inl (tar.mkHeader "a.txt" 10 1000)]) true).1,
     Some (reportToLogs (Archive [inl (tar.mkHeader "a.txt" 10 1000)]) true).2).
Proof. apply (reportToLogs_loop (H := text_Errors)). cbn. lia. Defined.

Lemma zeros_endless : endless zeros.
Proof. intros k. by eexists. Qed.

Lemma loop_runs_on_witness :
  (reportToLogs_on 100 (inr zeros) true).2 = None
  /\ length (reportToLogs_on 100 (inr zeros) true).1 = 100%nat.
Proof. apply (loop_runs_on (H := text_Errors) zeros 100 zeros_endless). Defined.
