(* ===== verification/Forever.v ===== *)
(** * Forever: the loops of the source as they run

    Two loops of insightsuploader.go have no bound: the [for] of the
    watcher goroutine (lines 69-79), which has no exit at all, and the
    [for] of [reportToLogs] (lines 224-233), left only when [tr.Next()]
    returns an error.  [Channel] and [TarLoop] model them by their finite
    prefixes, a list of answers and a number of iterations.  Here they are
    the loops themselves: interaction trees built with [ITree.iter] from
    the body of the [for], over the calls the body makes ([watcherE],
    [tarE]).  The type of [goroutine] says that it does not return.

    A handler gives the calls their meaning in a world (the answers of the
    client by the time, the reader of the archive) and leaves visible what
    the loop does to the outside: which case of the [select] ran and the
    sleeps ([seenE]), the lines printed ([logE]).  The equivalence is that
    of the library, up to silent steps, so two trees are equivalent when
    they show the same events in the same order and return the same.

    The theorems tie the prefixes to the loops: the goroutine is what is
    seen of its first [n] iterations followed by the goroutine from the
    state [Channel.watcher] computes; the loop of [reportToLogs] returns
    what [TarLoop.loop] returns on enough fuel, hence the listing of
    [DryRun] on every finite archive, and on a reader without end it
    prints without end. *)

From stdpp Require Import base tactics strings list.
From ITree Require Import ITree ITreeFacts Events.State Events.StateFacts.
From S2P Require Import Prelude Timing Status Channel DryRun TarLoop.

(** The notation of [Prelude] for sequencing, on interaction trees. *)
Declare Scope tree_scope.
Delimit Scope tree_scope with tree.
Notation "x <- m ;; k" := (ITree.bind m (fun x => k))
  (at level 100, m at next level, right associativity) : tree_scope.
Notation "m ;; k" := (ITree.bind m (fun _ => k))
  (at level 100, right associativity) : tree_scope.
#[local] Open Scope tree_scope.

Section Loops.
Context `{Errors} `{TimeFormat}.

(** ** The watcher goroutine *)

(** What the goroutine does to the world: the call of [Enabled()], the
    non-blocking send, the sleep. *)
Variant watcherE : Type -> Type :=
| Enabled_ : watcherE bool
| Wake_ : watcherE unit
| Sleep_ (d : Duration) : watcherE unit.

(** The body of the [for], lines 70-78; the result is the next
    [initialEnabled]. *)
Definition watcher_body (initialEnabled : bool) : itree watcherE (bool + void) :=
  enabled <- trigger Enabled_ ;;
  seen <- (if negb (eqb initialEnabled enabled)
           then (trigger Wake_ ;; Ret enabled)
           else Ret initialEnabled) ;;
  trigger (Sleep_ (2 * time.Minute)) ;;
  Ret (inl seen).

(** [go func() { for { ... } }()], lines 68-80: a loop without exit. *)
Definition goroutine (initialEnabled : bool) : itree watcherE void :=
  ITree.iter watcher_body initialEnabled.

(** What can be seen of the goroutine: which case of its [select] ran,
    and its sleeps. *)
Variant seenE : Type -> Type :=
| Sent_ (ok : bool) : seenE unit
| Slept_ (d : Duration) : seenE unit.

(** The clock and the channel. *)
Record Watch : Type := mkWatch { at_time : Time; chan : Chan unit }.

(** The goroutine in a world where the client answers [answer t] at time
    [t]. *)
Definition handle_watcher (answer : Time -> bool)
  : forall T, watcherE T -> Monads.stateT Watch (itree seenE) T :=
  fun _ e st =>
    match e with
    | Enabled_ => Ret (st, answer (at_time st))
    | Wake_ =>
        let r := try_send tt (chan st) in
        trigger (Sent_ r.1) ;; Ret (mkWatch (at_time st) r.2, tt)
    | Sleep_ d =>
        trigger (Slept_ d) ;; Ret (mkWatch (at_time st + d) (chan st), tt)
    end.

Definition run_watcher (answer : Time -> bool) (seen : bool) (st : Watch)
  : itree seenE (Watch * void) :=
  interp_state (handle_watcher answer) (goroutine seen) st.

(** What is seen of the iterations over the answers [answers]. *)
Fixpoint iterations (answers : list bool) (seen : bool) (ch : Chan unit)
  : itree seenE unit :=
  match answers with
  | [] => Ret tt
  | enabled :: rest =>
      (if negb (eqb seen enabled) then trigger (Sent_ (can_send ch)) else Ret tt) ;;
      trigger (Slept_ (2 * time.Minute)) ;;
      iterations rest (watch enabled seen ch).1 (watch enabled seen ch).2
  end.

(** The answers at the [n] polls from time [t]. *)
Definition answers_from (answer : Time -> bool) (t : Time) (n : nat) : list bool :=
  (fun j => answer (t + Z.of_nat j * (2 * time.Minute))) <$> seq 0 n.

(** ** The loop of [reportToLogs] *)

(** What the loop does to the world: [tr.Next()] and [klog.Infof]. *)
Variant tarE : Type -> Type :=
| Next_ : tarE NextResult
| Infof_ (line : string) : tarE unit.

(** The body of the [for], lines 225-232: [inr] leaves the loop, by
    [break] or by [return err]. *)
Definition loop_body (_ : unit) : itree tarE (unit + option error) :=
  r <- trigger Next_ ;;
  match r with
  | inr err => Ret (inr (on_error err))
  | inl hdr => trigger (Infof_ (dry_run_line hdr)) ;; Ret (inl tt)
  end.

(** [for { ... }; return nil], lines 224-234. *)
Definition loop_tree : itree tarE (option error) := ITree.iter loop_body tt.

(** What can be seen of the loop: the lines it prints. *)
Variant logE : Type -> Type :=
| Printed_ (line : string) : logE unit.

(** The loop on the reader [tr]: the state is the number of calls of
    [Next] made. *)
Definition handle_tar (tr : Stream)
  : forall T, tarE T -> Monads.stateT nat (itree logE) T :=
  fun _ e k =>
    match e with
    | Next_ => Ret (S k, tr k)
    | Infof_ line => trigger (Printed_ line) ;; Ret (k, tt)
    end.

Definition run_loop (tr : Stream) (k : nat) : itree logE (option error) :=
  ITree.map snd (interp_state (handle_tar tr) loop_tree k).

(** [reportToLogs(source, klog)], lines 215-235, on what the decoders
    make of the bundle. *)
Definition run_reportToLogs (source : Opened) (klog : bool)
  : itree logE (option error) :=
  if negb klog then Ret None
  else match source with
       | inl err => Ret (Some err)
       | inr tr => run_loop tr 0
       end.

(** The lines printed, one after the other. *)
Fixpoint printed (lines : list string) : itree logE unit :=
  match lines with
  | [] => Ret tt
  | line :: rest => trigger (Printed_ line) ;; printed rest
  end.

End Loops.

(** ** Reasoning on interpreted trees *)

#[local] Opaque can_send try_send.

Ltac tree_simpl :=
  repeat (progress (rewrite ?interp_state_bind, ?interp_state_trigger,
                      ?interp_state_ret; cbn));
  repeat first [ setoid_rewrite Eqit.bind_bind | setoid_rewrite Eqit.bind_ret_l ];
  cbn.

Ltac tree_step :=
  first [ progress tree_simpl
        | rewrite interp_state_tau | rewrite tau_eutt | rewrite try_send_sent
        | apply eqit_bind; [reflexivity | intros []] ].

(** ** The goroutine, by its iterations *)

Lemma goroutine_iteration answer t seen ch :
  run_watcher answer seen (mkWatch t ch)
  ≈ (iterations [answer t] seen ch ;;
     run_watcher answer (watch (answer t) seen ch).1
       (mkWatch (t + 2 * time.Minute) (watch (answer t) seen ch).2)).
Proof.
  unfold run_watcher, goroutine. rewrite unfold_iter at 1.
  unfold watcher_body at 1. unfold watch. tree_simpl.
  destruct (negb (eqb seen (answer t))); repeat tree_step; reflexivity.
Qed.

Lemma answers_from_S answer t n :
  answers_from answer t (S n)
  = answer t :: answers_from answer (t + 2 * time.Minute) n.
Proof.
  unfold answers_from. cbn [seq fmap list_fmap]. f_equal; [f_equal; lia|].
  rewrite <- fmap_S_seq, <- list_fmap_compose. apply list_fmap_ext.
  intros _ j _. cbn. f_equal. lia.
Qed.

(** ** The loop of [reportToLogs], by its iterations *)

Section Tar.
Context `{Errors} `{TimeFormat}.

Lemma run_loop_header tr k hdr :
  tr k = inl hdr ->
  run_loop tr k ≈ (printed [dry_run_line hdr] ;; run_loop tr (S k)).
Proof.
  intros Hk. unfold run_loop, ITree.map, loop_tree. rewrite unfold_iter at 1.
  unfold loop_body at 1. tree_simpl. rewrite Hk. repeat tree_step. reflexivity.
Qed.

Lemma run_loop_error tr k err :
  tr k = inr err -> run_loop tr k ≈ Ret (on_error err).
Proof.
  intros Hk. unfold run_loop, ITree.map, loop_tree. rewrite unfold_iter at 1.
  unfold loop_body at 1. tree_simpl. rewrite Hk. repeat tree_step. reflexivity.
Qed.

(** While [Next] returns headers the loop prints their lines and goes
    on. *)
Lemma run_loop_headers tr k n :
  (forall j, (k <= j < k + n)%nat -> exists hdr, tr j = inl hdr) ->
  run_loop tr k
  ≈ (printed (dry_run_line <$> headers tr k n) ;; run_loop tr (k + n)).
Proof.
  revert k. induction n as [|n IH]; intros k Hh.
  { cbn. rewrite Eqit.bind_ret_l, Nat.add_0_r. reflexivity. }
  destruct (Hh k) as [hdr Hk]; [lia|].
  rewrite (run_loop_header tr k hdr Hk), (headers_S _ _ _ hdr Hk).
  cbn [fmap list_fmap printed]. repeat tree_step.
  rewrite (IH (S k)) by (intros; apply Hh; lia).
  by rewrite Nat.add_succ_r.
Qed.

(** What the loop on fuel returns, the loop returns. *)
Lemma loop_sound fuel tr k lines r :
  loop fuel tr k = (lines, Some r) -> run_loop tr k ≈ (printed lines ;; Ret r).
Proof.
  revert k lines. induction fuel as [|fuel IH]; intros k lines; [done|].
  cbn [loop]. destruct (tr k) as [hdr|err] eqn:Hk.
  - destruct (loop fuel tr (S k)) as [lines' o] eqn:E. intros [= <- ->].
    rewrite (run_loop_header tr k hdr Hk). cbn [printed]. repeat tree_step.
    by apply IH.
  - intros [= <- <-]. rewrite (run_loop_error tr k err Hk). cbn.
    by rewrite Eqit.bind_ret_l.
Qed.

End Tar.

(** ** The theorems *)

Section Theorems.
Context `{Errors} `{TimeFormat}.

(** C13: the watcher goroutine is its iterations: in a world where the
    client answers [answer t] at time [t], the endless loop started at time
    [t] shows, for every [n], what [n] iterations show (a send at each
    change of the answer, with the case of the [select] that ran, and a
    sleep of two minutes each) and goes on as the goroutine started two
    minutes times [n] later with the variable and the channel that
    [watcher] computes from the [n] answers. *)
Theorem goroutine_prefix n answer t seen ch :
  let l := answers_from answer t n in
  run_watcher answer seen (mkWatch t ch)
  ≈ (iterations l seen ch ;;
     run_watcher answer (watcher l seen ch).1
       (mkWatch (t + Z.of_nat n * (2 * time.Minute)) (watcher l seen ch).2)).
Proof.
  cbn zeta. revert t seen ch. induction n as [|n IH]; intros t seen ch.
  { cbn. rewrite Eqit.bind_ret_l, Z.add_0_r. reflexivity. }
  rewrite goroutine_iteration, answers_from_S, watcher_cons.
  cbn [iterations]. repeat tree_step.
  rewrite IH, watch_seen.
  replace (t + 2 * time.Minute + Z.of_nat n * (2 * time.Minute))
    with (t + Z.of_nat (S n) * (2 * time.Minute)) by lia.
  reflexivity.
Qed.

(** The loop of [reportToLogs] returns at the first error of [Next]: it
    prints the lines of the headers before it, and returns [nil] when the
    error is [io.EOF] and the error otherwise. *)
Theorem loop_tree_returns tr n err :
  first_error_at tr n err ->
  run_loop tr 0 ≈ (printed (dry_run_line <$> headers tr 0 n) ;; Ret (on_error err)).
Proof.
  intros [He Hh]. apply (loop_sound (S n)), loop_from; [done | | lia].
  intros j Hj. apply Hh. lia.
Qed.

(** C30: [reportToLogs] as it runs, its loop without fuel, is the listing
    of [DryRun] on every finite archive: for every bundle and either
    verbosity it prints the lines of [reportToLogs], in order, and returns
    its error. *)
Theorem reportToLogs_tree_spec (source : Reader) (klog : bool) :
  run_reportToLogs (open source) klog
  ≈ (printed (reportToLogs source klog).1 ;; Ret (reportToLogs source klog).2).
Proof.
  unfold run_reportToLogs, reportToLogs.
  destruct klog, source as [err|next]; cbn; rewrite ?Eqit.bind_ret_l; try reflexivity.
  apply (loop_sound (S (length next))), loop_of_list_from. lia.
Qed.

(** On a reader that never returns an error the loop prints without
    end: it is the lines of its first [n] headers followed by the loop from
    call [n] on, for every [n]. *)
Theorem loop_tree_runs_on tr n :
  endless tr ->
  run_loop tr 0 ≈ (printed (dry_run_line <$> headers tr 0 n) ;; run_loop tr n).
Proof. intros He. apply (run_loop_headers tr 0 n). intros j _. apply He. Qed.

End Theorems.

Lemma loop_tree_returns_witness :
  run_loop
    (of_list [inl (tar.mkHeader "a.txt" 10 1000); inl (tar.mkHeader "b.txt" 0 2000);
              inr ("unexpected EOF", false)]) 0
  ≈ (printed (dry_run_line <$> [tar.mkHeader "a.txt" 10 1000; tar.mkHeader "b.txt" 0 2000]) ;;
     Ret (Some ("unexpected EOF", false))).
Proof. apply (loop_tree_returns _ 2 _ two_then_error). Defined.

Lemma loop_tree_runs_on_witness :
  run_loop zeros 0 ≈ (printed (dry_run_line <$> headers zeros 0 3) ;; run_loop zeros 3).
Proof. apply (loop_tree_runs_on (H := text_Errors) zeros 3 zeros_endless). Defined.
