(* ===== verification/Uploader.v ===== *)
(** * Uploader: the controller of package insightsuploader

    The interfaces and the [Controller] struct, the state of a run, and the
    three functions of the package: the start of [Run] ([startup]), the
    closure [wait.Until] calls ([cycle]) and [Init].

    The collaborators are objects behind references: their methods are
    functions of the state of the rest of the process at the time of the
    call, a value of the type [Heap] that this file never looks into.  What
    changes from one cycle to the next without the scheduler's doing (the
    heap, the clock, the random source, which ready case a [select]
    takes) is the [Env] of the cycle. *)

From Stdlib Require Import QArith.
From stdpp Require Import base tactics strings list.
From S2P Require Import Prelude Timing Status Channel DryRun.

#[local] Open Scope Z_scope.

(** ** Contexts *)

(** A [context.Context], as far as its ancestry and deadline go:
    [RunContext] is the parameter [ctx] of [Run]. *)
Inductive Context : Type :=
| Background
| RunContext
| WithCancel (parent : Context)
| WithTimeout (parent : Context) (timeout : Duration).

(** The context is cancelled when [ancestor] is. *)
Fixpoint derives_from (ancestor ctx : Context) : bool :=
  match ctx with
  | Background => match ancestor with Background => true | _ => false end
  | RunContext => match ancestor with RunContext => true | _ => false end
  | WithCancel parent => derives_from ancestor parent
  | WithTimeout parent _ => derives_from ancestor parent
  end.

Module insightsclient.
Section Client.
Context `{Errors} {Heap : Type}.

(** [insightsclient.Source]. *)
Record Source : Type := mkSource {
  ID : string;
  Type_ : string;
  Contents : Reader;
}.

(** The methods of [*insightsclient.Client] the controller calls. *)
Record Client : Type := mkClient {
  Enabled : Heap -> bool * Duration * string;
  Send : Heap -> Context -> Source -> option error;
  Endpoint : string;
}.

End Client.
Arguments Client {_} Heap.
End insightsclient.

Section Interfaces.
Context `{Errors} {Heap : Type}.

(** [type Authorizer interface]. *)
Record Authorizer : Type := mkAuthorizer {
  Authorizer_Enabled : Heap -> bool;
  Authorizer_IsAuthorizationError : error -> bool;
}.

(** [type Summarizer interface]. *)
Record Summarizer : Type := mkSummarizer {
  Summary_ : Heap -> Context -> Time -> Reader * bool * option error;
}.

End Interfaces.
Arguments Authorizer {_} Heap.
Arguments Summarizer {_} Heap.

(** [type StatusReporter interface]: an object of type [R] that holds the
    time of the last report. *)
Class StatusReporter (R : Type) : Type := {
  LastReportedTime : R -> Time;
  SetLastReportedTime : R -> Time -> R;
}.

(** A reporter is durable when it gives back what was set. *)
Class Durable (R : Type) `{StatusReporter R} : Prop := {
  get_set r t : LastReportedTime (SetLastReportedTime r t) = t;
}.

(** The simplest reporter: a cell. *)
#[export] Instance cell_reporter : StatusReporter Time := {|
  LastReportedTime := fun r => r;
  SetLastReportedTime := fun _ t => t;
|}.

#[export] Instance cell_durable : Durable Time.
Proof. by constructor. Qed.

Module Controller.
Section Struct.
Context `{Errors} {Heap R : Type}.

(** [type Controller struct]. *)
Record t : Type := mk {
  Simple : controllerstatus.Simple;
  summarizer : Summarizer Heap;
  client : option (insightsclient.Client Heap);
  reporter : R;
  interval : Duration;
}.

End Struct.
Arguments t {_} Heap R.
End Controller.

(** [func New]. *)
Definition New `{Errors} {Heap R : Type} (summarizer : Summarizer Heap)
    (client : option (insightsclient.Client Heap)) (statusReporter : R)
    (interval : Duration) : Controller.t Heap R :=
  {| Controller.Simple := controllerstatus.mkSimple "insightsuploader" None;
     Controller.summarizer := summarizer;
     Controller.client := client;
     Controller.reporter := statusReporter;
     Controller.interval := interval |}.

(** ** The state of a run *)

(** A call of a collaborator. *)
Inductive Call `{Errors} : Type :=
| CallEnabled
| CallEndpoint
| CallSummary (ctx : Context) (since : Time)
| CallSend (ctx : Context) (src : insightsclient.Source)
| CallSetLastReportedTime (t : Time)
| CallUpdateStatus (x : Summary)
| CallClose
| CallCancel.

(** The case a [select] takes. *)
Inductive Wake : Type := WakeDone | WakeTimer | WakeEnabled.

#[export] Instance Wake_eq_dec : EqDecision Wake.
Proof. solve_decision. Defined.

(** A line of klog: its level ([None] for [Errorf]) and its text. *)
Definition LogLine : Type := option nat * string.

Section State.
Context `{Errors} {Heap R : Type}.

(** The controller [c] points to, the variables of [Run] its closure
    captures, the channel, and the calls and log lines so far, the latest
    first. *)
Record State : Type := mkState {
  c : Controller.t Heap R;
  initialDelay : Duration;
  interval : Duration;
  lastReported : Time;
  enabledCh : Chan unit;
  calls : list Call;
  logs : list LogLine;
}.

Definition set_c (f : Controller.t Heap R -> Controller.t Heap R) (s : State) : State :=
  mkState (f (c s)) (initialDelay s) (interval s) (lastReported s)
          (enabledCh s) (calls s) (logs s).

Definition set_initialDelay (d : Duration) (s : State) : State :=
  mkState (c s) d (interval s) (lastReported s) (enabledCh s) (calls s) (logs s).

Definition set_interval (d : Duration) (s : State) : State :=
  mkState (c s) (initialDelay s) d (lastReported s) (enabledCh s) (calls s) (logs s).

Definition set_lastReported (t : Time) (s : State) : State :=
  mkState (c s) (initialDelay s) (interval s) t (enabledCh s) (calls s) (logs s).

Definition set_enabledCh (ch : Chan unit) (s : State) : State :=
  mkState (c s) (initialDelay s) (interval s) (lastReported s) ch (calls s) (logs s).

Definition record (x : Call) (s : State) : State :=
  mkState (c s) (initialDelay s) (interval s) (lastReported s)
          (enabledCh s) (x :: calls s) (logs s).

Definition with_logs (f : list LogLine -> list LogLine) (s : State) : State :=
  mkState (c s) (initialDelay s) (interval s) (lastReported s)
          (enabledCh s) (calls s) (f (logs s)).

(** What a cycle finds around it. *)
Record Env : Type := mkEnv {
  heap : Heap;
  pick : Wake;
  cancelled : bool;
  now : Time;
  finished : Time;
  rnd : Q;
  verbosity : nat;
}.

End State.
Arguments State {_} Heap R.
Arguments Env Heap : clear implicits.

(** ** The operations *)

Section Run.
Context `{Errors} `{TimeFormat} `{Jitterer} {Heap R : Type} `{StatusReporter R}.
Local Open Scope proc_scope.
Implicit Types (env : Env Heap) (s : State Heap R).

#[local] Abbreviation Proc := (Proc (State Heap R)).

(** The summaries the controller publishes. *)
Definition SummaryFailed (err : error) : Summary :=
  mkSummary false false "SummaryFailed"
    (Sprintf_v "Unable to retrieve local support data: " err).

Definition NotAuthorized (err : error) : Summary :=
  mkSummary false false "NotAuthorized"
    (Sprintf_v "Uploading support data was not allowed: " err).

Definition UploadFailed (err : error) : Summary :=
  mkSummary false false "UploadFailed"
    (Sprintf_v "Unable to upload support data: " err).

Definition HealthySummary : Summary := mkSummary true false "" "".

Definition DisabledSummary (disabledReason disabledMessage : string) : Summary :=
  mkSummary false true
    (or_default disabledReason "Disabled")
    (or_default disabledMessage "Uploading reports has been disabled").

(** [klog.V(n)]. *)
Definition klog_V (n : nat) env : bool := (n <=? verbosity env)%nat.

(** [klog.V(n).Infof(msg)]: the line is printed at this verbosity or
    dropped. *)
Definition Infof env (n : nat) (msg : string) : Proc unit :=
  modify (with_logs (fun ls => if klog_V n env then (Some n, msg) :: ls else ls)).

(** [c.Simple.UpdateStatus(x)]. *)
Definition Simple_UpdateStatus (x : Summary) : Proc unit :=
  modify (fun s =>
    record (CallUpdateStatus x)
      (set_c (fun c => Controller.mk
                (controllerstatus.UpdateStatus (Controller.Simple c) x)
                (Controller.summarizer c) (Controller.client c)
                (Controller.reporter c) (Controller.interval c)) s)).

(** [c.reporter.SetLastReportedTime(t)]. *)
Definition SetLastReported (t : Time) : Proc unit :=
  modify (fun s =>
    record (CallSetLastReportedTime t)
      (set_c (fun c => Controller.mk
                (Controller.Simple c) (Controller.summarizer c)
                (Controller.client c)
                (SetLastReportedTime (Controller.reporter c) t)
                (Controller.interval c)) s)).

(** The case the [select] of the closure takes: the one the runtime
    picks if it is ready, and the timer, which always fires, otherwise. *)
Definition ready (p : Wake) (cancelled : bool) (ch : Chan unit) : Wake :=
  match p with
  | WakeDone => if cancelled then WakeDone else WakeTimer
  | WakeEnabled => if can_recv ch then WakeEnabled else WakeTimer
  | WakeTimer => WakeTimer
  end.

(** The [select] statement: the case [<-enabledCh] takes a value from the
    channel and prints a line, the other two do nothing. *)
Definition wake env s : State Heap R :=
  let w := ready (pick env) (cancelled env) (enabledCh s) in
  mkState (c s) (initialDelay s) (interval s) (lastReported s)
    (match w, recv (enabledCh s) with
     | WakeEnabled, Some (_, ch') => ch'
     | _, _ => enabledCh s
     end)
    (calls s)
    (match w with
     | WakeEnabled =>
         if klog_V 2 env then (Some 2%nat, "Reporting was enabled") :: logs s
         else logs s
     | _ => logs s
     end).

(** [if initialDelay > 0 { select {...}; initialDelay = 0 }]. *)
Definition select_wait env : Proc unit :=
  d <- gets initialDelay ;;
  when (0 <? d) (
    modify (wake env) ;;
    modify (set_initialDelay 0)).

(** The query of the enabled state: [enabled], [disabledReason] and
    [disabledMessage]; the working interval is set on the way. *)
Definition query_enabled env : Proc (bool * string * string) :=
  cl <- gets (fun s => Controller.client (c s)) ;;
  match cl with
  | Some cl =>
      modify (record CallEnabled) ;;
      let '(enabled, nextInterval, disabledMessage) :=
        insightsclient.Enabled cl (heap env) in
      ci <- gets (fun s => Controller.interval (c s)) ;;
      modify (set_interval (if 0 <? nextInterval then nextInterval else ci)) ;;
      ret (enabled, "", disabledMessage)
  | None => ret (false, "NotConfigured", "Reporting has been disabled")
  end.

(** The branch [if enabled]: send the bundle and classify the failure. *)
Definition upload env (ctx : Context) (source : Reader) : Proc unit :=
  let start := now env in
  let id := RFC3339 start in
  lr <- gets lastReported ;;
  Infof env 4 ("Uploading latest report since " +:+ RFC3339 lr) ;;
  cl <- gets (fun s => Controller.client (c s)) ;;
  match cl with
  | None => Panic
  | Some cl =>
      let src := insightsclient.mkSource id
                   "application/vnd.redhat.openshift.periodic" source in
      modify (record (CallSend ctx src)) ;;
      match insightsclient.Send cl (heap env) ctx src with
      | Some err =>
          i <- gets interval ;;
          if decide (err = ErrWaitingForVersion) then
            modify (set_initialDelay (jitter (i ÷ 8) 1 (rnd env) - i ÷ 8)) ;;
            Return
          else if IsAuthorizationError err then
            Simple_UpdateStatus (NotAuthorized err) ;;
            modify (set_initialDelay (jitter i 3 (rnd env))) ;;
            Return
          else
            modify (set_initialDelay (jitter (i ÷ 8) 1.2 (rnd env))) ;;
            Simple_UpdateStatus (UploadFailed err) ;;
            Return
      | None =>
          Infof env 4 ("Uploaded report successfully in " +:+
                       Duration_String (time.Sub (finished env) start)) ;;
          modify (set_lastReported (time.UTC start)) ;;
          SetLastReported (time.UTC start) ;;
          Simple_UpdateStatus HealthySummary
      end
  end.

(** What [reportToLogs] and the [klog.Errorf] after it add to the log:
    the lines of the listing, then the error if there is one. *)
Definition dry_run_logs (r : list string * option error) (ls : list LogLine)
  : list LogLine :=
  match r.2 with
  | Some err => [(None, Sprintf_v "Unable to log upload: " err)]
  | None => []
  end ++ rev ((fun l => (Some 4%nat, l)) <$> r.1) ++ ls.

(** The branch [else]: list the bundle, write the watermark back, publish
    the disabled summary. *)
Definition dry_run env (source : Reader)
    (disabledReason disabledMessage : string) : Proc unit :=
  Infof env 4 "Display report that would be sent" ;;
  modify (with_logs (dry_run_logs (reportToLogs source (klog_V 4 env)))) ;;
  lr <- gets lastReported ;;
  SetLastReported lr ;;
  Simple_UpdateStatus (DisabledSummary disabledReason disabledMessage).

(** The closure [wait.Until] calls. *)
Definition cycle env : Proc unit :=
  select_wait env ;;
  q <- query_enabled env ;;
  let '(enabled, disabledReason, disabledMessage) := q in
  let ctx := WithTimeout Background time.Minute in
  defer (record CallCancel) (
    lr <- gets lastReported ;;
    sm <- gets (fun s => Controller.summarizer (c s)) ;;
    modify (record (CallSummary ctx lr)) ;;
    let '(source, ok, err) := Summary_ sm (heap env) ctx lr in
    match err with
    | Some err => Simple_UpdateStatus (SummaryFailed err) ;; Return
    | None =>
        if negb ok then
          Infof env 4 ("Nothing to report since " +:+ RFC3339 lr) ;; Return
        else
          defer (record CallClose) (
            (if enabled then upload env ctx source
             else dry_run env source disabledReason disabledMessage) ;;
            i <- gets interval ;;
            modify (set_initialDelay (jitter i 1.2 (rnd env))))
    end).

(** One call of the closure, and a sequence of calls. *)
Definition step env s : State Heap R := call (cycle env) s.

Definition steps (envs : list (Env Heap)) s : State Heap R :=
  foldl (fun s env => step env s) s envs.

(** ** The start of [Run] *)

(** What the start of [Run] finds around it: two draws of the random
    source, one for each call of [wait.Jitter]. *)
Record StartEnv : Type := mkStartEnv {
  heap0 : Heap;
  now0 : Time;
  rnd0 : Q;
  rnd1 : Q;
  verbosity0 : nat;
}.

(** The variables of [Run] as declared: [interval := c.interval],
    [enabledCh := make(chan struct{}, 2)]. *)
Definition Run_vars (c0 : Controller.t Heap R) : State Heap R :=
  mkState c0 0 (Controller.interval c0) 0 enabledCh0 [] [].

(** The initial delay: a jittered eighth of the interval, replaced when the
    last report is less than an interval old. *)
Definition start_delay (interval : Duration) (lastReported now : Time)
    (r0 r1 : Q) : Duration :=
  let initialDelay := jitter (interval ÷ 8) 2 r0 in
  if negb (time.IsZero lastReported) then
    let next := time.Add lastReported interval in
    if time.After next now then jitter (time.Sub now next) 1.2 r1
    else initialDelay
  else initialDelay.

(** [Run] up to the call of [wait.Until]: the result is the
    [initialEnabled] the watcher goroutine starts with, if it is started. *)
Definition startup (e : StartEnv) : Proc (option bool) :=
  cl <- gets (fun s => Controller.client (c s)) ;;
  watcher <-
    match cl with
    | Some cl =>
        modify (record CallEnabled) ;;
        let '(initialEnabled, nextInterval, _) :=
          insightsclient.Enabled cl (heap0 e) in
        when (0 <? nextInterval) (modify (set_interval nextInterval)) ;;
        ret (Some initialEnabled)
    | None => ret None
    end ;;
  i <- gets interval ;;
  r <- gets (fun s => Controller.reporter (c s)) ;;
  modify (set_lastReported (LastReportedTime r)) ;;
  let d := start_delay i (LastReportedTime r) (now0 e) (rnd0 e) (rnd1 e) in
  modify (set_initialDelay d) ;;
  match cl with
  | None => Panic
  | Some cl =>
      modify (record CallEndpoint) ;;
      modify (with_logs (fun ls =>
        if (2 <=? verbosity0 e)%nat then
          (Some 2%nat,
           "Reporting status periodically to " +:+ insightsclient.Endpoint cl
           +:+ " every " +:+ Duration_String i +:+ ", starting in "
           +:+ Duration_String (time.Truncate d time.Second)) :: ls
        else ls)) ;;
      ret watcher
  end.

(** ** [Init] *)

(** [func (c *Controller) Init()]: the summary it publishes. *)
Definition Init_summary (h : Heap) (c0 : Controller.t Heap R) : Summary :=
  let '(enabled, disabledReason, disabledMessage) :=
    match Controller.client c0 with
    | Some cl =>
        let '(enabled, _, disabledMessage) := insightsclient.Enabled cl h in
        (enabled, "", disabledMessage)
    | None => (false, "NotConfigured", "Reporting has been disabled")
    end in
  if enabled then HealthySummary
  else DisabledSummary disabledReason disabledMessage.

Definition Init (h : Heap) (c0 : Controller.t Heap R) : Controller.t Heap R :=
  Controller.mk
    (controllerstatus.UpdateStatus (Controller.Simple c0) (Init_summary h c0))
    (Controller.summarizer c0) (Controller.client c0)
    (Controller.reporter c0) (Controller.interval c0).

End Run.
Arguments klog_V : simpl never.

#[export] Hint Unfold step cycle select_wait query_enabled upload dry_run
  Infof Simple_UpdateStatus SetLastReported startup : proc.

(** Run a procedure of this file on a symbolic state: unfold, compute, and
    split on the answers the computation waits for. *)
Ltac run_proc := repeat (first [ progress proc_simpl | case_match; simplify_eq ]).
