(* ===== verification/Scenario.v ===== *)
(** * Scenario: concrete collaborators to run the model on

    A heap that scripts the answers of the upload client and of the
    summarizer, a controller built by [New] over it, and environments for
    the paths of a cycle.  Errors are [text_Errors], time stamps print in
    decimal, the jitter is [wait_Jitter] and the reporter a cell. *)

From Stdlib Require Import QArith.
From stdpp Require Import base tactics strings list.
From S2P Require Import Prelude Timing Status Channel DryRun Uploader.

#[local] Open Scope Z_scope.

(** What the collaborators answer in one cycle. *)
Record Script : Type := mkScript {
  enabled_ans : bool * Duration * string;
  summary_ans : Reader * bool * option error;
  send_ans : option error;
}.

Definition script_client : insightsclient.Client Script :=
  insightsclient.mkClient enabled_ans (fun h _ _ => send_ans h)
    "https://cloud.redhat.com/api/ingress/v1/upload".

Definition script_summarizer : Summarizer Script :=
  mkSummarizer (fun h _ _ => summary_ans h).

(** Ten minutes, in nanoseconds. *)
Definition ten_minutes : Duration := 10 * time.Minute.

(** A controller with a client, and one without. *)
Definition demo : Controller.t Script Time :=
  New script_summarizer (Some script_client) 0 ten_minutes.

Definition demo_unconfigured : Controller.t Script Time :=
  New script_summarizer None 0 ten_minutes.

(** The archive of the dry-run example of the specification. *)
Definition two_entries : list tar.Header :=
  [tar.mkHeader "a.txt" 10 1000; tar.mkHeader "b.txt" 0 2000].

Definition bundle : Reader := Archive (inl <$> two_entries).

Definition auth_error : error := ("401 Unauthorized", true).
Definition net_error : error := ("connection refused", false).
Definition disk_error : error := ("disk full", false).

(** An environment at time [t] with the given answers: the timer fires, the
    random source yields one half, the logger prints everything. *)
Definition env_at (t : Time) (h : Script) : Env Script :=
  mkEnv h WakeTimer false t (t + 1) (1 # 2) 4.

Definition upload_ok : Script := mkScript (true, 0, "") (bundle, true, None) None.
Definition upload_waiting : Script :=
  mkScript (true, 0, "") (bundle, true, None) (Some ErrWaitingForVersion).
Definition upload_denied : Script :=
  mkScript (true, 0, "") (bundle, true, None) (Some auth_error).
Definition upload_broken : Script :=
  mkScript (true, 0, "") (bundle, true, None) (Some net_error).
Definition switched_off : Script :=
  mkScript (false, 0, "") (bundle, true, None) None.
Definition nothing_new : Script :=
  mkScript (true, 0, "") (NotGzip EOF, false, None) None.
Definition summary_broken : Script :=
  mkScript (true, 0, "") (NotGzip EOF, false, Some disk_error) None.

(** A bundle whose second entry cannot be read, while reporting is off. *)
Definition truncated : Reader :=
  Archive [inl (tar.mkHeader "a.txt" 10 1000); inr disk_error].

Definition switched_off_truncated : Script :=
  mkScript (false, 0, "") (truncated, true, None) None.

(** The environment with another verbosity of the logger. *)
Definition at_verbosity (v : nat) (env : Env Script) : Env Script :=
  mkEnv (heap env) (pick env) (cancelled env) (now env) (finished env)
        (rnd env) v.

(** The environment in which the [select] takes the channel if it can. *)
Definition woken (env : Env Script) : Env Script :=
  mkEnv (heap env) WakeEnabled (cancelled env) (now env) (finished env)
        (rnd env) (verbosity env).

(** One environment per path, at time 100. *)
Definition ok_env : Env Script := env_at 100 upload_ok.
Definition waiting_env : Env Script := env_at 100 upload_waiting.
Definition denied_env : Env Script := env_at 100 upload_denied.
Definition broken_env : Env Script := env_at 100 upload_broken.
Definition off_env : Env Script := env_at 100 switched_off.
Definition quiet_env : Env Script := env_at 100 nothing_new.
Definition failing_env : Env Script := env_at 100 summary_broken.
Definition truncated_env : Env Script := env_at 100 switched_off_truncated.
Definition silent_env : Env Script := at_verbosity 0 truncated_env.

(** A run through every path. *)
Definition all_paths : list (Env Script) :=
  [env_at 100 upload_ok; env_at 200 upload_waiting; env_at 300 upload_denied;
   env_at 400 upload_broken; env_at 500 switched_off; env_at 600 nothing_new;
   env_at 700 summary_broken; env_at 800 upload_ok].

(** The state in which [Run] declares its variables, for [demo]. *)
Definition s0 : State Script Time := Run_vars demo.

(** The start of [Run] at time 100, with the client reporting "enabled". *)
Definition start_env : StartEnv (Heap := Script) :=
  mkStartEnv upload_ok 100 (1 # 2) (1 # 2) 4.

(** Inputs of [start_delay]: no earlier report, and a report 200 before
    now with an interval of 600. *)
Definition fresh_delay : Duration := start_delay ten_minutes 0 100 (1 # 2) (1 # 2).
Definition ahead_delay : Duration := start_delay 600 1000 1200 (1 # 2) (1 # 2).

(** The draw of the environments is a sample of the random source. *)
Lemma sample_half : is_sample (1 # 2).
Proof. by split. Qed.
