(* ===== verification/CycleSpec.v ===== *)
(** * CycleSpec: what one cycle promises, and that [cycle] keeps it

    The specification looks at a state through [abs]: the pending delay, the
    working interval, the watermark, the time the reporter holds and the
    summary in the store.  [spec_step] computes the abstract state after a
    cycle from the abstract state before it, the fixed part of the
    controller ([Config]) and the environment, by cases on the [Path] the
    answers of the collaborators select.  [step_sim] is the commuting
    square of [step] and [spec_step]; the invariants of runs are proved on
    [spec_step] and carried to [steps] by it. *)

From Stdlib Require Import QArith Lqa.
From stdpp Require Import base tactics strings list.
From S2P Require Import Prelude Timing Status Channel DryRun Uploader Scenario.

#[local] Open Scope Z_scope.

Section Spec.
Context `{Errors} `{TimeFormat} `{Jitterer} {Heap R : Type} `{StatusReporter R}.
Implicit Types (env : Env Heap) (s : State Heap R).

(** The part of the controller no cycle changes. *)
Record Config : Type := mkConfig {
  cfg_summarizer : Summarizer Heap;
  cfg_client : option (insightsclient.Client Heap);
  cfg_interval : Duration;
}.

Definition config_of (c0 : Controller.t Heap R) : Config :=
  mkConfig (Controller.summarizer c0) (Controller.client c0)
           (Controller.interval c0).

(** The abstract state. *)
Record Abs : Type := mkAbs {
  delay : Duration;
  period : Duration;
  watermark : Time;
  reported : Time;
  status : option Summary;
}.

Definition abs s : Abs :=
  mkAbs (initialDelay s) (interval s) (lastReported s)
        (LastReportedTime (Controller.reporter (c s)))
        (controllerstatus.current (Controller.Simple (c s))).

(** The context of the calls of a cycle. *)
Definition cycle_ctx : Context := WithTimeout Background time.Minute.

(** What the collaborators answer. *)
Definition enabled_answer (cfg : Config) env : option (bool * Duration * string) :=
  (fun cl => insightsclient.Enabled cl (heap env)) <$> cfg_client cfg.

Definition summary_answer (cfg : Config) env (since : Time)
  : Reader * bool * option error :=
  Summary_ (cfg_summarizer cfg) (heap env) cycle_ctx since.

Definition upload_source env (source : Reader) : insightsclient.Source :=
  insightsclient.mkSource (RFC3339 (now env))
    "application/vnd.redhat.openshift.periodic" source.

Definition send_answer (cfg : Config) env (source : Reader) : option error :=
  match cfg_client cfg with
  | Some cl => insightsclient.Send cl (heap env) cycle_ctx (upload_source env source)
  | None => None
  end.

(** Step 1 and 2 of a cycle: the enabled state and the working interval. *)
Definition spec_enabled (cfg : Config) env : bool * string * string :=
  match enabled_answer cfg env with
  | Some (enabled, _, disabledMessage) => (enabled, "", disabledMessage)
  | None => (false, "NotConfigured", "Reporting has been disabled")
  end.

Definition spec_period (cfg : Config) env (a : Abs) : Duration :=
  match enabled_answer cfg env with
  | Some (_, nextInterval, _) =>
      if 0 <? nextInterval then nextInterval else cfg_interval cfg
  | None => period a
  end.

(** The paths through a cycle. *)
Inductive Path : Type :=
| SummaryFails (err : error)
| NothingNew
| Uploaded
| WaitingForVersion
| Unauthorized (err : error)
| UploadFails (err : error)
| DryRun (disabledReason disabledMessage : string).

Definition path (cfg : Config) env (a : Abs) : Path :=
  let '(source, ok, err) := summary_answer cfg env (watermark a) in
  match err with
  | Some err => SummaryFails err
  | None =>
      if negb ok then NothingNew
      else
        let '(enabled, disabledReason, disabledMessage) := spec_enabled cfg env in
        if enabled then
          match send_answer cfg env source with
          | None => Uploaded
          | Some err =>
              if decide (err = ErrWaitingForVersion) then WaitingForVersion
              else if IsAuthorizationError err then Unauthorized err
              else UploadFails err
          end
        else DryRun disabledReason disabledMessage
  end.

(** The delay left by the wait at the head of the closure. *)
Definition waited (d : Duration) : Duration := if 0 <? d then 0 else d.

(** The abstract state after the cycle. *)
Definition spec_step (cfg : Config) env (a : Abs) : Abs :=
  let i := spec_period cfg env a in
  let d := waited (delay a) in
  match path cfg env a with
  | SummaryFails err =>
      mkAbs d i (watermark a) (reported a) (Some (SummaryFailed err))
  | NothingNew =>
      mkAbs d i (watermark a) (reported a) (status a)
  | Uploaded =>
      mkAbs (jitter i 1.2 (rnd env)) i (now env) (now env) (Some HealthySummary)
  | WaitingForVersion =>
      mkAbs (jitter (i ÷ 8) 1 (rnd env) - i ÷ 8) i (watermark a) (reported a)
            (status a)
  | Unauthorized err =>
      mkAbs (jitter i 3 (rnd env)) i (watermark a) (reported a)
            (Some (NotAuthorized err))
  | UploadFails err =>
      mkAbs (jitter (i ÷ 8) 1.2 (rnd env)) i (watermark a) (reported a)
            (Some (UploadFailed err))
  | DryRun disabledReason disabledMessage =>
      mkAbs (jitter i 1.2 (rnd env)) i (watermark a) (watermark a)
            (Some (DisabledSummary disabledReason disabledMessage))
  end.

Definition spec_steps (cfg : Config) (envs : list (Env Heap)) (a : Abs) : Abs :=
  foldl (fun a env => spec_step cfg env a) a envs.

(** ** Invariants of the abstract state *)

(** The reporter holds the watermark. *)
Definition synced (a : Abs) : Prop := reported a = watermark a.

(** The summary in the store, if any, is well formed. *)
Definition status_ok (a : Abs) : Prop :=
  match status a with Some x => well_formed x = true | None => True end.

(** The clock of a run: it does not go back, and it starts after the
    watermark. *)
Fixpoint clock_ok (t : Time) (envs : list (Env Heap)) : Prop :=
  match envs with
  | [] => True
  | env :: rest => t <= now env /\ clock_ok (now env) rest
  end.

#[export] Instance synced_dec (a : Abs) : Decision (synced a).
Proof. unfold synced. apply _. Defined.

#[export] Instance status_ok_dec (a : Abs) : Decision (status_ok a).
Proof. unfold status_ok. destruct (status a); apply _. Defined.

#[export] Instance clock_ok_dec (t : Time) (envs : list (Env Heap)) :
  Decision (clock_ok t envs).
Proof. revert t. induction envs; intros t; cbn; apply _. Defined.

(** ** Facts on the specification *)

Section SpecFacts.
Context (cfg : Config).
Implicit Types (a : Abs).

Lemma spec_step_period env a :
  period (spec_step cfg env a) = spec_period cfg env a.
Proof. unfold spec_step. by destruct (path cfg env a). Qed.

(** Only an upload moves the watermark, and it moves it to the time the
    upload started. *)
Lemma spec_step_watermark env a :
  watermark (spec_step cfg env a) =
    match path cfg env a with Uploaded => now env | _ => watermark a end.
Proof. unfold spec_step. by destruct (path cfg env a). Qed.

Lemma spec_step_reported env a :
  reported (spec_step cfg env a) =
    match path cfg env a with
    | Uploaded => now env
    | DryRun _ _ => watermark a
    | _ => reported a
    end.
Proof. unfold spec_step. by destruct (path cfg env a). Qed.

Lemma spec_step_status env a :
  status (spec_step cfg env a) =
    match path cfg env a with
    | SummaryFails err => Some (SummaryFailed err)
    | NothingNew | WaitingForVersion => status a
    | Uploaded => Some HealthySummary
    | Unauthorized err => Some (NotAuthorized err)
    | UploadFails err => Some (UploadFailed err)
    | DryRun r m => Some (DisabledSummary r m)
    end.
Proof. unfold spec_step. by destruct (path cfg env a). Qed.

(** The delay a cycle leaves, by path. *)
Lemma spec_step_delay env a :
  delay (spec_step cfg env a) =
    let i := spec_period cfg env a in
    match path cfg env a with
    | SummaryFails _ | NothingNew => waited (delay a)
    | Uploaded | DryRun _ _ => jitter i 1.2 (rnd env)
    | WaitingForVersion => jitter (i ÷ 8) 1 (rnd env) - i ÷ 8
    | Unauthorized _ => jitter i 3 (rnd env)
    | UploadFails _ => jitter (i ÷ 8) 1.2 (rnd env)
    end.
Proof. unfold spec_step. by destruct (path cfg env a). Qed.

Lemma spec_step_synced env a : synced a -> synced (spec_step cfg env a).
Proof.
  unfold synced. rewrite spec_step_watermark, spec_step_reported.
  by destruct (path cfg env a).
Qed.

Lemma spec_step_status_ok env a : status_ok a -> status_ok (spec_step cfg env a).
Proof.
  unfold status_ok. rewrite spec_step_status. by destruct (path cfg env a).
Qed.

(** A property every cycle keeps holds after a run. *)
Lemma spec_steps_inv (P : Abs -> Prop) envs a :
  (forall env a, P a -> P (spec_step cfg env a)) -> P a -> P (spec_steps cfg envs a).
Proof.
  intros HP. revert a. induction envs as [|env envs IH]; intros a Ha; [done|].
  apply IH, HP, Ha.
Qed.

Lemma spec_step_watermark_le env a t :
  watermark a <= t -> t <= now env ->
  watermark a <= watermark (spec_step cfg env a) <= now env.
Proof. rewrite spec_step_watermark. destruct (path cfg env a); lia. Qed.

Lemma spec_steps_watermark_le envs a t :
  watermark a <= t -> clock_ok t envs ->
  watermark a <= watermark (spec_steps cfg envs a).
Proof.
  revert a t. induction envs as [|env envs IH]; intros a t Ha Hc; [done|].
  destruct Hc as [Ht Hc].
  pose proof (spec_step_watermark_le env a t Ha Ht) as [? ?].
  etrans; [|by eapply (IH _ (now env))]. done.
Qed.

End SpecFacts.

(** ** Refinement *)

Section Refinement.
Context `{!Durable R}.

Lemma step_sim env s :
  abs (step env s) = spec_step (config_of (c s)) env (abs s)
  /\ config_of (c (step env s)) = config_of (c s).
Proof.
  unfold spec_step, path, spec_period, spec_enabled, summary_answer,
    send_answer, enabled_answer, waited, cycle_ctx, upload_source, abs, config_of.
  run_proc; rewrite ?get_set; unfold time.UTC; split; congruence.
Qed.

Lemma steps_sim envs s :
  abs (steps envs s) = spec_steps (config_of (c s)) envs (abs s)
  /\ config_of (c (steps envs s)) = config_of (c s).
Proof.
  revert s. induction envs as [|env envs IH]; intros s; [done|].
  change (steps (env :: envs) s) with (steps envs (step env s)).
  destruct (step_sim env s) as [Ha Hc], (IH (step env s)) as [IH1 IH2].
  by rewrite IH1, IH2, Ha, Hc.
Qed.

(** The delay and the working interval after a cycle of the closure. *)
Lemma step_delay env s :
  initialDelay (step env s) =
    let i := interval (step env s) in
    match path (config_of (c s)) env (abs s) with
    | SummaryFails _ | NothingNew => waited (initialDelay s)
    | Uploaded | DryRun _ _ => jitter i 1.2 (rnd env)
    | WaitingForVersion => jitter (i ÷ 8) 1 (rnd env) - i ÷ 8
    | Unauthorized _ => jitter i 3 (rnd env)
    | UploadFails _ => jitter (i ÷ 8) 1.2 (rnd env)
    end.
Proof.
  destruct (step_sim env s) as [Ha _].
  pose proof (f_equal delay Ha) as Hd. pose proof (f_equal period Ha) as Hp.
  rewrite spec_step_delay in Hd. rewrite spec_step_period in Hp.
  cbn in Hd, Hp. by rewrite Hp, Hd.
Qed.

(** C1: a run of the closure, seen through [abs], is the run of the
    specification from the abstract start state: delay, working interval,
    watermark, reporter and published summary after n cycles are those
    [spec_steps] computes, for every durable reporter. *)
Theorem steps_refine envs s :
  abs (steps envs s) = spec_steps (config_of (c s)) envs (abs s).
Proof. apply steps_sim. Qed.

(** C3: along any run in which the clock does not go back and starts after
    the watermark, neither the watermark of the closure nor the time held by
    the reporter decreases. *)
Theorem watermark_monotone envs s :
  synced (abs s) -> clock_ok (lastReported s) envs ->
  lastReported s <= lastReported (steps envs s)
  /\ LastReportedTime (Controller.reporter (c s)) <=
     LastReportedTime (Controller.reporter (c (steps envs s))).
Proof.
  intros Hs Hc. destruct (steps_sim envs s) as [Ha _].
  pose proof (spec_steps_watermark_le (config_of (c s)) envs (abs s) _
                (Z.le_refl _) Hc) as Hw.
  pose proof (spec_steps_inv (config_of (c s)) synced envs (abs s)
                (spec_step_synced _) Hs) as Hs'.
  rewrite <- Ha in Hw, Hs'. unfold synced in *. cbn in *. lia.
Qed.

(** C4: the reporter holds the watermark after every cycle of a run that
    starts with the reporter holding it, whatever the collaborators
    answer. *)
Theorem reporter_synced envs s :
  synced (abs s) ->
  LastReportedTime (Controller.reporter (c (steps envs s))) =
  lastReported (steps envs s).
Proof.
  intros Hs. destruct (steps_sim envs s) as [Ha _].
  pose proof (spec_steps_inv (config_of (c s)) synced envs (abs s)
                (spec_step_synced _) Hs) as Hs'.
  by rewrite <- Ha in Hs'.
Qed.

(** The summary in the store stays well formed (healthy, disabled, or
    neither with a reason) along every run. *)
Theorem store_well_formed envs s :
  status_ok (abs s) -> status_ok (abs (steps envs s)).
Proof.
  intros Hs. destruct (steps_sim envs s) as [-> _].
  by apply spec_steps_inv; [apply spec_step_status_ok|].
Qed.

(** C2: a cycle moves the watermark only by an upload that completed
    without error, and then to the time the upload started; on every other
    path the watermark is the one before. *)
Theorem advanced_iff_uploaded env s :
  (path (config_of (c s)) env (abs s) = Uploaded ->
     lastReported (step env s) = now env) /\
  (path (config_of (c s)) env (abs s) <> Uploaded ->
     lastReported (step env s) = lastReported s).
Proof.
  destruct (step_sim env s) as [Ha _].
  apply (f_equal watermark) in Ha. rewrite spec_step_watermark in Ha.
  cbn in Ha. rewrite Ha. by destruct (path _ env (abs s)).
Qed.

End Refinement.

End Spec.
Arguments Config {_} Heap.

(** ** The theorems at the run of [Scenario.all_paths] *)

Lemma steps_refine_witness :
  abs (steps all_paths s0) = spec_steps (config_of demo) all_paths (abs s0).
Proof. exact (steps_refine (R := Time) all_paths s0). Defined.

Lemma all_paths_clock : clock_ok (lastReported s0) all_paths.
Proof. cbn. lia. Qed.

Lemma watermark_monotone_witness :
  lastReported s0 <= lastReported (steps all_paths s0)
  /\ LastReportedTime (Controller.reporter (c s0)) <=
     LastReportedTime (Controller.reporter (c (steps all_paths s0))).
Proof.
  apply (watermark_monotone (R := Time) all_paths s0);
    [reflexivity | apply all_paths_clock].
Defined.

Lemma reporter_synced_witness :
  LastReportedTime (Controller.reporter (c (steps all_paths s0))) =
  lastReported (steps all_paths s0).
Proof. apply (reporter_synced (R := Time) all_paths s0). reflexivity. Defined.

Lemma store_well_formed_witness : status_ok (abs (steps all_paths s0)).
Proof. apply (store_well_formed (R := Time) all_paths s0). exact I. Defined.

Lemma advanced_iff_uploaded_witness :
  lastReported (step ok_env s0) = 100
  /\ lastReported (step denied_env s0) = 0.
Proof.
  split.
  - apply (advanced_iff_uploaded (R := Time) ok_env s0).
    reflexivity.
  - apply (advanced_iff_uploaded (R := Time) denied_env s0).
    discriminate.
Defined.
