(* ===== verification/Paths.v ===== *)
(** * Paths: the paths of a cycle, by the answers of the collaborators

    One theorem per path through the closure of [Run]: what the cycle does to
    the watermark, the reporter and the summary in the store, and the range
    of the delay it computes, against the contract [Jitterer].  The
    premises are the answers of the upload client and of the summarizer;
    the proofs go through [CycleSpec.step_sim]. *)

From Stdlib Require Import QArith Lqa.
From stdpp Require Import base tactics strings list.
From S2P Require Import Prelude Timing Status Channel DryRun Uploader Scenario.
From S2P Require Import CycleSpec.

#[local] Open Scope Z_scope.

Section Paths.
Context `{Errors} `{TimeFormat} `{Jitterer} {Heap R : Type} `{StatusReporter R}.
Implicit Types (env : Env Heap) (s : State Heap R).

(** A cycle of a controller with a client [cl] that answers "enabled" with
    the interval [n], in which the summarizer hands out a bundle. *)
Section Attempt.
Context `{!Durable R} (env : Env Heap) (s : State Heap R).
Context (cl : insightsclient.Client Heap) (n : Duration) (msg : string).
Context (source : Reader).
Hypothesis Hclient : Controller.client (c s) = Some cl.
Hypothesis Henabled : insightsclient.Enabled cl (heap env) = (true, n, msg).
Hypothesis Hsummary :
  Summary_ (Controller.summarizer (c s)) (heap env) cycle_ctx (lastReported s)
  = (source, true, None).

Lemma attempt_path :
  path (config_of (c s)) env (abs s) =
    match insightsclient.Send cl (heap env) cycle_ctx (upload_source env source) with
    | None => Uploaded
    | Some err =>
        if decide (err = ErrWaitingForVersion) then WaitingForVersion
        else if IsAuthorizationError err then Unauthorized err
        else UploadFails err
    end.
Proof.
  unfold path, summary_answer, spec_enabled, enabled_answer, send_answer. cbn.
  by rewrite Hsummary, Hclient; cbn; rewrite Henabled.
Qed.

Lemma attempt_period :
  spec_period (config_of (c s)) env (abs s) =
    if 0 <? n then n else Controller.interval (c s).
Proof. unfold spec_period, enabled_answer. cbn. by rewrite Hclient; cbn; rewrite Henabled. Qed.

Lemma attempt_abs :
  abs (step env s) = spec_step (config_of (c s)) env (abs s)
  /\ interval (step env s) = if 0 <? n then n else Controller.interval (c s).
Proof.
  destruct (step_sim env s) as [Ha _]. split; [done|].
  apply (f_equal period) in Ha. by rewrite spec_step_period, attempt_period in Ha.
Qed.

(** C26: when [Send] returns no error the watermark and the reporter move to
    the time the upload started, the summary is "healthy", and the next
    delay is at least the working interval and below the interval times
    one plus the width of the jitter at factor 1.2. *)
Theorem upload_succeeds :
  insightsclient.Send cl (heap env) cycle_ctx (upload_source env source) = None ->
  0 < interval (step env s) -> is_sample (rnd env) ->
  lastReported (step env s) = now env
  /\ LastReportedTime (Controller.reporter (c (step env s))) = now env
  /\ controllerstatus.current (Controller.Simple (c (step env s))) = Some HealthySummary
  /\ interval (step env s) <= initialDelay (step env s)
  /\ (inject_Z (initialDelay (step env s))
       <= inject_Z (interval (step env s)) * (1 + width 1.2))%Q.
Proof.
  intros Hsend Hi Hr. destruct attempt_abs as [Ha Hp]. revert Hi.
  pose proof attempt_path as Hpath. rewrite Hsend in Hpath.
  unfold spec_step in Ha. rewrite Hpath, attempt_period in Ha. rewrite Hp.
  injection Ha as -> _ -> -> ->. intros Hi.
  repeat split; auto using jitter_ge, jitter_le with lia.
Qed.

(** When [Send] returns the sentinel "waiting for version" the next
    delay is the jitter of an eighth of the interval at factor 1 less that
    eighth: it is not negative and at most the eighth times the width;
    watermark, reporter and summary are left as they were, even if the
    error also counts as an authorization error. *)
Theorem upload_waits_for_version :
  insightsclient.Send cl (heap env) cycle_ctx (upload_source env source)
    = Some ErrWaitingForVersion ->
  0 <= interval (step env s) -> is_sample (rnd env) ->
  lastReported (step env s) = lastReported s
  /\ LastReportedTime (Controller.reporter (c (step env s)))
     = LastReportedTime (Controller.reporter (c s))
  /\ controllerstatus.current (Controller.Simple (c (step env s)))
     = controllerstatus.current (Controller.Simple (c s))
  /\ 0 <= initialDelay (step env s)
  /\ (inject_Z (initialDelay (step env s))
       <= inject_Z (interval (step env s) ÷ 8) * width 1)%Q.
Proof.
  intros Hsend Hi Hr. destruct attempt_abs as [Ha Hp]. revert Hi.
  pose proof attempt_path as Hpath. rewrite Hsend, decide_True in Hpath by done.
  unfold spec_step in Ha. rewrite Hpath, attempt_period in Ha. rewrite Hp.
  injection Ha as -> _ -> -> ->. intros Hi.
  pose proof (quot8_bounds _ Hi) as [Hq _].
  pose proof (jitter_ge _ 1%Q _ Hq Hr). pose proof (jitter_le _ 1%Q _ Hq Hr) as Hle.
  repeat split; [lia|].
  unfold Z.sub. rewrite inject_Z_plus, inject_Z_opp. lra.
Qed.

(** When [Send] returns an authorization error other than the sentinel
    the summary published is unhealthy with reason "NotAuthorized" and a
    message ending in the error's text, the watermark stays, and the next
    delay is at least the interval and at most the interval times one plus
    the width at factor 3. *)
Theorem upload_not_authorized err :
  insightsclient.Send cl (heap env) cycle_ctx (upload_source env source) = Some err ->
  err <> ErrWaitingForVersion -> IsAuthorizationError err = true ->
  0 <= interval (step env s) -> is_sample (rnd env) ->
  lastReported (step env s) = lastReported s
  /\ controllerstatus.current (Controller.Simple (c (step env s)))
     = Some (mkSummary false false "NotAuthorized"
               ("Uploading support data was not allowed: " +:+ Error err))
  /\ interval (step env s) <= initialDelay (step env s)
  /\ (inject_Z (initialDelay (step env s))
       <= inject_Z (interval (step env s)) * (1 + width 3))%Q.
Proof.
  intros Hsend Hne Hauth Hi Hr. destruct attempt_abs as [Ha Hp]. revert Hi.
  pose proof attempt_path as Hpath.
  rewrite Hsend, decide_False, Hauth in Hpath by done.
  unfold spec_step in Ha. rewrite Hpath, attempt_period in Ha. rewrite Hp.
  injection Ha as -> _ -> _ ->. intros Hi.
  repeat split; auto using jitter_ge, jitter_le with lia.
Qed.

(** When [Send] returns any other error the summary published is
    unhealthy with reason "UploadFailed", the watermark stays, and the next
    delay is at least an eighth of the interval and at most that eighth
    times one plus the width at factor 1.2. *)
Theorem upload_fails err :
  insightsclient.Send cl (heap env) cycle_ctx (upload_source env source) = Some err ->
  err <> ErrWaitingForVersion -> IsAuthorizationError err = false ->
  0 <= interval (step env s) -> is_sample (rnd env) ->
  lastReported (step env s) = lastReported s
  /\ controllerstatus.current (Controller.Simple (c (step env s)))
     = Some (mkSummary false false "UploadFailed"
               ("Unable to upload support data: " +:+ Error err))
  /\ interval (step env s) ÷ 8 <= initialDelay (step env s)
  /\ (inject_Z (initialDelay (step env s))
       <= inject_Z (interval (step env s) ÷ 8) * (1 + width 1.2))%Q.
Proof.
  intros Hsend Hne Hauth Hi Hr. destruct attempt_abs as [Ha Hp]. revert Hi.
  pose proof attempt_path as Hpath.
  rewrite Hsend, decide_False, Hauth in Hpath by done.
  unfold spec_step in Ha. rewrite Hpath, attempt_period in Ha. rewrite Hp.
  injection Ha as -> _ -> _ ->. intros Hi.
  pose proof (quot8_bounds _ Hi) as [Hq _].
  repeat split; auto using jitter_ge, jitter_le with lia.
Qed.

End Attempt.

(** A cycle in which uploading is off: no client is configured, or the
    client answers "disabled". *)
Section Off.
Context `{!Durable R} (env : Env Heap) (s : State Heap R).
Context (disabledReason disabledMessage : string) (source : Reader).
Hypothesis Hoff :
  spec_enabled (config_of (c s)) env = (false, disabledReason, disabledMessage).
Hypothesis Hsummary :
  Summary_ (Controller.summarizer (c s)) (heap env) cycle_ctx (lastReported s)
  = (source, true, None).

Lemma off_path :
  path (config_of (c s)) env (abs s) = DryRun disabledReason disabledMessage.
Proof. unfold path, summary_answer. cbn. by rewrite Hsummary, Hoff. Qed.

(** With uploading off and a bundle at hand, the cycle writes the
    unchanged watermark to the reporter, publishes a disabled summary whose
    reason and message default to "Disabled" and "Uploading reports has
    been disabled" when empty, and waits at least the working interval. *)
Theorem disabled_cycle :
  0 <= interval (step env s) -> is_sample (rnd env) ->
  lastReported (step env s) = lastReported s
  /\ LastReportedTime (Controller.reporter (c (step env s))) = lastReported s
  /\ controllerstatus.current (Controller.Simple (c (step env s)))
     = Some (mkSummary false true
               (if is_empty disabledReason then "Disabled" else disabledReason)
               (if is_empty disabledMessage
                then "Uploading reports has been disabled" else disabledMessage))
  /\ interval (step env s) <= initialDelay (step env s)
  /\ (inject_Z (initialDelay (step env s))
       <= inject_Z (interval (step env s)) * (1 + width 1.2))%Q.
Proof.
  intros Hi Hr. destruct (step_sim env s) as [Ha _]. revert Hi.
  unfold spec_step in Ha. rewrite off_path in Ha.
  injection Ha as -> -> -> -> ->. intros Hi.
  repeat split; auto using jitter_ge, jitter_le with lia.
Qed.

End Off.

(** C27: when the summarizer fails the cycle publishes an unhealthy summary
    with reason "SummaryFailed" and the error's text, touches neither the
    watermark nor the reporter, and computes no delay: the pending delay is
    the one the wait left, which is never positive. *)
Theorem summary_fails `{!Durable R} env s source ok err :
  Summary_ (Controller.summarizer (c s)) (heap env) cycle_ctx (lastReported s)
    = (source, ok, Some err) ->
  lastReported (step env s) = lastReported s
  /\ LastReportedTime (Controller.reporter (c (step env s)))
     = LastReportedTime (Controller.reporter (c s))
  /\ controllerstatus.current (Controller.Simple (c (step env s)))
     = Some (mkSummary false false "SummaryFailed"
               ("Unable to retrieve local support data: " +:+ Error err))
  /\ initialDelay (step env s) = Z.min 0 (initialDelay s).
Proof.
  intros Hsum. destruct (step_sim env s) as [Ha _].
  unfold spec_step, path, summary_answer in Ha. cbn in Ha. rewrite Hsum in Ha.
  injection Ha as -> _ -> -> ->. repeat split. unfold waited. case_match; lia.
Qed.

(** When the summarizer has nothing new the cycle changes neither the
    watermark, nor the reporter, nor the summary in the store, and leaves
    the pending delay at zero (or at the value it had, if that was not
    positive). *)
Theorem nothing_to_report `{!Durable R} env s source :
  Summary_ (Controller.summarizer (c s)) (heap env) cycle_ctx (lastReported s)
    = (source, false, None) ->
  lastReported (step env s) = lastReported s
  /\ LastReportedTime (Controller.reporter (c (step env s)))
     = LastReportedTime (Controller.reporter (c s))
  /\ controllerstatus.current (Controller.Simple (c (step env s)))
     = controllerstatus.current (Controller.Simple (c s))
  /\ initialDelay (step env s) = Z.min 0 (initialDelay s).
Proof.
  intros Hsum. destruct (step_sim env s) as [Ha _].
  unfold spec_step, path, summary_answer in Ha. cbn in Ha. rewrite Hsum in Ha.
  injection Ha as -> _ -> -> ->. repeat split. unfold waited. case_match; lia.
Qed.

End Paths.

(** ** The theorems at the cycles of [Scenario] *)

Lemma upload_succeeds_witness :
  lastReported (step ok_env s0) = 100
  /\ LastReportedTime (Controller.reporter (c (step ok_env s0))) = 100
  /\ controllerstatus.current (Controller.Simple (c (step ok_env s0)))
     = Some HealthySummary
  /\ interval (step ok_env s0)
     <= initialDelay (step ok_env s0)
  /\ (inject_Z (initialDelay (step ok_env s0))
       <= inject_Z (interval (step ok_env s0)) * (1 + width 1.2))%Q.
Proof.
  apply (upload_succeeds (R := Time) ok_env s0
           script_client 0 "" bundle eq_refl eq_refl eq_refl eq_refl);
    [by vm_compute | apply sample_half].
Defined.

Lemma upload_waits_for_version_witness :
  lastReported (step waiting_env s0) = lastReported s0
  /\ LastReportedTime (Controller.reporter (c (step waiting_env s0)))
     = LastReportedTime (Controller.reporter (c s0))
  /\ controllerstatus.current (Controller.Simple (c (step waiting_env s0)))
     = controllerstatus.current (Controller.Simple (c s0))
  /\ 0 <= initialDelay (step waiting_env s0)
  /\ (inject_Z (initialDelay (step waiting_env s0))
       <= inject_Z (interval (step waiting_env s0) ÷ 8) * width 1)%Q.
Proof.
  apply (upload_waits_for_version (R := Time) waiting_env s0
           script_client 0 "" bundle eq_refl eq_refl eq_refl eq_refl);
    [by vm_compute | apply sample_half].
Defined.

Lemma upload_not_authorized_witness :
  lastReported (step denied_env s0) = lastReported s0
  /\ controllerstatus.current (Controller.Simple (c (step denied_env s0)))
     = Some (mkSummary false false "NotAuthorized"
               ("Uploading support data was not allowed: " +:+ Error auth_error))
  /\ interval (step denied_env s0)
     <= initialDelay (step denied_env s0)
  /\ (inject_Z (initialDelay (step denied_env s0))
       <= inject_Z (interval (step denied_env s0)) * (1 + width 3))%Q.
Proof.
  apply (upload_not_authorized (R := Time) denied_env s0
           script_client 0 "" bundle eq_refl eq_refl eq_refl auth_error eq_refl);
    [discriminate | reflexivity | by vm_compute | apply sample_half].
Defined.

Lemma upload_fails_witness :
  lastReported (step broken_env s0) = lastReported s0
  /\ controllerstatus.current (Controller.Simple (c (step broken_env s0)))
     = Some (mkSummary false false "UploadFailed"
               ("Unable to upload support data: " +:+ Error net_error))
  /\ interval (step broken_env s0) ÷ 8
     <= initialDelay (step broken_env s0)
  /\ (inject_Z (initialDelay (step broken_env s0))
       <= inject_Z (interval (step broken_env s0) ÷ 8) * (1 + width 1.2))%Q.
Proof.
  apply (upload_fails (R := Time) broken_env s0
           script_client 0 "" bundle eq_refl eq_refl eq_refl net_error eq_refl);
    [discriminate | reflexivity | by vm_compute | apply sample_half].
Defined.

Lemma disabled_cycle_witness :
  lastReported (step off_env s0) = lastReported s0
  /\ LastReportedTime (Controller.reporter (c (step off_env s0)))
     = lastReported s0
  /\ controllerstatus.current (Controller.Simple (c (step off_env s0)))
     = Some (mkSummary false true "Disabled" "Uploading reports has been disabled")
  /\ interval (step off_env s0)
     <= initialDelay (step off_env s0)
  /\ (inject_Z (initialDelay (step off_env s0))
       <= inject_Z (interval (step off_env s0)) * (1 + width 1.2))%Q.
Proof.
  apply (disabled_cycle (R := Time) off_env s0 "" "" bundle
           eq_refl eq_refl); [by vm_compute | apply sample_half].
Defined.

Lemma summary_fails_witness :
  lastReported (step failing_env s0) = lastReported s0
  /\ LastReportedTime (Controller.reporter (c (step failing_env s0)))
     = LastReportedTime (Controller.reporter (c s0))
  /\ controllerstatus.current (Controller.Simple (c (step failing_env s0)))
     = Some (mkSummary false false "SummaryFailed"
               ("Unable to retrieve local support data: " +:+ Error disk_error))
  /\ initialDelay (step failing_env s0) = Z.min 0 (initialDelay s0).
Proof.
  exact (summary_fails (R := Time) failing_env s0
           (NotGzip EOF) false disk_error eq_refl).
Defined.

Lemma nothing_to_report_witness :
  lastReported (step quiet_env s0) = lastReported s0
  /\ LastReportedTime (Controller.reporter (c (step quiet_env s0)))
     = LastReportedTime (Controller.reporter (c s0))
  /\ controllerstatus.current (Controller.Simple (c (step quiet_env s0)))
     = controllerstatus.current (Controller.Simple (c s0))
  /\ initialDelay (step quiet_env s0) = Z.min 0 (initialDelay s0).
Proof.
  exact (nothing_to_report (R := Time) quiet_env s0
           (NotGzip EOF) eq_refl).
Defined.
