(* ===== verification/Calls.v ===== *)
(** * Calls: the calls a cycle makes on its collaborators

    [path_calls] lists, in the order they are made, the calls of one cycle:
    the query of the enabled state, the summary, what the path adds, and the
    deferred [source.Close()] and [cancel()].  [step_calls] proves that
    [cycle] makes exactly these; the properties of the sequence (no upload
    without a client, one [Close] per bundle, the context of every call)
    follow from the list. *)

From Stdlib Require Import QArith.
From stdpp Require Import base tactics strings list.
From S2P Require Import Prelude Timing Status Channel DryRun Uploader Scenario.
From S2P Require Import CycleSpec.

#[local] Open Scope Z_scope.

Section Calls.
Context `{Errors} `{TimeFormat} `{Jitterer} {Heap R : Type} `{StatusReporter R}.
Implicit Types (env : Env Heap) (s : State Heap R) (cfg : Config Heap) (a : Abs).

(** What the path adds between the summary and the deferred calls. *)
Definition body_calls (p : Path) env (source : Reader) (w : Time) : list Call :=
  let send := CallSend cycle_ctx (upload_source env source) in
  match p with
  | SummaryFails err => [CallUpdateStatus (SummaryFailed err)]
  | NothingNew => []
  | Uploaded =>
      [send; CallSetLastReportedTime (now env);
       CallUpdateStatus HealthySummary; CallClose]
  | WaitingForVersion => [send; CallClose]
  | Unauthorized err => [send; CallUpdateStatus (NotAuthorized err); CallClose]
  | UploadFails err => [send; CallUpdateStatus (UploadFailed err); CallClose]
  | DryRun r m =>
      [CallSetLastReportedTime w; CallUpdateStatus (DisabledSummary r m);
       CallClose]
  end.

(** The calls of a cycle, in the order they are made. *)
Definition path_calls cfg env a : list Call :=
  match cfg_client cfg with Some _ => [CallEnabled] | None => [] end ++
  [CallSummary cycle_ctx (watermark a)] ++
  body_calls (path cfg env a) env (summary_answer cfg env (watermark a)).1.1
             (watermark a) ++
  [CallCancel].

(** The calls of a run, in the order they are made. *)
Fixpoint run_calls cfg (envs : list (Env Heap)) a : list Call :=
  match envs with
  | [] => []
  | env :: rest => path_calls cfg env a ++ run_calls cfg rest (spec_step cfg env a)
  end.

(** The environment with another outcome of the [select]. *)
Definition with_wake (p : Wake) (cancelled : bool) env : Env Heap :=
  mkEnv (heap env) p cancelled (now env) (finished env) (rnd env) (verbosity env).

(** The context a call carries, if it carries one. *)
Definition call_ctx (x : Call) : option Context :=
  match x with
  | CallSummary ctx _ | CallSend ctx _ => Some ctx
  | _ => None
  end.

Definition is_send (x : Call) : bool :=
  match x with CallSend _ _ => true | _ => false end.

Definition is_client_call (x : Call) : bool :=
  match x with CallSend _ _ | CallEnabled | CallEndpoint => true | _ => false end.

Definition is_close (x : Call) : bool :=
  match x with CallClose => true | _ => false end.

(** The number of calls of a kind. *)
Definition count (f : Call -> bool) (l : list Call) : nat :=
  length (List.filter f l).

(** The summary a call publishes, if it publishes one. *)
Definition published (x : Call) : option Summary :=
  match x with CallUpdateStatus x => Some x | _ => None end.

(** ** The calls of [cycle] *)

Lemma step_calls env s :
  calls (step env s) =
  rev (path_calls (config_of (c s)) env (abs s)) ++ calls s.
Proof.
  unfold path_calls, body_calls, path, spec_enabled, summary_answer,
    send_answer, enabled_answer, cycle_ctx, upload_source, abs, config_of.
  run_proc; unfold time.UTC; congruence.
Qed.

Lemma steps_calls_inv (P : Call -> Prop) envs s :
  (forall env s, Forall P (path_calls (config_of (c s)) env (abs s))) ->
  Forall P (calls s) -> Forall P (calls (steps envs s)).
Proof.
  intros HP. revert s. induction envs as [|env envs IH]; intros s Hs; [done|].
  apply IH. rewrite step_calls. apply Forall_app. split; [|done].
  apply Forall_rev, HP.
Qed.

(** Every cycle asks the summarizer, since the watermark. *)
Lemma step_calls_summary env s :
  CallSummary cycle_ctx (lastReported s) ∈ calls (step env s).
Proof.
  rewrite step_calls, elem_of_app, elem_of_rev. left. unfold path_calls.
  rewrite !elem_of_app, list_elem_of_singleton. auto.
Qed.

(** ** Facts on [path_calls] *)

Lemma body_calls_ctx p env source w x :
  x ∈ body_calls p env source w -> call_ctx x = None \/ call_ctx x = Some cycle_ctx.
Proof.
  destruct p; cbn; rewrite ?elem_of_cons, ?elem_of_nil; intros;
    destruct_or?; simplify_eq; auto.
Qed.

Lemma body_calls_published p env source w x y :
  x ∈ body_calls p env source w -> published x = Some y -> well_formed y = true.
Proof.
  destruct p; cbn; rewrite ?elem_of_cons, ?elem_of_nil; intros Hx Hy;
    destruct_or?; simplify_eq; cbn in *; by simplify_eq.
Qed.

Lemma count_app f (l k : list Call) : count f (l ++ k) = (count f l + count f k)%nat.
Proof. unfold count. by rewrite List.filter_app, length_app. Qed.

Lemma body_calls_send p env source w :
  count is_send (body_calls p env source w) =
    match p with
    | Uploaded | WaitingForVersion | Unauthorized _ | UploadFails _ => 1%nat
    | _ => 0%nat
    end.
Proof. by destruct p. Qed.

Lemma body_calls_close p env source w :
  count is_close (body_calls p env source w) =
    match p with SummaryFails _ | NothingNew => 0%nat | _ => 1%nat end.
Proof. by destruct p. Qed.

(** Without a client the cycle ends on one of three paths. *)
Lemma path_unconfigured cfg env a :
  cfg_client cfg = None ->
  (exists err, path cfg env a = SummaryFails err)
  \/ path cfg env a = NothingNew
  \/ path cfg env a = DryRun "NotConfigured" "Reporting has been disabled".
Proof.
  intros Hc. unfold path, spec_enabled, enabled_answer. rewrite Hc. cbn.
  destruct (summary_answer cfg env (watermark a)) as [[? []] []]; cbn; eauto.
Qed.

Lemma path_calls_ctx cfg env a x :
  x ∈ path_calls cfg env a -> call_ctx x = None \/ call_ctx x = Some cycle_ctx.
Proof.
  unfold path_calls. rewrite !elem_of_app, !list_elem_of_singleton.
  intros [Hx|[->|[Hx| ->]]]; eauto using body_calls_ctx.
  destruct (cfg_client cfg); [apply list_elem_of_singleton in Hx as ->; auto|].
  by apply elem_of_nil in Hx.
Qed.

Lemma path_calls_published cfg env a x y :
  x ∈ path_calls cfg env a -> published x = Some y -> well_formed y = true.
Proof.
  unfold path_calls. rewrite !elem_of_app, !list_elem_of_singleton.
  intros [Hx|[->|[Hx| ->]]] Hy; try done; eauto using body_calls_published.
  destruct (cfg_client cfg); [apply list_elem_of_singleton in Hx as ->; done|].
  by apply elem_of_nil in Hx.
Qed.

Lemma path_calls_unconfigured cfg env a x :
  cfg_client cfg = None -> x ∈ path_calls cfg env a -> is_client_call x = false.
Proof.
  intros Hc. unfold path_calls. rewrite Hc. cbn.
  destruct (path_unconfigured cfg env a Hc) as [[err ->]|[->| ->]]; cbn;
    rewrite ?elem_of_cons, ?elem_of_nil; intros; destruct_or?; by simplify_eq.
Qed.

(** ** Theorems *)

(** C19: no cycle panics: the client is dereferenced for [Send] only on the
    branch [if enabled], which is reached only when a client is
    configured. *)
Theorem cycle_never_panics env s : panics (cycle env) s = false.
Proof. run_proc; congruence. Qed.

(** C20: the calls of a run are, in order, those of the paths the
    specification takes: per cycle the query of the enabled state (with a
    client), the summary since the watermark, the calls of the path, and
    the deferred [Close] and [cancel]. *)
Theorem run_makes_path_calls `{!Durable R} envs s :
  calls (steps envs s) =
  rev (run_calls (config_of (c s)) envs (abs s)) ++ calls s.
Proof.
  revert s. induction envs as [|env envs IH]; intros s; [done|].
  change (steps (env :: envs) s) with (steps envs (step env s)).
  destruct (step_sim env s) as [Ha Hc]. rewrite IH, Ha, Hc, step_calls.
  change (run_calls ?cfg (env :: envs) ?a)
    with (path_calls cfg env a ++ run_calls cfg envs (spec_step cfg env a)).
  by rewrite rev_app_distr, app_assoc.
Qed.

(** A controller without a client never calls one: along every run no
    call of [Enabled], [Send] or [Endpoint] is made. *)
Theorem unconfigured_makes_no_client_call envs s :
  Controller.client (c s) = None ->
  Forall (fun x => is_client_call x = false) (calls s) ->
  Forall (fun x => is_client_call x = false) (calls (steps envs s)).
Proof.
  intros Hc. revert s Hc. induction envs as [|env envs IH]; intros s Hc Hs; [done|].
  change (steps (env :: envs) s) with (steps envs (step env s)).
  assert (Controller.client (c (step env s)) = None) as Hc'
    by (revert Hc; run_proc; congruence).
  apply IH; [done|]. rewrite step_calls. apply Forall_app. split; [|done].
  apply Forall_rev, Forall_forall. intros x. by apply path_calls_unconfigured.
Qed.

(** Every summary published along a run is well formed: healthy, or
    disabled, or neither and then with a reason. *)
Theorem published_well_formed envs s :
  Forall (fun x => forall y, published x = Some y -> well_formed y = true) (calls s) ->
  Forall (fun x => forall y, published x = Some y -> well_formed y = true)
         (calls (steps envs s)).
Proof.
  apply steps_calls_inv. intros env s'. apply Forall_forall.
  intros x Hx y Hy. eapply path_calls_published; eauto.
Qed.

(** C39: every call of a run that takes a context takes the one of its
    cycle, a one-minute timeout on [context.Background()]; that context
    does not descend from the context of [Run]. *)
Theorem calls_carry_cycle_context envs s :
  Forall (fun x => forall ctx, call_ctx x = Some ctx -> ctx = cycle_ctx) (calls s) ->
  Forall (fun x => forall ctx, call_ctx x = Some ctx ->
            ctx = WithTimeout Background time.Minute
            /\ derives_from RunContext ctx = false)
         (calls (steps envs s)).
Proof.
  intros Hs. eapply Forall_impl.
  - apply (steps_calls_inv _ envs s); [|exact Hs].
    intros env s'. apply Forall_forall. intros x Hx ctx Hctx.
    destruct (path_calls_ctx _ _ _ _ Hx); congruence.
  - intros x Hx ctx Hctx. by rewrite (Hx ctx Hctx).
Qed.

(** A cycle sends at most once, and closes the bundle exactly once if
    the summarizer handed one out and not at all otherwise. *)
Theorem one_send_one_close env s :
  let new := path_calls (config_of (c s)) env (abs s) in
  calls (step env s) = rev new ++ calls s
  /\ (count is_send new <= 1)%nat
  /\ count is_close new =
       match path (config_of (c s)) env (abs s) with
       | SummaryFails _ | NothingNew => 0%nat
       | _ => 1%nat
       end.
Proof.
  split; [apply step_calls|]. unfold path_calls.
  rewrite !count_app, body_calls_close, body_calls_send.
  destruct (cfg_client _), (path _ env (abs s)); cbn; lia.
Qed.

(** C38: the case the [select] takes does not change what the cycle does
    next: when the wait ends because the context of [Run] is done, the
    cycle makes the same calls, upload included, as when the timer
    fires. *)
Theorem cancelled_wait_still_runs_cycle env s :
  calls (step (with_wake WakeDone true env) s) =
  calls (step (with_wake WakeTimer false env) s).
Proof. by rewrite !step_calls. Qed.

End Calls.

(** ** The theorems at the runs of [Scenario] *)

Lemma run_makes_path_calls_witness :
  calls (steps all_paths s0) =
  rev (run_calls (config_of (c s0)) all_paths (abs s0)) ++ calls s0.
Proof. exact (run_makes_path_calls (R := Time) all_paths s0). Defined.

Lemma unconfigured_makes_no_client_call_witness :
  Forall (fun x => is_client_call x = false)
         (calls (steps all_paths (Run_vars demo_unconfigured))).
Proof.
  apply (unconfigured_makes_no_client_call all_paths (Run_vars demo_unconfigured));
    [reflexivity | constructor].
Defined.

Lemma published_well_formed_witness :
  Forall (fun x => forall y, published x = Some y -> well_formed y = true)
         (calls (steps all_paths s0)).
Proof. apply (published_well_formed all_paths s0). constructor. Defined.

Lemma calls_carry_cycle_context_witness :
  Forall (fun x => forall ctx, call_ctx x = Some ctx ->
            ctx = WithTimeout Background time.Minute
            /\ derives_from RunContext ctx = false)
         (calls (steps all_paths s0)).
Proof. apply (calls_carry_cycle_context all_paths s0). constructor. Defined.
