(* ===== verification/Logs.v ===== *)
(** * Logs: what a cycle prints

    [path_logs] lists, in the order they are printed, the lines of one
    cycle: the line of the wake-up, the lines of the path, and for a dry
    run the listing of the bundle and the error of [reportToLogs].
    [step_logs] proves that [cycle] prints exactly these.  A line is its
    verbosity ([None] for [klog.Errorf]) and its text; a line of a
    verbosity above the one of the process is not printed. *)

From Stdlib Require Import QArith.
From stdpp Require Import base tactics strings list.
From S2P Require Import Prelude Timing Status Channel DryRun Uploader Scenario.
From S2P Require Import CycleSpec.

#[local] Open Scope Z_scope.

Section Lines.
Context `{Errors} `{TimeFormat} `{Jitterer} {Heap R : Type} `{StatusReporter R}.
Implicit Types (env : Env Heap) (s : State Heap R) (cfg : Config Heap) (a : Abs).

(** [klog.V(n).Infof(msg)] as the lines it prints. *)
Definition V env (n : nat) (msg : string) : list LogLine :=
  if klog_V n env then [(Some n, msg)] else [].

(** The line of the [select]. *)
Definition wake_logs env s : list LogLine :=
  if 0 <? initialDelay s then
    match ready (pick env) (cancelled env) (enabledCh s) with
    | WakeEnabled => V env 2 "Reporting was enabled"
    | _ => []
    end
  else [].

(** The lines of the dry run: the listing at verbosity 4, then the error. *)
Definition listing_logs env (source : Reader) : list LogLine :=
  let r := reportToLogs source (klog_V 4 env) in
  ((fun l => (Some 4%nat, l)) <$> r.1) ++
  match r.2 with
  | Some err => [(None, Sprintf_v "Unable to log upload: " err)]
  | None => []
  end.

(** The lines of the path. *)
Definition body_logs (p : Path) env (source : Reader) (w : Time) : list LogLine :=
  let uploading := V env 4 ("Uploading latest report since " +:+ RFC3339 w) in
  match p with
  | SummaryFails _ => []
  | NothingNew => V env 4 ("Nothing to report since " +:+ RFC3339 w)
  | Uploaded =>
      uploading ++
      V env 4 ("Uploaded report successfully in " +:+
               Duration_String (time.Sub (finished env) (now env)))
  | WaitingForVersion | Unauthorized _ | UploadFails _ => uploading
  | DryRun _ _ =>
      V env 4 "Display report that would be sent" ++ listing_logs env source
  end.

(** The lines of a cycle, in the order they are printed. *)
Definition path_logs cfg env s : list LogLine :=
  wake_logs env s ++
  body_logs (path cfg env (abs s)) env
    (summary_answer cfg env (lastReported s)).1.1 (lastReported s).

(** ** The lines of [cycle] *)

Lemma step_logs env s :
  logs (step env s) = rev (path_logs (config_of (c s)) env s) ++ logs s.
Proof.
  unfold path_logs, wake_logs, body_logs, listing_logs, V, path, spec_enabled,
    summary_answer, send_answer, enabled_answer, cycle_ctx, upload_source, abs,
    config_of.
  run_proc; unfold dry_run_logs; cbn; repeat case_match; simplify_eq;
    rewrite ?rev_app_distr, <- ?app_assoc; done.
Qed.

(** The listing of a bundle that is not read. *)
Lemma listing_logs_off env (source : Reader) :
  klog_V 4 env = false -> listing_logs env source = [].
Proof. unfold listing_logs. by intros ->. Qed.

Lemma klog_V_le (n m : nat) env :
  (n <= m)%nat -> klog_V n env = false -> klog_V m env = false.
Proof. unfold klog_V. rewrite !Nat.leb_gt. lia. Qed.

Lemma V_off env (n : nat) (msg : string) : klog_V n env = false -> V env n msg = [].
Proof. unfold V. by intros ->. Qed.

(** The lines a cycle prints are those of [path_logs], in that order:
    the line of the wake-up if the wait ended by it, then the lines of the
    path, each at its verbosity. *)
Theorem cycle_logs env s :
  logs (step env s) = rev (path_logs (config_of (c s)) env s) ++ logs s.
Proof. apply step_logs. Qed.

(** Below verbosity 2 a cycle prints nothing, on any path: the error
    of a dry run is not printed either, as the bundle is not read. *)
Theorem quiet_cycle_prints_nothing env s :
  klog_V 2 env = false -> logs (step env s) = logs s.
Proof.
  intros Hq. pose proof (klog_V_le 2 4 env ltac:(lia) Hq) as Hv.
  rewrite step_logs. unfold path_logs, wake_logs, body_logs.
  rewrite (listing_logs_off _ _ Hv), !(V_off _ 4 _ Hv), (V_off _ 2 _ Hq).
  by repeat case_match.
Qed.

(** C40: below verbosity 4 the dry run does not read the bundle: a cycle
    with reporting off prints at most the line of the wake-up, whatever the
    bundle holds, and no error of the archive is ever seen. *)
Theorem dry_run_skips_bundle_below_V4 env s r m :
  klog_V 4 env = false ->
  path (config_of (c s)) env (abs s) = DryRun r m ->
  logs (step env s) = rev (wake_logs env s) ++ logs s.
Proof.
  intros Hv Hp. rewrite step_logs. unfold path_logs, body_logs.
  by rewrite Hp, (listing_logs_off _ _ Hv), (V_off _ 4 _ Hv), !app_nil_r.
Qed.

(** At verbosity 4 a cycle with reporting off prints the listing of
    the bundle: the announcement, then one line per entry of the archive in
    the order of the archive. *)
Theorem dry_run_lists_bundle env s r m (hdrs : list tar.Header) :
  klog_V 4 env = true ->
  path (config_of (c s)) env (abs s) = DryRun r m ->
  (summary_answer (config_of (c s)) env (lastReported s)).1.1
    = Archive (inl <$> hdrs) ->
  logs (step env s) =
    rev (wake_logs env s ++
         (Some 4%nat, "Display report that would be sent") ::
         ((fun h => (Some 4%nat, dry_run_line h)) <$> hdrs)) ++ logs s.
Proof.
  intros Hv Hp Hs. rewrite step_logs. unfold path_logs, body_logs, listing_logs, V.
  rewrite Hp, Hs, Hv. cbn [reportToLogs negb].
  rewrite list_entries_lines, list_entries_error.
  destruct (leading_headers_all hdrs) as [-> ->].
  rewrite decide_True by done.
  by rewrite app_nil_r, <- list_fmap_compose.
Qed.

End Lines.

Section Failure.
Context `{Errors} `{TimeFormat} `{Jitterer} {Heap R : Type} `{StatusReporter R}.
Context `{!Durable R}.
Implicit Types (env : Env Heap) (s : State Heap R).

(** C32: an archive that cannot be read costs a dry run one line of the
    log and nothing else: the error is printed last, and delay, watermark
    and published summary are those of a dry run of a sound bundle. *)
Theorem dry_run_error_is_only_logged env s r m (err : error) :
  path (config_of (c s)) env (abs s) = DryRun r m ->
  (reportToLogs (summary_answer (config_of (c s)) env (lastReported s)).1.1
     (klog_V 4 env)).2 = Some err ->
  head (logs (step env s)) = Some (None, Sprintf_v "Unable to log upload: " err)
  /\ abs (step env s) =
       mkAbs (jitter (interval (step env s)) 1.2 (rnd env)) (interval (step env s))
             (lastReported s) (lastReported s) (Some (DisabledSummary r m)).
Proof.
  intros Hp He. split.
  - rewrite step_logs. unfold path_logs, body_logs, listing_logs.
    rewrite Hp, He, !app_assoc, rev_app_distr. done.
  - destruct (step_sim env s) as [Ha _].
    pose proof (f_equal period Ha) as Hi. rewrite spec_step_period in Hi.
    cbn in Hi. rewrite Hi, Ha. unfold spec_step. by rewrite Hp.
Qed.

End Failure.

(** ** The theorems at the dry runs of [Scenario] *)

Lemma quiet_cycle_prints_nothing_witness : logs (step silent_env s0) = logs s0.
Proof. apply (quiet_cycle_prints_nothing (R := Time) silent_env s0). reflexivity. Defined.

Lemma dry_run_skips_bundle_below_V4_witness :
  logs (step silent_env s0) = rev (wake_logs silent_env s0) ++ logs s0.
Proof.
  apply (dry_run_skips_bundle_below_V4 (R := Time) silent_env s0 "" "");
    reflexivity.
Defined.

Lemma dry_run_lists_bundle_witness :
  logs (step off_env s0) =
    rev (wake_logs off_env s0 ++
         (Some 4%nat, "Display report that would be sent") ::
         ((fun h => (Some 4%nat, dry_run_line h)) <$> two_entries)) ++ logs s0.
Proof.
  apply (dry_run_lists_bundle (R := Time) off_env s0 "" "" two_entries);
    reflexivity.
Defined.

Lemma dry_run_error_is_only_logged_witness :
  head (logs (step truncated_env s0))
    = Some (None, Sprintf_v "Unable to log upload: " disk_error)
  /\ abs (step truncated_env s0) =
       mkAbs (jitter (interval (step truncated_env s0)) 1.2 (rnd truncated_env))
             (interval (step truncated_env s0))
             (lastReported s0) (lastReported s0) (Some (DisabledSummary "" "")).
Proof.
  apply (dry_run_error_is_only_logged (R := Time) truncated_env s0 "" "" disk_error);
    reflexivity.
Defined.
