(* ===== verification/Startup.v ===== *)
(** * Startup: the start of [Run], and [Init]

    The initial delay ([start_delay], lines 83-90 of insightsuploader.go),
    the state in which [wait.Until] is entered ([startup]) and the summary
    [Init] publishes. *)

From Stdlib Require Import QArith Lqa.
From stdpp Require Import base tactics strings list.
From S2P Require Import Prelude Timing Status Channel DryRun Uploader Scenario.
From S2P Require Import CycleSpec Calls.

#[local] Open Scope Z_scope.

Section Startup.
Context `{Errors} `{TimeFormat} `{Jitterer} {Heap R : Type} `{StatusReporter R}.
Implicit Types (env : Env Heap) (s : State Heap R) (e : StartEnv (Heap := Heap)).

(** ** The initial delay *)

Lemma start_delay_fresh_eq (interval : Duration) (lastReported now : Time) r0 r1 :
  lastReported = 0 \/ lastReported + interval <= now ->
  start_delay interval lastReported now r0 r1 = jitter (interval ÷ 8) 2 r0.
Proof.
  unfold start_delay, time.IsZero, time.After, time.Add.
  intros [->|Hle]; [done|]. destruct (lastReported =? 0); cbn; [done|].
  by destruct (Z.ltb_spec now (lastReported + interval)); [lia|].
Qed.

Lemma start_delay_ahead_eq (interval : Duration) (lastReported now : Time) r0 r1 :
  lastReported <> 0 -> now < lastReported + interval ->
  start_delay interval lastReported now r0 r1 =
    jitter (time.Sub now (lastReported + interval)) 1.2 r1.
Proof.
  unfold start_delay, time.IsZero, time.After, time.Add. intros Hz Hlt.
  destruct (Z.eqb_spec lastReported 0); [done|]. cbn.
  by destruct (Z.ltb_spec now (lastReported + interval)); [|lia].
Qed.

(** With no earlier report, or one at least an interval old, the
    initial delay is at least an eighth of the interval and at most that
    eighth times one plus the width of the jitter at factor 2. *)
Theorem start_delay_fresh (interval : Duration) (lastReported now : Time) r0 r1 :
  lastReported = 0 \/ lastReported + interval <= now ->
  0 <= interval -> is_sample r0 ->
  interval ÷ 8 <= start_delay interval lastReported now r0 r1
  /\ (inject_Z (start_delay interval lastReported now r0 r1)
       <= inject_Z (interval ÷ 8) * (1 + width 2))%Q.
Proof.
  intros Hf Hi Hr. rewrite start_delay_fresh_eq by done.
  pose proof (quot8_bounds _ Hi) as [Hq _].
  split; auto using jitter_ge, jitter_le.
Qed.

(** The variables of [Run] at the call of [wait.Until], panic or not. *)
Lemma startup_vars e s :
  lastReported (startup e s).2 = LastReportedTime (Controller.reporter (c s))
  /\ initialDelay (startup e s).2 =
       start_delay (interval (startup e s).2) (lastReported (startup e s).2)
                   (now0 e) (rnd0 e) (rnd1 e)
  /\ c (startup e s).2 = c s.
Proof. by run_proc. Qed.

(** The interval at the call of [wait.Until]. *)
Lemma startup_interval e s :
  interval (startup e s).2 =
    match Controller.client (c s) with
    | Some cl =>
        let n := (insightsclient.Enabled cl (heap0 e)).1.2 in
        if 0 <? n then n else interval s
    | None => interval s
    end.
Proof. run_proc; by simplify_eq. Qed.

(** An interval that is not positive leaves no initial delay. *)
Lemma start_delay_nonpos (interval : Duration) (lastReported now : Time) r0 r1 :
  interval <= 0 -> is_sample r0 -> is_sample r1 ->
  start_delay interval lastReported now r0 r1 <= 0.
Proof.
  intros Hi Hr0 Hr1. unfold start_delay.
  pose proof (quot8_nonpos _ Hi) as H8.
  pose proof (jitter_nonpos _ 2%Q r0 H8 Hr0).
  destruct (negb _); [|lia]. destruct (time.After _ _) eqn:E; [|lia].
  apply After_spec in E.
  destruct (saturate_sign (now - time.Add lastReported interval)) as [Hneg _].
  pose proof (jitter_nonpos _ 1.2%Q r1 (Z.lt_le_incl _ _ (Hneg ltac:(lia))) Hr1).
  unfold time.Sub. lia.
Qed.

(** When the last report is less than an interval old, the initial
    delay is the jitter of [now.Sub(next)], which is negative because
    [next] is after [now]: the delay is negative, whatever the random
    source yields. *)
Theorem start_delay_ahead_is_negative (interval : Duration)
    (lastReported now : Time) r0 r1 :
  lastReported <> 0 -> now < lastReported + interval -> is_sample r1 ->
  start_delay interval lastReported now r0 r1 < 0.
Proof.
  intros Hz Hlt Hr. rewrite start_delay_ahead_eq by done.
  destruct (saturate_sign (now - (lastReported + interval))) as [Hneg _].
  unfold time.Sub. specialize (Hneg ltac:(lia)).
  pose proof (jitter_nonpos _ 1.2%Q r1 (Z.lt_le_incl _ _ Hneg) Hr). lia.
Qed.

(** A cycle entered with a delay that is not positive does not wait:
    it takes nothing from the channel, leaves the delay to the path, and
    goes on to ask the summarizer. *)
Theorem no_wait_when_not_positive env s :
  initialDelay s <= 0 ->
  enabledCh (step env s) = enabledCh s
  /\ CallSummary cycle_ctx (lastReported s) ∈ calls (step env s).
Proof.
  intros Hd. split.
  - destruct (Z.ltb_spec 0 (initialDelay s)) as [?|_]; [lia|].
    assert ((0 <? initialDelay s) = false) as Hlt by lia.
    revert Hlt. run_proc; congruence.
  - apply step_calls_summary.
Qed.

(** ** The state in which [wait.Until] is entered *)

(** C33: with a client, the start of [Run] does not panic; it starts the
    watcher with the enabled state the client reports, takes the interval
    the client suggests if that is positive, reads the watermark from the
    reporter, and leaves the delay [start_delay] computes; the channel is
    still empty. *)
Theorem startup_configured e s cl enabled n msg :
  Controller.client (c s) = Some cl ->
  insightsclient.Enabled cl (heap0 e) = (enabled, n, msg) ->
  let s' := (startup e s).2 in
  (startup e s).1 = Next (Some enabled)
  /\ interval s' = (if 0 <? n then n else interval s)
  /\ lastReported s' = LastReportedTime (Controller.reporter (c s))
  /\ initialDelay s' =
       start_delay (interval s') (lastReported s') (now0 e) (rnd0 e) (rnd1 e)
  /\ enabledCh s' = enabledCh s
  /\ synced (abs s').
Proof.
  intros Hcl Hen. unfold synced, abs.
  run_proc; simplify_eq; repeat split; congruence.
Qed.

(** C34: without a client, the start of [Run] reaches
    [c.client.Endpoint()] on the nil client after computing the delay: it
    panics, and no watcher was started. *)
Theorem startup_unconfigured_panics e s :
  Controller.client (c s) = None ->
  panics (startup e) s = true
  /\ enabledCh (startup e s).2 = enabledCh s
  /\ calls (startup e s).2 = calls s.
Proof. intros Hcl. unfold panics. by run_proc. Qed.

(** ** [Init] *)

Lemma Init_summary_cases (h : Heap) (c0 : Controller.t Heap R) :
  Init_summary h c0 =
    match Controller.client c0 with
    | None => mkSummary false true "NotConfigured" "Reporting has been disabled"
    | Some cl =>
        let '(enabled, _, disabledMessage) := insightsclient.Enabled cl h in
        if enabled then HealthySummary
        else mkSummary false true "Disabled"
               (or_default disabledMessage "Uploading reports has been disabled")
    end.
Proof.
  unfold Init_summary. destruct (Controller.client c0) as [cl|]; [|done].
  by destruct (insightsclient.Enabled cl h) as [[[] ?] ?].
Qed.


End Startup.

(** ** The theorems at the start of [Scenario] *)

Lemma start_delay_fresh_witness :
  ten_minutes ÷ 8 <= fresh_delay
  /\ (inject_Z fresh_delay <= inject_Z (ten_minutes ÷ 8) * (1 + width 2))%Q.
Proof.
  apply (start_delay_fresh ten_minutes 0 100 (1 # 2) (1 # 2));
    [by left | by vm_compute | apply sample_half].
Defined.

Lemma start_delay_ahead_is_negative_witness :
  ahead_delay < 0.
Proof.
  apply (start_delay_ahead_is_negative 600 1000 1200 (1 # 2) (1 # 2));
    [discriminate | reflexivity | apply sample_half].
Defined.

Lemma no_wait_when_not_positive_witness :
  enabledCh (step ok_env s0) = enabledCh s0
  /\ CallSummary cycle_ctx (lastReported s0) ∈ calls (step ok_env s0).
Proof. apply (no_wait_when_not_positive ok_env s0). by vm_compute. Defined.

Lemma startup_configured_witness :
  (startup start_env s0).1 = Next (Some true)
  /\ interval (startup start_env s0).2 = (if 0 <? 0 then 0 else interval s0)
  /\ lastReported (startup start_env s0).2
     = LastReportedTime (Controller.reporter (c s0))
  /\ initialDelay (startup start_env s0).2 =
       start_delay (interval (startup start_env s0).2)
         (lastReported (startup start_env s0).2)
         (now0 start_env) (rnd0 start_env) (rnd1 start_env)
  /\ enabledCh (startup start_env s0).2 = enabledCh s0
  /\ synced (abs (startup start_env s0).2).
Proof.
  exact (startup_configured start_env s0 script_client true 0 "" eq_refl eq_refl).
Defined.

Lemma startup_unconfigured_panics_witness :
  panics (startup start_env) (Run_vars demo_unconfigured) = true
  /\ enabledCh (startup start_env (Run_vars demo_unconfigured)).2
     = enabledCh (Run_vars demo_unconfigured)
  /\ calls (startup start_env (Run_vars demo_unconfigured)).2
     = calls (Run_vars demo_unconfigured).
Proof.
  exact (startup_unconfigured_panics start_env (Run_vars demo_unconfigured) eq_refl).
Defined.
