(* ===== verification/Restart.v ===== *)
(** * Restart: [Run] after [Run]

    The watermark outlives the process only through the status reporter:
    the closure writes it with [SetLastReportedTime] (lines 163 and 173 of
    insightsuploader.go) and the next [Run] reads it back with
    [LastReportedTime] (line 84).  Here a process that starts again is a
    controller built by [New] around the collaborators and the reporter the
    run before left, and [Run] up to [wait.Until] on it.  The theorems: the
    watermark read back is the one the run before had; and a restart less
    than an interval after an upload computes a negative delay (lines
    85-89), so the restarted loop reports again at once. *)

From Stdlib Require Import QArith.
From stdpp Require Import base tactics strings list.
From S2P Require Import Prelude Timing Status Channel DryRun Uploader Scenario.
From S2P Require Import CycleSpec Startup.

#[local] Open Scope Z_scope.

Section Restart.
Context `{Errors} `{TimeFormat} `{Jitterer} {Heap R : Type} `{StatusReporter R}.
Implicit Types (env : Env Heap) (s : State Heap R) (e : StartEnv (Heap := Heap)).

(** The controller of the next process: [New] on what the last one
    held. *)
Definition rebuilt (c0 : Controller.t Heap R) : Controller.t Heap R :=
  New (Controller.summarizer c0) (Controller.client c0)
      (Controller.reporter c0) (Controller.interval c0).

(** The variables of the next [Run] when it calls [wait.Until]. *)
Definition restart e s : State Heap R :=
  (startup e (Run_vars (rebuilt (c s)))).2.

End Restart.

(** A process that starts again at time 1000. *)
Definition again : StartEnv (Heap := Script) :=
  mkStartEnv upload_ok 1000 (1 # 2) (1 # 2) 4.

(** ** Lemmas *)

Section Facts.
Context `{Errors} `{TimeFormat} `{Jitterer} {Heap R : Type} `{StatusReporter R}.
Implicit Types (env : Env Heap) (s : State Heap R) (e : StartEnv (Heap := Heap)).

Lemma restart_vars e s :
  lastReported (restart e s) = LastReportedTime (Controller.reporter (c s))
  /\ initialDelay (restart e s) =
       start_delay (interval (restart e s)) (lastReported (restart e s))
                   (now0 e) (rnd0 e) (rnd1 e)
  /\ Controller.reporter (c (restart e s)) = Controller.reporter (c s).
Proof.
  unfold restart. destruct (startup_vars e (Run_vars (rebuilt (c s)))) as (-> & -> & ->).
  done.
Qed.

Section Durable.
Context `{!Durable R}.

Lemma steps_synced envs s : synced (abs s) -> synced (abs (steps envs s)).
Proof.
  intros Hs. destruct (steps_sim envs s) as [-> _].
  by apply spec_steps_inv; [apply spec_step_synced|].
Qed.

Lemma uploaded_reporter env s :
  path (config_of (c s)) env (abs s) = Uploaded ->
  lastReported (step env s) = now env
  /\ LastReportedTime (Controller.reporter (c (step env s))) = now env.
Proof.
  intros Hp. destruct (step_sim env s) as [Ha _].
  pose proof (f_equal watermark Ha) as Hw. pose proof (f_equal reported Ha) as Hr.
  rewrite spec_step_watermark in Hw. rewrite spec_step_reported in Hr.
  rewrite Hp in Hw, Hr. done.
Qed.

(** ** The theorems *)

(** C10: what a run writes to the reporter the next run reads back: if the
    reporter held the watermark when the run began, the [Run] of a
    controller rebuilt around the same reporter starts from the watermark
    the run ended with, and with the reporter still holding it. *)
Theorem restart_resumes e envs s :
  synced (abs s) ->
  lastReported (restart e (steps envs s)) = lastReported (steps envs s)
  /\ synced (abs (restart e (steps envs s))).
Proof.
  intros Hs%(steps_synced envs). unfold synced in *. cbn in *.
  destruct (restart_vars e (steps envs s)) as (-> & _ & ->). done.
Qed.

(** A process that starts again less than an interval after an upload
    reads the time of the upload back, finds [next] after [now], and
    computes a negative delay from [now.Sub(next)]. *)
Lemma restart_after_upload e env s :
  path (config_of (c s)) env (abs s) = Uploaded ->
  now env <> 0 -> is_sample (rnd1 e) ->
  now0 e < now env + interval (restart e (step env s)) ->
  lastReported (restart e (step env s)) = now env
  /\ initialDelay (restart e (step env s)) < 0.
Proof.
  intros [_ Hr]%uploaded_reporter Hz Hs Hn.
  destruct (restart_vars e (step env s)) as (Hl & -> & _).
  rewrite Hr in Hl. rewrite Hl in *. split; [done|].
  by apply start_delay_ahead_is_negative.
Qed.

End Durable.
End Facts.

(** ** The theorems at the run of [Scenario] *)

Lemma restart_resumes_witness :
  lastReported (restart again (steps all_paths s0)) = lastReported (steps all_paths s0)
  /\ synced (abs (restart again (steps all_paths s0))).
Proof. by apply (restart_resumes again all_paths s0). Defined.

