(* ===== verification/Delays.v ===== *)
(** * Delays: the range of the delay of every path, in integers

    [Paths] bounds the delays against the contract [Jitterer].  Here the two
    instances are put in: [wait_Jitter], the jitter of the Kubernetes
    library ([d] plus a share of [f * d]), and [spec_Jitter], the range
    [[d, d * f)] of spec.md.  The bounds are integer inequalities; with the
    library's jitter no delay leaves the int64 range as long as four times
    the interval fits. *)

From Stdlib Require Import QArith Lqa.
From stdpp Require Import base tactics strings list.
From S2P Require Import Prelude Timing Status Channel DryRun Uploader Scenario.
From S2P Require Import CycleSpec.

#[local] Open Scope Z_scope.

(** ** The delay tables *)

Section Tables.
Context `{Errors}.

(** The delay [d] a cycle on path [p] may leave, for the working interval
    [i] and the delay [d0] before the cycle, with the jitter of the
    library. *)
Definition library_range (p : Path) (i d0 d : Duration) : Prop :=
  match p with
  | SummaryFails _ | NothingNew => d = Z.min 0 d0
  | Uploaded | DryRun _ _ => i <= d /\ 5 * d < 11 * i
  | WaitingForVersion => 0 <= d <= i ÷ 8 /\ (8 <= i -> d < i ÷ 8)
  | Unauthorized _ => i <= d < 4 * i
  | UploadFails _ => i ÷ 8 <= d /\ 5 * d <= 11 * (i ÷ 8)
  end.

(** The same with the jitter spec.md describes. *)
Definition specified_range (p : Path) (i d0 d : Duration) : Prop :=
  match p with
  | SummaryFails _ | NothingNew => d = Z.min 0 d0
  | Uploaded | DryRun _ _ => i <= d /\ 5 * d < 6 * i
  | WaitingForVersion => d = 0
  | Unauthorized _ => i <= d < 3 * i
  | UploadFails _ => i ÷ 8 <= d /\ 5 * d <= 6 * (i ÷ 8)
  end.

#[export] Instance library_range_dec p i d0 d : Decision (library_range p i d0 d).
Proof. destruct p; cbn; apply _. Defined.

#[export] Instance specified_range_dec p i d0 d : Decision (specified_range p i d0 d).
Proof. destruct p; cbn; apply _. Defined.

End Tables.

(** ** The range of [scaled] in integers *)

(** For a width [n / m]: [d <= scaled d w r] and
    [m * scaled d w r <= (m + n) * d], strictly when [d] and [n] are
    positive. *)
Lemma scaled_range (d : Duration) (w r : Q) (n : Z) (m : positive) :
  (w == n # m)%Q -> 0 <= n -> 0 <= d -> is_sample r ->
  d <= scaled d w r
  /\ Z.pos m * scaled d w r <= (Z.pos m + n) * d
  /\ (0 < d -> 0 < n -> Z.pos m * scaled d w r < (Z.pos m + n) * d).
Proof.
  intros Hw Hn Hd Hr.
  assert (0 <= w)%Q as Hw0 by (rewrite Hw; unfold Qle; simpl; lia).
  assert (1 + w == (Z.pos m + n) # m)%Q as Hw1
    by (rewrite Hw; unfold Qeq, Qplus; simpl; lia).
  split; [by apply scaled_ge|]. split.
  - pose proof (scaled_le d w r Hw0 Hr Hd) as Hle. rewrite Hw1 in Hle.
    pose proof (proj1 (Qle_inject_frac (scaled d w r) d (Z.pos m + n) m) Hle). lia.
  - intros Hd' Hn'. assert (0 < w)%Q as Hw' by (rewrite Hw; unfold Qlt; simpl; lia).
    pose proof (scaled_lt d w r Hw0 Hr Hd' Hw') as Hlt. rewrite Hw1 in Hlt.
    pose proof (proj1 (Qlt_inject_frac (scaled d w r) d (Z.pos m + n) m) Hlt). lia.
Qed.

(** The ranges of [wait.Jitter] at the factors [Run] uses. *)
Lemma wait_Jitter_range (d : Duration) (r : Q) :
  0 <= d -> is_sample r ->
  (d <= wait.Jitter d 1 r <= 2 * d /\ (0 < d -> wait.Jitter d 1 r < 2 * d))
  /\ (d <= wait.Jitter d 1.2 r /\ 5 * wait.Jitter d 1.2 r <= 11 * d
      /\ (0 < d -> 5 * wait.Jitter d 1.2 r < 11 * d))
  /\ (d <= wait.Jitter d 2 r <= 3 * d /\ (0 < d -> wait.Jitter d 2 r < 3 * d))
  /\ (d <= wait.Jitter d 3 r <= 4 * d /\ (0 < d -> wait.Jitter d 3 r < 4 * d)).
Proof.
  intros Hd Hr. rewrite !Jitter_scaled.
  pose proof (scaled_range d (wait.Jitter_width 1) r 1 1 ltac:(done) ltac:(lia) Hd Hr).
  pose proof (scaled_range d (wait.Jitter_width 1.2) r 6 5 ltac:(done) ltac:(lia) Hd Hr).
  pose proof (scaled_range d (wait.Jitter_width 2) r 2 1 ltac:(done) ltac:(lia) Hd Hr).
  pose proof (scaled_range d (wait.Jitter_width 3) r 3 1 ltac:(done) ltac:(lia) Hd Hr).
  lia.
Qed.

(** The ranges of the jitter of spec.md at the same factors. *)
Lemma spec_jitter_range (d : Duration) (r : Q) :
  0 <= d -> is_sample r ->
  spec_jitter d 1 r = d
  /\ (d <= spec_jitter d 1.2 r /\ 5 * spec_jitter d 1.2 r <= 6 * d
      /\ (0 < d -> 5 * spec_jitter d 1.2 r < 6 * d))
  /\ (d <= spec_jitter d 2 r <= 2 * d /\ (0 < d -> spec_jitter d 2 r < 2 * d))
  /\ (d <= spec_jitter d 3 r <= 3 * d /\ (0 < d -> spec_jitter d 3 r < 3 * d)).
Proof.
  intros Hd Hr. unfold spec_jitter.
  pose proof (scaled_range d (spec_width 1) r 0 1 ltac:(done) ltac:(lia) Hd Hr).
  pose proof (scaled_range d (spec_width 1.2) r 1 5 ltac:(done) ltac:(lia) Hd Hr).
  pose proof (scaled_range d (spec_width 2) r 1 1 ltac:(done) ltac:(lia) Hd Hr).
  pose proof (scaled_range d (spec_width 3) r 2 1 ltac:(done) ltac:(lia) Hd Hr).
  lia.
Qed.

(** ** Facts on the tables *)

Section TableFacts.
Context `{Errors}.

Lemma waited_min (d : Duration) : waited d = Z.min 0 d.
Proof. unfold waited. destruct (Z.ltb_spec 0 d); lia. Qed.

Lemma library_range_fits (p : Path) (i d0 d : Duration) :
  0 < i <= maxDuration ÷ 4 -> is_Duration d0 ->
  library_range p i d0 d -> is_Duration d.
Proof.
  change (maxDuration ÷ 4) with 2305843009213693951.
  unfold is_Duration, minDuration, maxDuration. intros Hi Hd0 Hp.
  pose proof (quot8_bounds i ltac:(lia)).
  destruct p; cbn in Hp; lia.
Qed.

End TableFacts.

(** ** The closure with the jitter of the library *)

Section Library.
Context `{Errors} `{TimeFormat} {Heap R : Type} `{StatusReporter R} `{!Durable R}.
Implicit Types (env : Env Heap) (s : State Heap R).

Lemma step_library_range env s :
  0 < interval (step env s) -> is_sample (rnd env) ->
  library_range (path (config_of (c s)) env (abs s))
    (interval (step env s)) (initialDelay s) (initialDelay (step env s)).
Proof.
  intros Hi Hr. rewrite step_delay, waited_min. cbn zeta.
  change jitter with wait.Jitter.
  assert (0 <= interval (step env s)) as Hi0 by lia.
  pose proof (quot8_bounds _ Hi0) as [Hq _]. pose proof (quot8_bounds _ Hi0).
  pose proof (quot8_pos (interval (step env s))).
  pose proof (wait_Jitter_range _ (rnd env) Hi0 Hr).
  pose proof (wait_Jitter_range _ (rnd env) Hq Hr).
  destruct (path _ env (abs s)); cbn; lia.
Qed.

(** C21: with the jitter of the library, the delay a cycle leaves lies in
    the range of its path: [[i, 2.2 i)] after an upload or a dry run,
    [[0, i/8)] when the client waits for the version, [[i, 4 i)] after an
    authorization failure, [[i/8, 2.2 (i/8)]] after any other upload
    failure, and the delay left by the wait when nothing was sent, for the
    working interval [i] of the cycle. *)
Theorem library_delays env s :
  0 < interval (step env s) -> is_sample (rnd env) ->
  library_range (path (config_of (c s)) env (abs s))
    (interval (step env s)) (initialDelay s) (initialDelay (step env s)).
Proof. apply step_library_range. Qed.

(** No delay leaves the range of an int64 count of nanoseconds as
    long as four times the working interval fits in it. *)
Theorem delays_fit_int64 env s :
  0 < interval (step env s) <= maxDuration ÷ 4 -> is_sample (rnd env) ->
  is_Duration (initialDelay s) -> is_Duration (initialDelay (step env s)).
Proof.
  intros Hi Hr Hd. eapply library_range_fits; [exact Hi | exact Hd |].
  apply step_library_range; [lia | done].
Qed.

End Library.

(** ** The closure with the jitter of spec.md *)

Section Specified.
#[local] Existing Instance spec_Jitter | 0.
Context `{Errors} `{TimeFormat} {Heap R : Type} `{StatusReporter R} `{!Durable R}.
Implicit Types (env : Env Heap) (s : State Heap R).

(** With a jitter in [[d, d * f)], as spec.md describes it, the delay
    after an upload or a dry run lies in [[i, 1.2 i)], the delay after an
    authorization failure in [[i, 3 i)], and the delay when the client
    waits for the version is 0: the retry is immediate. *)
Theorem specified_delays env s :
  0 < interval (step env s) -> is_sample (rnd env) ->
  specified_range (path (config_of (c s)) env (abs s))
    (interval (step env s)) (initialDelay s) (initialDelay (step env s)).
Proof.
  intros Hi Hr. rewrite step_delay, waited_min. cbn zeta.
  change jitter with spec_jitter.
  assert (0 <= interval (step env s)) as Hi0 by lia.
  pose proof (quot8_bounds _ Hi0) as [Hq _]. pose proof (quot8_bounds _ Hi0).
  pose proof (spec_jitter_range _ (rnd env) Hi0 Hr).
  pose proof (spec_jitter_range _ (rnd env) Hq Hr).
  destruct (path _ env (abs s)); cbn; lia.
Qed.

End Specified.

(** ** The theorems at the cycles of [Scenario] *)

Lemma library_delays_witness :
  library_range (path (config_of (c s0)) ok_env (abs s0))
    (interval (step ok_env s0)) (initialDelay s0) (initialDelay (step ok_env s0)).
Proof.
  apply (library_delays (R := Time) ok_env s0); [reflexivity | exact sample_half].
Defined.

Lemma delays_fit_int64_witness : is_Duration (initialDelay (step waiting_env s0)).
Proof.
  apply (delays_fit_int64 (R := Time) waiting_env s0);
    [by vm_compute | exact sample_half | by vm_compute].
Defined.

Section SpecifiedScenario.
#[local] Existing Instance spec_Jitter | 0.

Lemma specified_delays_witness :
  specified_range (path (config_of (c s0)) waiting_env (abs s0))
    (interval (step waiting_env s0)) (initialDelay s0)
    (initialDelay (step waiting_env s0)).
Proof.
  apply (specified_delays (R := Time) waiting_env s0);
    [reflexivity | exact sample_half].
Defined.

End SpecifiedScenario.

(** The ranges of spec.md do not hold of the closure as it runs with
    the jitter of the library: with an interval of ten minutes and a sample
    of one half, the delay after a successful upload is sixteen minutes,
    above [1.2] times the interval, and the delay when the client waits for
    the version is 37.5 seconds, not 0. *)
Example library_leaves_specified_range :
  initialDelay (step ok_env s0) = 960 * time.Second
  /\ ~ specified_range Uploaded (interval (step ok_env s0)) (initialDelay s0)
         (initialDelay (step ok_env s0))
  /\ initialDelay (step waiting_env s0) = 37500 * 1000000
  /\ ~ specified_range WaitingForVersion (interval (step waiting_env s0))
         (initialDelay s0) (initialDelay (step waiting_env s0)).
Proof. vm_compute. intuition (discriminate || congruence). Qed.

(** Beyond the bound the sum overflows: from half the largest duration, a
    jitter at factor 3 with a draw of nine tenths is no int64. *)
Example large_interval_overflows :
  ~ is_Duration (wait.Jitter (maxDuration ÷ 2) 3 (9 # 10)).
Proof. by vm_compute; intros [_ ?]. Qed.
