(* ===== verification/RunLoop.v ===== *)
(** * RunLoop: the goroutines of [Run]

    [Run] leaves two goroutines behind: the watcher (lines 68-80 of
    insightsuploader.go) and the loop of [wait.Until] around the closure
    (lines 93-185).  They share the channel [enabledCh] and nothing else.
    A state of the system ([Sys]) is the variables of [Run], the variable
    [initialEnabled] of the watcher if it was started, whether the context
    of [Run] is cancelled and whether [wait.Until] has returned.  An
    interleaving is a list of [Event]s: an iteration of the watcher, the
    cancellation of the context, an iteration of [wait.Until].

    [wait.Until(f, period, stopCh)] is the loop of the Kubernetes library:
    return if [stopCh] is closed, call [f], wait for the period or for
    [stopCh], and again.  The wait after [f] and the test that follows it
    are one test in the model: [tick] returns when the context is
    cancelled, and calls the closure otherwise. *)

From Stdlib Require Import QArith.
From stdpp Require Import base tactics strings list.
From S2P Require Import Prelude Timing Status Channel DryRun Uploader Scenario.
From S2P Require Import CycleSpec.

#[local] Open Scope Z_scope.

Section Goroutines.
Context `{Errors} `{TimeFormat} `{Jitterer} {Heap R : Type} `{StatusReporter R}.
Implicit Types (env : Env Heap) (s : State Heap R).

(** ** The system *)

Record Sys : Type := mkSys {
  main : State Heap R;
  watcher_seen_ : option bool;
  done : bool;
  stopped : bool;
}.

Inductive Event : Type :=
| Poll (h : Heap)
| Cancel
| Tick (env : Env Heap).

(** One iteration of the loop of the goroutine, lines 70-77: the answer of
    [Enabled()] on the heap of the moment goes through [watch]. *)
Definition poll (h : Heap) (sys : Sys) : Sys :=
  match watcher_seen_ sys, Controller.client (c (main sys)) with
  | Some initialEnabled, Some cl =>
      let enabled := (insightsclient.Enabled cl h).1.1 in
      let r := watch enabled initialEnabled (enabledCh (main sys)) in
      mkSys (set_enabledCh r.2 (main sys)) (Some r.1) (done sys) (stopped sys)
  | _, _ => sys
  end.

(** The period [wait.Until] is called with, line 185. *)
Definition period_Until : Duration := 15 * time.Second.

(** One iteration of [wait.Until]: the context is cancelled once the
    [select] of the closure has seen it cancelled. *)
Definition tick env (sys : Sys) : Sys :=
  if done sys || stopped sys
  then mkSys (main sys) (watcher_seen_ sys) (done sys) true
  else mkSys (step env (main sys)) (watcher_seen_ sys) (cancelled env) false.

Definition cancel (sys : Sys) : Sys :=
  mkSys (main sys) (watcher_seen_ sys) true (stopped sys).

Definition sys_step (ev : Event) (sys : Sys) : Sys :=
  match ev with
  | Poll h => poll h sys
  | Cancel => cancel sys
  | Tick env => tick env sys
  end.

Definition sys_run (evs : list Event) (sys : Sys) : Sys :=
  foldl (fun sys ev => sys_step ev sys) sys evs.

(** [Run] up to [wait.Until]: the system the two goroutines start in, or
    nothing if [Run] panics before. *)
Definition start (e : StartEnv (Heap := Heap)) (c0 : Controller.t Heap R)
  : option Sys :=
  match startup e (Run_vars c0) with
  | (Next w, s) => Some (mkSys s w false false)
  | _ => None
  end.

(** The states of [Run]. *)
Inductive reachable (e : StartEnv (Heap := Heap)) (c0 : Controller.t Heap R)
  : Sys -> Prop :=
| reach_start sys : start e c0 = Some sys -> reachable e c0 sys
| reach_step ev sys : reachable e c0 sys -> reachable e c0 (sys_step ev sys).

(** The environments of the iterations of [wait.Until] that call the
    closure, given whether the context is cancelled and whether the loop
    has returned. *)
Fixpoint executed (evs : list Event) (done stopped : bool) : list (Env Heap) :=
  match evs with
  | [] => []
  | Poll _ :: rest => executed rest done stopped
  | Cancel :: rest => executed rest true stopped
  | Tick env :: rest =>
      if done || stopped then executed rest done true
      else env :: executed rest (cancelled env) false
  end.

(** The [select] of the closure takes a wake-up. *)
Definition woke env s : bool :=
  (0 <? initialDelay s)
  && bool_decide (ready (pick env) (cancelled env) (enabledCh s) = WakeEnabled).

End Goroutines.
Arguments Sys {_} Heap R.
Arguments Event Heap : clear implicits.

(** ** A run of [Scenario] *)

(** [Run] of [Scenario.demo] at the call of [wait.Until]. *)
Definition running : Sys Script Time :=
  mkSys (startup start_env s0).2 (Some true) false false.

(** The enabled state goes off and on again before the first cycle; two
    iterations of [wait.Until] follow, each taking the channel if it can. *)
Definition flip_flop : list (Event Script) :=
  [Poll switched_off; Poll upload_ok;
   Tick (woken (env_at 200 upload_ok)); Tick (woken (env_at 300 upload_ok))].

Section Facts.
Context `{Errors} `{TimeFormat} `{Jitterer} {Heap R : Type} `{StatusReporter R}.
Implicit Types (env : Env Heap) (s : State Heap R) (sys : Sys Heap R).
Implicit Types (ev : Event Heap) (evs : list (Event Heap)).
Implicit Types (e : StartEnv (Heap := Heap)).

(** ** The channel across a cycle *)

Lemma step_enabledCh env s :
  enabledCh (step env s) =
    if 0 <? initialDelay s then enabledCh (wake env s) else enabledCh s.
Proof. run_proc; done. Qed.

Lemma ready_WakeEnabled p b ch :
  ready p b ch = WakeEnabled -> can_recv ch = true.
Proof. destruct p, b; cbn; by destruct (can_recv ch). Qed.

Lemma wake_enabledCh env s :
  enabledCh (wake env s) =
    if bool_decide (ready (pick env) (cancelled env) (enabledCh s) = WakeEnabled)
    then mkChan (cap (enabledCh s)) (tail (buf (enabledCh s)))
    else enabledCh s.
Proof.
  cbn. case_bool_decide as Hw.
  - rewrite Hw. apply ready_WakeEnabled in Hw. unfold can_recv, recv in *.
    by destruct (buf (enabledCh s)).
  - by destruct (ready _ _ _).
Qed.

Lemma step_channel env s :
  enabledCh (step env s) =
    if woke env s then mkChan (cap (enabledCh s)) (tail (buf (enabledCh s)))
    else enabledCh s.
Proof.
  rewrite step_enabledCh, wake_enabledCh. unfold woke.
  by destruct (0 <? initialDelay s), (bool_decide _).
Qed.

Lemma step_chan_ok env s :
  chan_ok (enabledCh s) ->
  chan_ok (enabledCh (step env s)) /\ cap (enabledCh (step env s)) = cap (enabledCh s).
Proof.
  rewrite step_channel. unfold chan_ok. destruct (woke env s); cbn; [|done].
  destruct (buf (enabledCh s)); cbn; split; (done || lia).
Qed.

(** ** The watcher touches the channel only *)

Lemma set_enabledCh_id s : s = set_enabledCh (enabledCh s) s.
Proof. by destruct s. Qed.

Lemma poll_main h sys :
  exists ch, main (poll h sys) = set_enabledCh ch (main sys)
    /\ (chan_ok (enabledCh (main sys)) ->
        chan_ok ch /\ cap ch = cap (enabledCh (main sys))).
Proof.
  unfold poll.
  destruct (watcher_seen_ sys), (Controller.client (c (main sys))); cbn;
    try (exists (enabledCh (main sys)); by auto using set_enabledCh_id).
  eexists. split; [done|]. intros Hok. by rewrite watch_cap; auto using watch_ok.
Qed.

Lemma poll_flags h sys :
  done (poll h sys) = done sys /\ stopped (poll h sys) = stopped sys.
Proof.
  unfold poll. by destruct (watcher_seen_ sys), (Controller.client (c (main sys))).
Qed.

Lemma sys_step_chan_ok ev sys :
  chan_ok (enabledCh (main sys)) ->
  chan_ok (enabledCh (main (sys_step ev sys)))
  /\ cap (enabledCh (main (sys_step ev sys))) = cap (enabledCh (main sys)).
Proof.
  intros Hok. destruct ev as [h| |env]; cbn; [| done |].
  - destruct (poll_main h sys) as (ch & -> & Hch). by apply Hch.
  - unfold tick. destruct (done sys || stopped sys); cbn; [done|].
    by apply step_chan_ok.
Qed.

(** [Run] enters the loop with the channel it made, empty, and with the
    reporter holding the watermark. *)
Lemma start_inv e c0 sys :
  start e c0 = Some sys ->
  enabledCh (main sys) = enabledCh0 /\ done sys = false /\ stopped sys = false
  /\ LastReportedTime (Controller.reporter (c (main sys))) = lastReported (main sys)
  /\ config_of (c (main sys)) = config_of c0.
Proof.
  unfold start, config_of. intros Hs. revert Hs.
  run_proc; intros; simplify_eq; cbn; repeat split; congruence.
Qed.

Lemma start_main e (c0 : Controller.t Heap R) sys :
  start e c0 = Some sys -> main sys = (startup e (Run_vars c0)).2.
Proof.
  unfold start. destruct (startup e (Run_vars c0)) as [[] ?]; intros; by simplify_eq.
Qed.

(** ** The closure in an interleaving *)

Section Interleaving.
Context `{!Durable R}.

Lemma sys_run_cons ev evs sys :
  sys_run (ev :: evs) sys = sys_run evs (sys_step ev sys).
Proof. done. Qed.

Lemma sys_step_sim ev sys :
  abs (main (sys_step ev sys)) =
    spec_steps (config_of (c (main sys)))
      (executed [ev] (done sys) (stopped sys)) (abs (main sys))
  /\ config_of (c (main (sys_step ev sys))) = config_of (c (main sys)).
Proof.
  destruct ev as [h| |env]; cbn; [| done |].
  - by destruct (poll_main h sys) as (ch & -> & _).
  - unfold tick. destruct (done sys || stopped sys); cbn; [done|].
    apply step_sim.
Qed.

Lemma executed_cons ev evs sys :
  executed (ev :: evs) (done sys) (stopped sys) =
    executed [ev] (done sys) (stopped sys) ++
    executed evs (done (sys_step ev sys)) (stopped (sys_step ev sys)).
Proof.
  destruct ev as [h| |env]; cbn; [by destruct (poll_flags h sys) as [-> ->] | done |].
  unfold tick. by destruct (done sys || stopped sys).
Qed.

Lemma sys_run_sim evs sys :
  abs (main (sys_run evs sys)) =
    spec_steps (config_of (c (main sys)))
      (executed evs (done sys) (stopped sys)) (abs (main sys))
  /\ config_of (c (main (sys_run evs sys))) = config_of (c (main sys)).
Proof.
  revert sys. induction evs as [|ev evs IH]; intros sys; [done|].
  rewrite sys_run_cons, executed_cons. unfold spec_steps. rewrite foldl_app.
  destruct (sys_step_sim ev sys) as [Ha Hc], (IH (sys_step ev sys)) as [IH1 IH2].
  by rewrite IH1, IH2, Hc, Ha.
Qed.

(** After the cancellation only the watcher moves. *)
Lemma sys_step_done ev sys :
  done sys = true ->
  done (sys_step ev sys) = true
  /\ (stopped sys = true -> stopped (sys_step ev sys) = true)
  /\ exists ch, main (sys_step ev sys) = set_enabledCh ch (main sys).
Proof.
  intros Hd. destruct ev as [h| |env]; cbn.
  - destruct (poll_flags h sys) as [-> ->], (poll_main h sys) as (ch & -> & _).
    eauto.
  - eauto using set_enabledCh_id.
  - unfold tick. rewrite Hd. cbn. eauto using set_enabledCh_id.
Qed.

Lemma sys_run_done evs sys :
  done sys = true ->
  done (sys_run evs sys) = true
  /\ exists ch, main (sys_run evs sys) = set_enabledCh ch (main sys).
Proof.
  revert sys. induction evs as [|ev evs IH]; intros sys Hd.
  - cbn. eauto using set_enabledCh_id.
  - destruct (sys_step_done ev sys Hd) as (Hd' & _ & ch & Hm).
    destruct (IH _ Hd') as (? & ch' & Hm'). rewrite sys_run_cons.
    split; [done|]. exists ch'. by rewrite Hm', Hm.
Qed.

Lemma sys_run_stopped evs sys :
  stopped sys = true -> done sys = true -> stopped (sys_run evs sys) = true.
Proof.
  revert sys. induction evs as [|ev evs IH]; intros sys Hs Hd; [done|].
  destruct (sys_step_done ev sys Hd) as (Hd' & Hs' & _).
  rewrite sys_run_cons. auto.
Qed.

Lemma reachable_run e c0 evs sys :
  reachable e c0 sys -> reachable e c0 (sys_run evs sys).
Proof.
  revert sys. induction evs as [|ev evs IH]; intros sys Hr; [done|].
  rewrite sys_run_cons. by apply IH, reach_step.
Qed.

(** ** The theorems *)

(** C6: in every state of [Run], whatever the interleaving of the watcher,
    the loop and the cancellation, the channel has capacity 2 and holds at
    most two wake-ups. *)
Theorem channel_bounded e c0 sys :
  reachable e c0 sys ->
  chan_ok (enabledCh (main sys)) /\ cap (enabledCh (main sys)) = 2%nat.
Proof.
  induction 1 as [sys Hs|ev sys _ [IH1 IH2]].
  - destruct (start_inv e c0 sys Hs) as (-> & _). split; [apply make_ok | done].
  - destruct (sys_step_chan_ok ev sys IH1) as [? ->]. done.
Qed.

(** C5: the watcher changes when a cycle runs and never what it does:
    after any interleaving, delay, working interval, watermark, reporter
    and published summary are those the specification computes from the
    iterations of [wait.Until] that called the closure. *)
Theorem interleaving_refines evs sys :
  abs (main (sys_run evs sys)) =
    spec_steps (config_of (c (main sys)))
      (executed evs (done sys) (stopped sys)) (abs (main sys)).
Proof. apply sys_run_sim. Qed.


(** A cycle takes one wake-up off the channel when its [select] ends
    by the channel, and leaves the channel alone otherwise. *)
Theorem wake_takes_one env s :
  enabledCh (step env s) =
    if woke env s then mkChan (cap (enabledCh s)) (tail (buf (enabledCh s)))
    else enabledCh s.
Proof. apply step_channel. Qed.

(** In every state of [Run] the reporter holds the watermark of the
    closure, and the summarizer, the client and the configured interval are
    those [Run] was called with. *)
Theorem reachable_synced e c0 sys :
  reachable e c0 sys ->
  LastReportedTime (Controller.reporter (c (main sys))) = lastReported (main sys)
  /\ config_of (c (main sys)) = config_of c0.
Proof.
  induction 1 as [sys Hs|ev sys _ [IH1 IH2]].
  - by destruct (start_inv e c0 sys Hs) as (_ & _ & _ & ? & ?).
  - destruct (sys_step_sim ev sys) as [Ha Hc]. rewrite Hc. split; [|done].
    change (synced (abs (main (sys_step ev sys)))). rewrite Ha.
    apply spec_steps_inv; [apply spec_step_synced | done].
Qed.

End Interleaving.

End Facts.

(** ** The theorems at a run of [Scenario] *)

Lemma running_reachable : reachable start_env demo running.
Proof. by apply reach_start. Qed.

Lemma channel_bounded_witness :
  chan_ok (enabledCh (main (sys_run flip_flop running)))
  /\ cap (enabledCh (main (sys_run flip_flop running))) = 2%nat.
Proof.
  apply (channel_bounded start_env demo). apply reachable_run, running_reachable.
Defined.

Lemma interleaving_refines_witness :
  abs (main (sys_run flip_flop running)) =
    spec_steps (config_of (c (main running)))
      (executed flip_flop (done running) (stopped running)) (abs (main running)).
Proof. exact (interleaving_refines (R := Time) flip_flop running). Defined.


Lemma reachable_synced_witness :
  LastReportedTime (Controller.reporter (c (main (sys_run flip_flop running))))
    = lastReported (main (sys_run flip_flop running))
  /\ config_of (c (main (sys_run flip_flop running))) = config_of demo.
Proof.
  apply (reachable_synced (R := Time) start_env demo).
  apply reachable_run, running_reachable.
Defined.

(** The channel of [Run] queues two wake-ups: when the enabled state
    goes off and on again before a cycle, the wait of that cycle and the
    wait of the next one, a delay of sixteen minutes after a successful
    upload, both end at once, and both print the line of the wake-up. *)
Example flip_flop_cuts_two_waits :
  let sys1 := sys_run (take 2 flip_flop) running in
  let sys2 := sys_run (take 3 flip_flop) running in
  buf (enabledCh (main sys1)) = [tt; tt]
  /\ woke (woken (env_at 200 upload_ok)) (main sys1) = true
  /\ initialDelay (main sys2) = 960 * time.Second
  /\ woke (woken (env_at 300 upload_ok)) (main sys2) = true
  /\ buf (enabledCh (main (sys_run flip_flop running))) = [].
Proof. by vm_compute. Qed.
