(* ===== verification/Clock.v ===== *)
(** * Clock: the goroutines of [Run] on a clock

    [RunLoop] leaves the order of the events of [Run] open.  Here the
    timers of the source fix it: the watcher calls [Enabled()] every two
    minutes ([time.Sleep], line 78), [wait.Until] waits fifteen seconds
    after the closure returns (line 185), and the [select] of the closure
    waits for [initialDelay] (line 97).  The inputs are functions of the
    time ([World]): the heap the collaborators read, the instant at which
    the context of [Run] is cancelled, how long the calls of a cycle take.

    [iteration] is one iteration of [wait.Until] with everything the
    watcher does meanwhile: the polls before the test of the stop channel,
    the wait of the [select] cut short by the first poll that fills the
    channel, the cycle, and the time of the next test.  It is built from
    the transitions of [RunLoop] ([poll], [cancel], [tick]), so a timed run
    is one of the interleavings of [RunLoop].  Calls that precede the
    upload take no time in the model; [busy] is the time from the end of
    the [select] to the return of the closure.  Where Go leaves the order
    open the model fixes one: a poll due at the instant the timer of a
    [select] fires comes after it, and when the timer and the cancellation
    fall together the [select] takes the cancellation.

    This file holds the definitions and what the other files on the clock
    share: what the polls leave alone ([polled]), the cases of an
    iteration ([iteration_cases]), the times of the polls and the window
    of the [select].  The theorems are in [Timed] (runs), [Wakeup] (the
    watcher), [Rate] (how often and how late) and [Cadence] (the period
    of the reports). *)

From Stdlib Require Import QArith.
From stdpp Require Import base tactics strings list.
From S2P Require Import Prelude Timing Status Channel DryRun Uploader Scenario.
From S2P Require Import CycleSpec Startup Restart RunLoop.

#[local] Open Scope Z_scope.

(** [time.Sleep(2 * time.Minute)], line 78. *)
Definition poll_period : Duration := 2 * time.Minute.

Section Clock.
Context `{Errors} `{TimeFormat} `{Jitterer} {Heap R : Type} `{StatusReporter R}.
Implicit Types (sys : Sys Heap R) (t p : Time) (n : nat).

(** The inputs of a run, by the time. *)
Record World : Type := mkWorld {
  heap_at : Time -> Heap;
  cancel_at : option Time;
  busy : Time -> Duration;
  draw : Time -> Q;
  verbose : nat;
}.

(** The two goroutines on the clock: when [wait.Until] next tests its stop
    channel, when the watcher next polls, and the times at which the
    cycles so far left their [select] and the case it took, the latest
    first. *)
Record TSys : Type := mkTSys {
  sys : Sys Heap R;
  head : Time;
  next_poll : Time;
  started : list (Time * Wake);
}.

Implicit Types (w : World) (ts : TSys).

(** [ctx.Done()] is closed at time [t]. *)
Definition cancelled_by w t : bool :=
  match cancel_at w with Some c => c <=? t | None => false end.

(** The number of polls at [p], [p + poll_period], ... before [t]. *)
Definition count_polls p t : nat :=
  if p <? t then Z.to_nat ((t - p - 1) / poll_period + 1) else 0%nat.

(** [n] iterations of the watcher from time [p]. *)
Fixpoint polls n w p sys : Sys Heap R :=
  match n with
  | O => sys
  | S n => polls n w (p + poll_period) (poll (heap_at w p) sys)
  end.

(** The [select] waiting on [enabledCh] while the watcher polls: the time
    of the first of [n] polls that leaves a wake-up in the channel, the
    system after it, and the time of the poll that follows. *)
Fixpoint await n w p sys : option Time * Sys Heap R * Time :=
  match n with
  | O => (None, sys, p)
  | S n =>
      let sys' := poll (heap_at w p) sys in
      if can_recv (enabledCh (main sys')) then (Some p, sys', p + poll_period)
      else await n w (p + poll_period) sys'
  end.

(** The time at which the [select] times out or sees the context done. *)
Definition deadline w t (d : Duration) : Time :=
  match cancel_at w with Some c => Z.min (t + d) c | None => t + d end.

(** What the closure finds when its [select] ends at [t] by [pick]. *)
Definition env_at_time w t (pick : Wake) : Env Heap :=
  mkEnv (heap_at w t) pick (cancelled_by w t) t (t + busy w t) (draw w t)
        (verbose w).

(** The next test of the stop channel after the closure returned at [e]:
    fifteen seconds later, or as soon as the context is done. *)
Definition next_head w (e : Time) : Time :=
  match cancel_at w with
  | Some c => if c <=? e + period_Until then Z.max e c else e + period_Until
  | None => e + period_Until
  end.

(** The wait at the head of the closure, entered at [t] with the next poll
    due at [p]: the time the [select] ends, the case it takes, the system
    and the time of the next poll. *)
Definition select_at w t p sys : Time * Wake * Sys Heap R * Time :=
  let d := initialDelay (main sys) in
  if d <=? 0 then (t, WakeTimer, sys, p)
  else if can_recv (enabledCh (main sys)) then (t, WakeEnabled, sys, p)
  else
    let b := deadline w t d in
    match await (count_polls p b) w p sys with
    | (Some q, sys', p') => (q, WakeEnabled, sys', p')
    | (None, sys', p') =>
        (b, if cancelled_by w b then WakeDone else WakeTimer, sys', p')
    end.

(** The watcher up to the next test of the stop channel: the system after
    the polls before it, and the time of the poll that follows. *)
Definition catch_up w ts : Sys Heap R * Time :=
  let n := count_polls (next_poll ts) (head ts) in
  (polls n w (next_poll ts) (sys ts),
   next_poll ts + Z.of_nat n * poll_period).

(** One iteration of [wait.Until]. *)
Definition iteration w ts : TSys :=
  let '(sys0, p0) := catch_up w ts in
  if stopped sys0 then mkTSys sys0 (head ts) p0 (started ts)
  else if cancelled_by w (head ts) then
    mkTSys (tick (env_at_time w (head ts) WakeDone) (cancel sys0))
           (head ts) p0 (started ts)
  else
    let '(t, pick, sys1, p1) := select_at w (head ts) p0 sys0 in
    mkTSys (tick (env_at_time w t pick) sys1)
           (next_head w (t + busy w t)) p1 ((t, pick) :: started ts).

(** [n] iterations. *)
Definition timed_run n w ts : TSys := Nat.iter n (iteration w) ts.

(** [Run] at time [t]: the state in which the goroutines start, the first
    test of the stop channel and the first poll both due at once. *)
Definition timed_start (e : StartEnv (Heap := Heap)) (c0 : Controller.t Heap R)
  : option TSys :=
  (fun sys => mkTSys sys (now0 e) (now0 e) []) <$> start e c0.

(** The environments of the cycles run, in the order they ran. *)
Definition cycle_envs w ts : list (Env Heap) :=
  rev ((fun x => env_at_time w x.1 x.2) <$> started ts).

(** What the client answers at time [t]. *)
Definition enabled_at w (cl : insightsclient.Client Heap) t : bool :=
  (insightsclient.Enabled cl (heap_at w t)).1.1.

(** [sys'] is [sys] after some iterations of the watcher. *)
Definition polled sys sys' : Prop :=
  exists hs : list Heap, sys' = sys_run (Poll <$> hs) sys.

(** The calls of a cycle take time, never less than none. *)
Definition world_ok w : Prop := forall t, 0 <= busy w t.

(** The closure is called at time [t], its [select] having taken [pick],
    in the system [sys1] the watcher has left. *)
Definition calls_closure w ts t (pick : Wake) sys1 : Prop :=
  (select_at w (head ts) (catch_up w ts).2 (catch_up w ts).1).1 = (t, pick, sys1)
  /\ polled (sys ts) sys1
  /\ sys (iteration w ts)
     = mkSys (step (env_at_time w t pick) (main sys1)) (watcher_seen_ sys1)
             (cancelled_by w t) false
  /\ head (iteration w ts) = next_head w (t + busy w t)
  /\ started (iteration w ts) = (t, pick) :: started ts.

(** The event is one the world gives: a cycle finds the environment of
    its time. *)
Definition of_world w (ev : Event Heap) : Prop :=
  match ev with
  | Tick env => exists t pick, env = env_at_time w t pick
  | _ => True
  end.

(** The watcher of client [cl] has last seen the answer [b]. *)
Definition watches (cl : insightsclient.Client Heap) (b : bool) sys : Prop :=
  watcher_seen_ sys = Some b /\ Controller.client (c (main sys)) = Some cl
  /\ (0 < cap (enabledCh (main sys)))%nat.

(** It has, and the channel it shares with the loop is empty. *)
Definition watching (cl : insightsclient.Client Heap) (b : bool) sys : Prop :=
  watches cl b sys /\ can_recv (enabledCh (main sys)) = false.

(** The cycles started so far, the latest first, are in the order of the
    clock: none before [t0], none after the next test [hd]. *)
Fixpoint ordered (t0 : Time) (l : list (Time * Wake)) (hd : Time) : Prop :=
  match l with
  | [] => t0 <= hd
  | x :: rest => x.1 <= hd /\ ordered t0 rest x.1
  end.

(** The time of the last cycle of [envs], or [t0]. *)
Definition last_now (t0 : Time) (envs : list (Env Heap)) : Time :=
  default t0 (now <$> last envs).

(** The paths of the closure that return before a delay is computed,
    lines 128 and 132. *)
Definition returns_early (p : Path) : bool :=
  match p with SummaryFails _ | NothingNew => true | _ => false end.

(** The loop has seen the context done only if it is done at the next
    test. *)
Definition head_ok w ts : Prop :=
  done (sys ts) = true -> cancelled_by w (head ts) = true.

End Clock.
Arguments World Heap : clear implicits.
Arguments TSys {_} Heap R.

(** ** Runs of [Scenario] on the clock *)

(** [Run] of [Scenario.demo] as it enters [wait.Until] at time 100, with a
    delay of 150 seconds pending. *)
Definition ts0 : TSys Script Time := mkTSys running 100 100 [].

Definition switch_time : Time := 100 + 20 * time.Second.
Definition stop_time : Time := 100 + 5 * time.Minute.
Definition first_timer : Time := 100 + 150 * time.Second.

(** The reporting is switched off twenty seconds after the start and the
    context is cancelled after five minutes; a cycle takes a second. *)
Definition switching : World Script :=
  mkWorld (fun t => if t <? switch_time then upload_ok else switched_off)
          (Some stop_time) (fun _ => time.Second) (fun _ => 1 # 2) 4.

(** The reporting is switched off two hundred seconds after the start,
    while the first cycle runs: a cycle takes six minutes. *)
Definition slow : World Script :=
  mkWorld (fun t => if t <? 100 + 200 * time.Second then upload_ok else switched_off)
          None (fun _ => 6 * time.Minute) (fun _ => 1 # 2) 4.

(** The goroutines after the first iteration in [slow]. *)
Definition ts1 : TSys Script Time := iteration slow ts0.

(** The goroutines of a process that starts again at time 1000, after the
    upload of time 100. *)
Definition ts_again : TSys Script Time :=
  mkTSys (mkSys (restart again (step ok_env s0)) (Some true) false false)
         1000 1000 [].

(** Every upload succeeds, nothing changes and nobody cancels. *)
Definition steady : World Script :=
  mkWorld (fun _ => upload_ok) None (fun _ => time.Second) (fun _ => 1 # 2) 4.

(** The summarizer fails all along and nobody cancels. *)
Definition failing : World Script :=
  mkWorld (fun _ => summary_broken) None (fun _ => time.Second)
          (fun _ => 1 # 2) 4.

(** Linear arithmetic with the periods as numbers. *)
Ltac clock_lia :=
  unfold poll_period, period_Until, time.Minute, time.Second, time.Nanosecond in *;
  lia.

(** ** What the watcher leaves alone *)

Section Quiet.
Context `{Errors} `{TimeFormat} `{Jitterer} {Heap R : Type} `{StatusReporter R}.
Implicit Types (sys : Sys Heap R) (t p : Time) (n : nat) (w : World Heap).
Implicit Types (ts : TSys Heap R) (e : StartEnv (Heap := Heap)).

#[export] Instance polled_preorder : PreOrder (polled (Heap := Heap) (R := R)).
Proof.
  split.
  - intros sys. by exists [].
  - intros x y z [hs ->] [hs' ->]. exists (hs ++ hs').
    unfold sys_run. by rewrite fmap_app, foldl_app.
Qed.

Lemma poll_polled h sys : polled sys (poll h sys).
Proof. by exists [h]. Qed.

(** The watcher touches the channel and its own variable, nothing else. *)
Lemma polled_flags sys sys' :
  polled sys sys' ->
  done sys' = done sys /\ stopped sys' = stopped sys
  /\ exists ch, main sys' = set_enabledCh ch (main sys).
Proof.
  intros [hs ->]. revert sys. induction hs as [|h hs IH]; intros sys.
  { repeat split. eexists. apply set_enabledCh_id. }
  destruct (IH (poll h sys)) as (Hd & Hs & ch & Hm).
  destruct (poll_flags h sys) as [Hd' Hs'], (poll_main h sys) as (ch' & Hm' & _).
  change (sys_run (Poll <$> h :: hs) sys) with (sys_run (Poll <$> hs) (poll h sys)).
  rewrite Hd, Hs, Hm, Hm'. eauto.
Qed.

Lemma polls_polled n w p sys : polled sys (polls n w p sys).
Proof.
  revert p sys. induction n as [|n IH]; intros p sys; [done|].
  cbn. etrans; [apply poll_polled | apply IH].
Qed.

Lemma await_polled n w p sys : polled sys (await n w p sys).1.2.
Proof.
  revert p sys. induction n as [|n IH]; intros p sys; [done|].
  cbn. destruct (can_recv _); [apply poll_polled|].
  etrans; [apply poll_polled | apply IH].
Qed.

Lemma select_at_polled w t p sys : polled sys (select_at w t p sys).1.2.
Proof.
  unfold select_at. repeat case_match; simplify_eq; cbn; try done.
  all: match goal with E : await ?n _ _ _ = _ |- _ =>
         pose proof (await_polled n w p sys) as Hp; by rewrite E in Hp end.
Qed.

Lemma polled_abs sys sys' :
  polled sys sys' ->
  abs (main sys') = abs (main sys)
  /\ config_of (c (main sys')) = config_of (c (main sys))
  /\ calls (main sys') = calls (main sys)
  /\ initialDelay (main sys') = initialDelay (main sys).
Proof. by intros (_ & _ & ch & ->)%polled_flags. Qed.

End Quiet.

(** ** The cases of an iteration *)

Section Steps.
Context `{Errors} `{TimeFormat} `{Jitterer} {Heap R : Type} `{StatusReporter R}.
Implicit Types (sys : Sys Heap R) (t p : Time) (n : nat) (w : World Heap).
Implicit Types (ts : TSys Heap R) (e : StartEnv (Heap := Heap)).

Lemma cancelled_by_mono w t u :
  t <= u -> cancelled_by w u = false -> cancelled_by w t = false.
Proof.
  unfold cancelled_by. destruct (cancel_at w); [|done].
  intros Ht Hu%Z.leb_gt. apply Z.leb_gt. lia.
Qed.

Lemma next_head_cancelled w t u :
  t <= u -> cancelled_by w t = true -> cancelled_by w (next_head w u) = true.
Proof.
  unfold cancelled_by, next_head, period_Until, time.Second, time.Nanosecond.
  destruct (cancel_at w) as [c|]; [|done].
  intros Htu Hc. apply Z.leb_le in Hc.
  destruct (Z.leb_spec c (u + 15 * (1000000000 * 1))); apply Z.leb_le; lia.
Qed.

Lemma catch_up_polled w ts : polled (sys ts) (catch_up w ts).1.
Proof. apply polls_polled. Qed.

(** The cases of [iteration]: the loop has returned, it returns now, or
    the closure is called. *)
Lemma iteration_cases w ts :
  head_ok w ts ->
  (stopped (sys ts) = true
     /\ sys (iteration w ts) = (catch_up w ts).1
     /\ head (iteration w ts) = head ts
     /\ started (iteration w ts) = started ts)
  \/ (stopped (sys ts) = false /\ cancelled_by w (head ts) = true
      /\ sys (iteration w ts) =
           mkSys (main (catch_up w ts).1) (watcher_seen_ (catch_up w ts).1) true true
      /\ head (iteration w ts) = head ts
      /\ started (iteration w ts) = started ts)
  \/ (stopped (sys ts) = false /\ cancelled_by w (head ts) = false
      /\ exists t pick sys1, calls_closure w ts t pick sys1).
Proof.
  intros Hok. unfold calls_closure, iteration.
  pose proof (catch_up_polled w ts) as Hp.
  destruct (catch_up w ts) as [sys0 p0]. cbn in *.
  pose proof (polled_flags _ _ Hp) as (Hd & Hs & _). rewrite Hs.
  destruct (stopped (sys ts)) eqn:Est; [by left|]. right.
  destruct (cancelled_by w (head ts)) eqn:Ec; [by left|]. right.
  repeat split. pose proof (select_at_polled w (head ts) p0 sys0) as Hsel.
  destruct (select_at _ _ _ _) as [[[t pick] sys1] p1]. cbn in *.
  assert (polled (sys ts) sys1) as Hp1 by (by etrans).
  exists t, pick, sys1. repeat split; try done; try apply Hp1.
  destruct (polled_flags _ _ Hp1) as (Hd1 & Hs1 & _). unfold tick. rewrite Hd1, Hs1, Est.
  destruct (done (sys ts)) eqn:Ed; [|done]. specialize (Hok Ed). congruence.
Qed.

Lemma timed_run_S n w ts :
  timed_run (S n) w ts = iteration w (timed_run n w ts).
Proof. done. Qed.

Lemma iteration_head_ok w ts :
  world_ok w -> head_ok w ts -> head_ok w (iteration w ts).
Proof.
  intros Hw Hok.
  destruct (iteration_cases w ts Hok)
    as [(Hs & Hsys & Hh & _)|[(Hs & Hc & Hsys & Hh & _)
                             |(Hs & Hc & t & k & sys1 & Hcl)]].
  - unfold head_ok. rewrite Hsys, Hh.
    by destruct (polled_flags _ _ (catch_up_polled w ts)) as (-> & _).
  - unfold head_ok. by rewrite Hh, Hc.
  - destruct Hcl as (_ & _ & Hsys & Hh & _). unfold head_ok.
    rewrite Hsys, Hh. cbn. apply next_head_cancelled. specialize (Hw t). lia.
Qed.

(** What every iteration keeps, a run keeps. *)
Lemma timed_run_keeps (I : TSys Heap R -> Prop) w :
  world_ok w ->
  (forall ts, head_ok w ts -> I ts -> I (iteration w ts)) ->
  forall n ts, head_ok w ts -> I ts ->
    head_ok w (timed_run n w ts) /\ I (timed_run n w ts).
Proof.
  intros Hw Hstep n ts Hok Hi. induction n as [|n [IH1 IH2]]; [done|].
  rewrite timed_run_S. auto using iteration_head_ok.
Qed.

(** ** The times of the polls *)

Lemma poll_period_pos : 0 < poll_period.
Proof. done. Qed.

(** [count_polls p t] polls from [p] reach [t], and the last of them is
    before [t]. *)
Lemma count_polls_spec p t :
  t <= p + Z.of_nat (count_polls p t) * poll_period
  /\ ((0 < count_polls p t)%nat ->
      p + (Z.of_nat (count_polls p t) - 1) * poll_period < t).
Proof.
  unfold count_polls. pose proof poll_period_pos.
  destruct (Z.ltb_spec p t); [|cbn; lia].
  assert (0 <= (t - p - 1) / poll_period) by (apply Z.div_pos; lia).
  rewrite Z2Nat.id by lia.
  pose proof (Z.mul_div_le (t - p - 1) poll_period ltac:(lia)).
  pose proof (Z.mul_succ_div_gt (t - p - 1) poll_period ltac:(lia)).
  lia.
Qed.

Lemma catch_up_next_poll w ts : head ts <= (catch_up w ts).2.
Proof. apply count_polls_spec. Qed.

(** The poll that ends the wait is one of the [n], and it leaves a
    wake-up; if there is none, all [n] polls were made. *)
Lemma await_time n w p sys :
  match (await n w p sys).1.1 with
  | Some q =>
      p <= q <= p + (Z.of_nat n - 1) * poll_period
      /\ (await n w p sys).2 = q + poll_period
      /\ can_recv (enabledCh (main (await n w p sys).1.2)) = true
  | None => (await n w p sys).2 = p + Z.of_nat n * poll_period
  end.
Proof.
  revert p sys. induction n as [|n IH]; intros p sys; [cbn; lia|].
  cbn [await]. destruct (can_recv _) eqn:E;
    [cbn [fst snd]; repeat split; (done || clock_lia)|].
  specialize (IH (p + poll_period) (poll (heap_at w p) sys)).
  destruct (await n w _ _) as [[[q|] sys'] p']; cbn [fst snd] in *;
    [destruct IH as (? & ? & ?); repeat split; (done || clock_lia) | clock_lia].
Qed.

(** The deadline of a [select] entered before the context is done is
    later than its entry and no later than its timer; the context is done
    at the deadline only if it is cancelled just then. *)
Lemma deadline_spec w t d :
  cancelled_by w t = false -> 0 < d ->
  t < deadline w t d <= t + d
  /\ (if cancelled_by w (deadline w t d)
      then cancel_at w = Some (deadline w t d)
      else deadline w t d = t + d).
Proof.
  unfold cancelled_by, deadline. destruct (cancel_at w) as [c|]; [|lia].
  intros Hc%Z.leb_gt Hd. split; [lia|].
  destruct (Z.leb_spec c (Z.min (t + d) c)); [f_equal|]; lia.
Qed.

(** The [select] ends between the time it is entered and the time its
    timer fires; it ends by the timer only then, by the context only when
    that is done, and by the channel only when that holds a wake-up. *)
Lemma select_at_window w t p sys :
  cancelled_by w t = false -> t <= p ->
  let r := select_at w t p sys in
  let d := initialDelay (main sys) in
  t <= r.1.1.1 <= t + Z.max 0 d
  /\ match r.1.1.2 with
     | WakeTimer => r.1.1.1 = t + Z.max 0 d /\ cancelled_by w r.1.1.1 = false
     | WakeDone => cancel_at w = Some r.1.1.1
     | WakeEnabled => 0 < d /\ can_recv (enabledCh (main r.1.2)) = true
     end.
Proof.
  intros Hc Hp. unfold select_at. cbn zeta.
  destruct (Z.leb_spec (initialDelay (main sys)) 0) as [Hd|Hd].
  { cbn. rewrite Z.max_l, Z.add_0_r by lia. repeat split; (done || lia). }
  destruct (can_recv (enabledCh (main sys))) eqn:Er.
  { cbn. repeat split; (done || lia). }
  destruct (deadline_spec w t _ Hc Hd) as [Hb Hcb].
  set (b := deadline w t _) in *.
  pose proof (await_time (count_polls p b) w p sys) as Ha.
  destruct (count_polls_spec p b) as [_ Hn].
  destruct (await _ w p sys) as [[[q|] sys'] p']; cbn [fst snd] in *.
  - destruct Ha as (Hq & _ & Hr).
    assert (0 < count_polls p b)%nat as Hpos by clock_lia.
    specialize (Hn Hpos). repeat split; (done || clock_lia).
  - destruct (cancelled_by w b); [split; [lia | done]|].
    repeat split; lia.
Qed.

Lemma select_at_no_wait w t p sys :
  initialDelay (main sys) <= 0 -> select_at w t p sys = (t, WakeTimer, sys, p).
Proof. intros Hd. unfold select_at. by destruct (Z.leb_spec (initialDelay (main sys)) 0); [|lia]. Qed.

(** The closure is called within the window of its [select]. *)
Lemma closure_window w ts t pick sys1 :
  cancelled_by w (head ts) = false -> calls_closure w ts t pick sys1 ->
  let d := initialDelay (main (sys ts)) in
  head ts <= t <= head ts + Z.max 0 d
  /\ match pick with
     | WakeTimer => t = head ts + Z.max 0 d /\ cancelled_by w t = false
     | WakeDone => cancel_at w = Some t
     | WakeEnabled => 0 < d /\ can_recv (enabledCh (main sys1)) = true
     end.
Proof.
  intros Hc (Hsel & _).
  pose proof (select_at_window w (head ts) _ (catch_up w ts).1 Hc
                (catch_up_next_poll w ts)) as Hw.
  cbn zeta in Hw. rewrite Hsel in Hw.
  by destruct (polled_abs _ _ (catch_up_polled w ts)) as (_ & _ & _ & <-).
Qed.

Lemma deadline_timer w t d :
  cancelled_by w (t + d) = false -> deadline w t d = t + d.
Proof.
  unfold deadline, cancelled_by. destruct (cancel_at w); [|done].
  intros Hc%Z.leb_gt. lia.
Qed.

(** ** Iterations and runs *)

Lemma timed_run_S_r n w ts :
  timed_run (S n) w ts = timed_run n w (iteration w ts).
Proof. apply Nat.iter_succ_r. Qed.

Lemma timed_run_add n m w ts :
  timed_run (n + m) w ts = timed_run n w (timed_run m w ts).
Proof. apply Nat.iter_add. Qed.

Lemma next_head_ge w u : u <= next_head w u.
Proof.
  unfold next_head. destruct (cancel_at w) as [c0|]; [|clock_lia].
  destruct (Z.leb_spec c0 (u + period_Until)); clock_lia.
Qed.

(** A test that does not find the context done comes a full period after
    the closure returned. *)
Lemma next_head_rest w u :
  cancelled_by w (next_head w u) = false -> next_head w u = u + period_Until.
Proof.
  unfold cancelled_by, next_head. destruct (cancel_at w) as [c0|]; [|done].
  destruct (Z.leb_spec c0 (u + period_Until)); [|done].
  intros Hc%Z.leb_gt. lia.
Qed.

(** The [select] does not outlast the context. *)
Lemma select_at_by_stop w t p sys stop :
  cancel_at w = Some stop -> cancelled_by w t = false -> t <= p ->
  (select_at w t p sys).1.1.1 <= stop.
Proof.
  intros Hca Hc Hp. pose proof Hc as Hc'. unfold cancelled_by in Hc'.
  rewrite Hca in Hc'. apply Z.leb_gt in Hc'. unfold select_at. cbn zeta.
  destruct (Z.leb_spec (initialDelay (main sys)) 0) as [Hd|Hd]; [cbn; lia|].
  destruct (can_recv _); [cbn; lia|].
  assert (deadline w t (initialDelay (main sys)) <= stop) as Hdl
    by (unfold deadline; rewrite Hca; lia).
  set (b := deadline _ _ _) in *.
  pose proof (await_time (count_polls p b) w p sys) as Ha.
  destruct (count_polls_spec p b) as [_ Hn].
  destruct (await _ w p sys) as [[[q|] sys'] p']; cbn [fst snd] in *; [|lia].
  destruct Ha as (Hq & _). assert (0 < count_polls p b)%nat as Hpos by clock_lia.
  specialize (Hn Hpos). clock_lia.
Qed.

Lemma next_head_period w u :
  cancelled_by w (u + period_Until) = false -> next_head w u = u + period_Until.
Proof.
  unfold cancelled_by, next_head. destruct (cancel_at w) as [c0|]; [|done].
  intros Hc%Z.leb_gt. destruct (Z.leb_spec c0 (u + period_Until)); lia.
Qed.

Lemma catch_up_id w ts :
  head ts <= next_poll ts -> catch_up w ts = (sys ts, next_poll ts).
Proof.
  intros Hp. unfold catch_up, count_polls.
  destruct (Z.ltb_spec (next_poll ts) (head ts)); [lia|]. cbn. f_equal. lia.
Qed.

(** The iteration that calls the closure, by the time and the case of its
    [select]. *)
Lemma iteration_calls w ts :
  head_ok w ts -> stopped (sys ts) = false -> cancelled_by w (head ts) = false ->
  exists t pick sys1, calls_closure w ts t pick sys1.
Proof.
  intros Hok Hs Hc.
  by destruct (iteration_cases w ts Hok)
    as [(? & _)|[(_ & ? & _)|(_ & _ & Hcl)]]; [congruence..|].
Qed.

(** [Run] enters the loop at [now0], nothing cancelled and no cycle run. *)
Lemma timed_start_inv e c0 w ts :
  timed_start e c0 = Some ts ->
  start e c0 = Some (sys ts) /\ head_ok w ts
  /\ started ts = [] /\ head ts = now0 e /\ next_poll ts = now0 e.
Proof.
  unfold timed_start. destruct (start e c0) as [sys0|] eqn:E; [|done].
  intros [= <-]. destruct (start_inv e c0 sys0 E) as (_ & Hd & _).
  repeat split. unfold head_ok. cbn. congruence.
Qed.

End Steps.

(** ** The runs of [Scenario] *)

Lemma switching_ok : world_ok switching.
Proof. intros t. by vm_compute. Qed.

Lemma failing_ok : world_ok failing.
Proof. intros t. by vm_compute. Qed.

Lemma steady_ok : world_ok steady.
Proof. intros t. by vm_compute. Qed.

Lemma ts0_ok w : head_ok w ts0.
Proof. intros Hd. discriminate Hd. Qed.

Lemma ts0_start : timed_start start_env demo = Some ts0.
Proof. by vm_compute. Qed.

Lemma ts0_watching : watching script_client true (sys ts0).
Proof. repeat split; vm_compute; (done || lia). Qed.
