(* ===== verification/Timed.v ===== *)
(** * Timed: runs on the clock

    The runs of [Clock.iteration]: a timed run is one of the interleavings
    of [RunLoop] and refines the specification of [CycleSpec]; the loop
    returns after the cancellation and not without it; a cycle starts
    within the window of its [select], and fifteen seconds after a cycle
    that returned early; the cycles start in the order of the clock, so the
    watermark does not go back; a process that starts again shortly after
    an upload reports at once. *)

From Stdlib Require Import QArith.
From stdpp Require Import base tactics strings list.
From S2P Require Import Prelude Timing Status Channel DryRun Uploader Scenario.
From S2P Require Import CycleSpec Startup Restart RunLoop Clock.

#[local] Open Scope Z_scope.

(** ** A timed run is a run *)

Section Runs.
Context `{Errors} `{TimeFormat} `{Jitterer} {Heap R : Type} `{StatusReporter R}.
Implicit Types (sys : Sys Heap R) (t p : Time) (n : nat) (w : World Heap).
Implicit Types (ts : TSys Heap R) (e : StartEnv (Heap := Heap)).

Section Refinement.
Context `{!Durable R}.

Lemma iteration_sim w ts :
  head_ok w ts ->
  exists new,
    started (iteration w ts) = new ++ started ts
    /\ abs (main (sys (iteration w ts))) =
         spec_steps (config_of (c (main (sys ts))))
           (rev ((fun x => env_at_time w x.1 x.2) <$> new)) (abs (main (sys ts)))
    /\ config_of (c (main (sys (iteration w ts)))) = config_of (c (main (sys ts))).
Proof.
  intros Hok.
  destruct (iteration_cases w ts Hok)
    as [(_ & Hsys & _ & Hst)|[(_ & _ & Hsys & _ & Hst)
                              |(_ & _ & t & k & sys1 & Hcl)]].
  - exists []. rewrite Hsys. split; [done|].
    by destruct (polled_abs _ _ (catch_up_polled w ts)) as (-> & -> & _).
  - exists []. rewrite Hsys. split; [done|]. cbn [main].
    by destruct (polled_abs _ _ (catch_up_polled w ts)) as (-> & -> & _).
  - destruct Hcl as (_ & Hp & Hsys & _ & Hst). exists [(t, k)].
    rewrite Hsys. split; [done|]. cbn.
    destruct (step_sim (env_at_time w t k) (main sys1)) as [-> ->].
    by destruct (polled_abs _ _ Hp) as (-> & -> & _).
Qed.

Lemma timed_run_sim n w ts :
  world_ok w -> head_ok w ts ->
  head_ok w (timed_run n w ts)
  /\ exists new,
       started (timed_run n w ts) = new ++ started ts
       /\ abs (main (sys (timed_run n w ts))) =
            spec_steps (config_of (c (main (sys ts))))
              (rev ((fun x => env_at_time w x.1 x.2) <$> new)) (abs (main (sys ts)))
       /\ config_of (c (main (sys (timed_run n w ts))))
          = config_of (c (main (sys ts))).
Proof.
  intros Hw Hok. induction n as [|n (IHok & new & Hst & Ha & Hc)].
  - split; [done|]. by exists [].
  - rewrite timed_run_S. split; [by apply iteration_head_ok|].
    destruct (iteration_sim w (timed_run n w ts) IHok) as (new' & Hst' & Ha' & Hc').
    exists (new' ++ new).
    rewrite Hst', Hst, Ha', Hc', Ha, Hc, app_assoc. split; [done|]. split; [|done].
    unfold spec_steps. by rewrite fmap_app, rev_app_distr, foldl_app.
Qed.

End Refinement.

(** ** The loop returns *)

Lemma iteration_stopped w ts :
  stopped (sys ts) = true -> stopped (sys (iteration w ts)) = true.
Proof.
  intros Hs. unfold iteration.
  destruct (polled_flags _ _ (catch_up_polled w ts)) as (_ & Hs' & _).
  destruct (catch_up w ts) as [sys0 p0]. cbn in *.
  assert (stopped sys0 = true) as E by congruence. by rewrite E.
Qed.

Lemma timed_run_stopped n w ts :
  stopped (sys ts) = true -> stopped (sys (timed_run n w ts)) = true.
Proof.
  intros Hs. induction n as [|n IH]; [done|].
  rewrite timed_run_S. by apply iteration_stopped.
Qed.

(** The test of the stop channel that finds the context done ends the
    loop. *)
Lemma iteration_returns w ts :
  head_ok w ts -> cancelled_by w (head ts) = true ->
  stopped (sys (iteration w ts)) = true.
Proof.
  intros Hok Hc.
  destruct (iteration_cases w ts Hok)
    as [(Hs & _)|[(_ & _ & -> & _)|(_ & Hc' & _)]]; [|done|congruence].
  by apply iteration_stopped.
Qed.

(** An iteration that calls the closure moves the next test to the
    cancellation or a period ahead. *)
Lemma iteration_advances w ts c0 :
  world_ok w -> head_ok w ts -> cancel_at w = Some c0 ->
  stopped (sys ts) = false -> cancelled_by w (head ts) = false ->
  Z.min c0 (head ts + period_Until) <= head (iteration w ts).
Proof.
  intros Hw Hok Hca Hs Hc.
  destruct (iteration_cases w ts Hok)
    as [(? & _)|[(_ & ? & _)|(_ & _ & t & k & sys1 & Hcl)]]; [congruence..|].
  destruct (closure_window w ts t k sys1 Hc Hcl) as [Ht _].
  destruct Hcl as (_ & _ & _ & -> & _). specialize (Hw t).
  unfold next_head. rewrite Hca.
  destruct (Z.leb_spec c0 (t + busy w t + period_Until)); clock_lia.
Qed.

Lemma returns_within n w ts c0 :
  world_ok w -> cancel_at w = Some c0 -> head_ok w ts ->
  c0 - head ts <= Z.of_nat n * period_Until ->
  stopped (sys (timed_run (S n) w ts)) = true.
Proof.
  intros Hw Hca. revert ts. induction n as [|n IH]; intros ts Hok Hn;
    rewrite timed_run_S_r;
    (destruct (stopped (sys ts)) eqn:Hs;
      [by apply timed_run_stopped, iteration_stopped|]);
    (destruct (cancelled_by w (head ts)) eqn:Hc;
      [by apply timed_run_stopped, iteration_returns|]).
  - unfold cancelled_by in Hc. rewrite Hca in Hc. apply Z.leb_gt in Hc. lia.
  - pose proof (iteration_advances w ts c0 Hw Hok Hca Hs Hc).
    apply IH; [by apply iteration_head_ok | clock_lia].
Qed.

Lemma returns_after n m w ts c0 :
  world_ok w -> cancel_at w = Some c0 -> head_ok w ts ->
  c0 - head ts <= Z.of_nat n * period_Until -> (n < m)%nat ->
  stopped (sys (timed_run m w ts)) = true.
Proof.
  intros Hw Hca Hok Hn Hm. replace m with ((m - S n) + S n)%nat by lia.
  rewrite timed_run_add. by eapply timed_run_stopped, returns_within.
Qed.

(** Without a cancellation the loop goes on. *)
Lemma iteration_goes_on w ts :
  cancel_at w = None -> done (sys ts) = false -> stopped (sys ts) = false ->
  done (sys (iteration w ts)) = false /\ stopped (sys (iteration w ts)) = false.
Proof.
  intros Hca Hd Hs.
  assert (forall t, cancelled_by w t = false) as Hc
    by (intros t; unfold cancelled_by; by rewrite Hca).
  assert (head_ok w ts) as Hok by (unfold head_ok; congruence).
  destruct (iteration_cases w ts Hok)
    as [(? & _)|[(_ & Hc' & _)|(_ & _ & t & k & sys1 & Hcl)]];
    [congruence | by rewrite Hc in Hc' |].
  destruct Hcl as (_ & _ & -> & _). cbn. by rewrite Hc.
Qed.

(** ** The order of the cycles *)

Lemma ordered_mono t0 l hd hd' : hd <= hd' -> ordered t0 l hd -> ordered t0 l hd'.
Proof. destruct l; cbn; intros; [lia | intuition lia]. Qed.

Lemma iteration_ordered t0 w ts :
  world_ok w -> head_ok w ts ->
  ordered t0 (started ts) (head ts) ->
  ordered t0 (started (iteration w ts)) (head (iteration w ts)).
Proof.
  intros Hw Hok Ho.
  destruct (iteration_cases w ts Hok)
    as [(_ & _ & -> & ->)|[(_ & _ & _ & -> & ->)
                          |(_ & Hc & t & k & sys1 & Hcl)]]; [done..|].
  destruct (closure_window w ts t k sys1 Hc Hcl) as [Ht _].
  destruct Hcl as (_ & _ & _ & -> & ->). split; cbn.
  - pose proof (next_head_ge w (t + busy w t)). specialize (Hw t). lia.
  - eapply ordered_mono; [|done]. lia.
Qed.

Lemma clock_ok_snoc t0 (envs : list (Env Heap)) env :
  clock_ok t0 (envs ++ [env]) <-> clock_ok t0 envs /\ last_now t0 envs <= now env.
Proof.
  unfold last_now. revert t0. induction envs as [|e1 envs IH]; intros t0.
  { cbn. tauto. }
  cbn [app clock_ok]. rewrite IH. destruct envs as [|e2 envs]; [cbn; tauto|].
  change (last (e1 :: e2 :: envs)) with (last (e2 :: envs)).
  destruct (proj2 (last_is_Some (e2 :: envs))) as [x ->]; [done|]. cbn. tauto.
Qed.

Lemma ordered_clock_ok t0 w l hd :
  ordered t0 l hd ->
  let envs := rev ((fun x => env_at_time w x.1 x.2) <$> l) in
  clock_ok t0 envs /\ last_now t0 envs <= hd.
Proof.
  revert hd. induction l as [|x l IH]; intros hd; [done|].
  intros [Hx [Hc Hl]%IH]. cbn. rewrite clock_ok_snoc.
  unfold last_now. by rewrite last_snoc.
Qed.

(** ** A timed run among the interleavings *)

Lemma sys_run_app (evs evs' : list (Event Heap)) sys :
  sys_run (evs ++ evs') sys = sys_run evs' (sys_run evs sys).
Proof. apply foldl_app. Qed.

Lemma polls_of_world w (hs : list Heap) : Forall (of_world w) (Poll <$> hs).
Proof. by apply Forall_fmap, Forall_true. Qed.

Lemma iteration_events w ts :
  exists evs, sys (iteration w ts) = sys_run evs (sys ts) /\ Forall (of_world w) evs.
Proof.
  unfold iteration. destruct (catch_up_polled w ts) as [hs Hhs].
  destruct (catch_up w ts) as [sys0 p0]. cbn [fst] in Hhs. subst sys0.
  pose proof (polls_of_world w hs) as Hw.
  destruct (stopped _); [by exists (Poll <$> hs)|].
  destruct (cancelled_by _ _).
  { exists ((Poll <$> hs) ++ [Cancel; Tick (env_at_time w (head ts) WakeDone)]).
    rewrite sys_run_app, Forall_app. repeat split; [done|].
    repeat constructor. by eexists _, _. }
  destruct (select_at_polled w (head ts) p0 (sys_run (Poll <$> hs) (sys ts)))
    as [hs' Hhs'].
  destruct (select_at _ _ _ _) as [[[t pick] sys1] p1]. cbn [fst snd] in *.
  subst sys1.
  exists (((Poll <$> hs) ++ (Poll <$> hs')) ++ [Tick (env_at_time w t pick)]).
  rewrite !sys_run_app, !Forall_app. repeat split; auto using polls_of_world.
  repeat constructor. by eexists _, _.
Qed.

Lemma timed_run_events n w ts :
  exists evs, sys (timed_run n w ts) = sys_run evs (sys ts)
              /\ Forall (of_world w) evs.
Proof.
  induction n as [|n (evs & IH & Hw)]; [by exists []|].
  destruct (iteration_events w (timed_run n w ts)) as (evs' & E & Hw').
  exists (evs ++ evs'). by rewrite timed_run_S, E, IH, sys_run_app, Forall_app.
Qed.

Lemma timed_run_inv t0 n w ts :
  world_ok w -> head_ok w ts -> ordered t0 (started ts) (head ts) ->
  head_ok w (timed_run n w ts)
  /\ ordered t0 (started (timed_run n w ts)) (head (timed_run n w ts)).
Proof.
  intros Hw. revert n ts.
  apply (timed_run_keeps (fun ts => ordered t0 (started ts) (head ts)));
    auto using iteration_ordered.
Qed.

(** ** The theorems *)

(** Once the context of [Run] is cancelled the loop of [wait.Until]
    returns: if the cancellation is at most [n] periods of fifteen seconds
    after the next test of the stop channel, the loop has returned after
    [n + 1] iterations, and after any larger number of them. *)
Theorem Run_returns n m w ts stop :
  world_ok w -> head_ok w ts -> cancel_at w = Some stop ->
  stop - head ts <= Z.of_nat n * period_Until -> (n < m)%nat ->
  stopped (sys (timed_run m w ts)) = true.
Proof. intros. by eapply returns_after. Qed.

(** While the context of [Run] is never cancelled the loop of
    [wait.Until] does not return, however many iterations it makes. *)
Theorem Run_goes_on n w ts :
  cancel_at w = None -> done (sys ts) = false -> stopped (sys ts) = false ->
  done (sys (timed_run n w ts)) = false
  /\ stopped (sys (timed_run n w ts)) = false.
Proof.
  intros Hca Hd Hs. induction n as [|n [IHd IHs]]; [done|].
  rewrite timed_run_S. by apply iteration_goes_on.
Qed.

(** The closure is called within the window of its [select]: no
    earlier than the test of the stop channel, no later than the pending
    delay after it; exactly then if the timer fired, at the instant of the
    cancellation if the context was done, and by the channel only if a
    delay was pending. *)
Theorem cycle_starts_in_window w ts :
  head_ok w ts -> stopped (sys ts) = false -> cancelled_by w (head ts) = false ->
  let d := Z.max 0 (initialDelay (main (sys ts))) in
  exists t pick,
    started (iteration w ts) = (t, pick) :: started ts
    /\ head ts <= t <= head ts + d
    /\ match pick with
       | WakeTimer => t = head ts + d
       | WakeDone => cancel_at w = Some t
       | WakeEnabled => 0 < initialDelay (main (sys ts))
       end.
Proof.
  intros Hok Hs Hc.
  destruct (iteration_calls w ts Hok Hs Hc) as (t & k & sys1 & Hcl).
  destruct (closure_window w ts t k sys1 Hc Hcl) as [Ht Hk].
  destruct Hcl as (_ & _ & _ & _ & ->). exists t, k.
  repeat split; [lia..|]. destruct k; tauto.
Qed.

Section Composed.
Context `{!Durable R}.

(** A cycle that returns early leaves no delay. *)
Lemma early_return_delay (env : Env Heap) (s : State Heap R) :
  returns_early (path (config_of (c s)) env (abs s)) = true ->
  initialDelay (step env s) <= 0.
Proof.
  rewrite step_delay. unfold waited.
  destruct (path _ _ _); try done; intros _; case_match; lia.
Qed.

(** The delay an iteration that calls the closure leaves, by the path of
    the cycle. *)
Lemma iteration_delay w ts t pick :
  head_ok w ts -> stopped (sys ts) = false -> cancelled_by w (head ts) = false ->
  started (iteration w ts) = (t, pick) :: started ts ->
  initialDelay (main (sys (iteration w ts))) =
    let i := interval (main (sys (iteration w ts))) in
    let r := draw w t in
    match path (config_of (c (main (sys ts)))) (env_at_time w t pick)
               (abs (main (sys ts))) with
    | SummaryFails _ | NothingNew => waited (initialDelay (main (sys ts)))
    | Uploaded | DryRun _ _ => jitter i 1.2 r
    | WaitingForVersion => jitter (i ÷ 8) 1 r - i ÷ 8
    | Unauthorized _ => jitter i 3 r
    | UploadFails _ => jitter (i ÷ 8) 1.2 r
    end.
Proof.
  intros Hok Hs Hc Hst.
  destruct (iteration_calls w ts Hok Hs Hc) as (t' & k & sys1 & _ & Hp & -> & _ & Hst').
  rewrite Hst' in Hst. simplify_eq.
  destruct (polled_abs _ _ Hp) as (Ha & Hcf & _ & Hd).
  cbn [main]. by rewrite step_delay, Ha, Hcf, Hd.
Qed.


(** C23: when the summarizer fails or has nothing new the closure returns
    without computing a delay, and [wait.Until] calls it again fifteen
    seconds after it returned, without any wait in its [select]: the next
    cycle starts exactly one period after the end of the failed one. *)
Theorem early_return_retries w ts t pick :
  world_ok w -> head_ok w ts ->
  stopped (sys ts) = false -> cancelled_by w (head ts) = false ->
  started (iteration w ts) = (t, pick) :: started ts ->
  returns_early (path (config_of (c (main (sys ts)))) (env_at_time w t pick)
                      (abs (main (sys ts)))) = true ->
  cancelled_by w (t + busy w t + period_Until) = false ->
  started (iteration w (iteration w ts))
  = (t + busy w t + period_Until, WakeTimer) :: (t, pick) :: started ts.
Proof.
  intros Hw Hok Hs Hc Hst Hp Hc'.
  destruct (iteration_calls w ts Hok Hs Hc) as (t' & k & sys1 & _ & Hpl & Hsys & Hh & Hst').
  rewrite Hst' in Hst. simplify_eq.
  destruct (polled_abs _ _ Hpl) as (Ha & Hcf & _). rewrite <- Ha, <- Hcf in Hp.
  apply early_return_delay in Hp. rewrite next_head_period in Hh by done.
  destruct (iteration_calls w (iteration w ts)) as (t2 & k2 & sys2 & Hsel & _ & _ & _ & ->);
    [by apply iteration_head_ok | by rewrite Hsys | by rewrite Hh |].
  rewrite select_at_no_wait, Hh in Hsel;
    [cbn [fst] in Hsel; simplify_eq; by rewrite Hst'|].
  destruct (polled_abs _ _ (catch_up_polled w (iteration w ts))) as (_ & _ & _ & ->).
  by rewrite Hsys.
Qed.

(** C24: the cycles of a timed run start in the order of the clock, none
    before [Run] began, so the watermark never goes back: if the reporter
    held no time later than the start of [Run], the watermark after any
    number of iterations is at least the one [Run] started with. *)
Theorem timed_watermark_monotone e c0 n w ts :
  world_ok w -> timed_start e c0 = Some ts ->
  lastReported (main (sys ts)) <= now0 e ->
  clock_ok (now0 e) (cycle_envs w (timed_run n w ts))
  /\ lastReported (main (sys ts)) <= lastReported (main (sys (timed_run n w ts))).
Proof.
  intros Hw (Hst & Hok & Hnil & Hh & _)%(timed_start_inv e c0 w) Hl.
  destruct (timed_run_inv (now0 e) n w ts Hw Hok) as [_ Ho];
    [rewrite Hnil, Hh; cbn; lia|].
  apply (ordered_clock_ok _ w) in Ho as [Hck _]. split; [done|].
  destruct (timed_run_sim n w ts Hw Hok) as (_ & new & Hnew & Ha & _).
  rewrite Hnil, app_nil_r in Hnew. unfold cycle_envs in Hck. rewrite Hnew in Hck.
  change (watermark (abs (main (sys ts)))
          <= watermark (abs (main (sys (timed_run n w ts))))).
  rewrite Ha. by eapply spec_steps_watermark_le.
Qed.

(** C25: a process that starts again less than an interval after an upload
    reports again at once: the first call of the closure is made at the
    first test of the stop channel, at the time [Run] began, without any
    wait. *)
Theorem restart_reports_at_once e env (s : State Heap R) w ts :
  path (config_of (c s)) env (abs s) = Uploaded ->
  now env <> 0 -> is_sample (rnd1 e) ->
  timed_start e (rebuilt (c (step env s))) = Some ts ->
  now0 e < now env + interval (main (sys ts)) ->
  cancelled_by w (now0 e) = false ->
  started (iteration w ts) = [(now0 e, WakeTimer)].
Proof.
  intros Hp Hz Hr Hst Hn Hc.
  destruct (timed_start_inv e _ w ts Hst) as (Hs & Hok & Hnil & Hh & Hnp).
  destruct (start_inv e _ _ Hs) as (_ & _ & Hstop & _).
  pose proof (start_main e _ _ Hs) as Hm. fold (restart e (step env s)) in Hm.
  destruct (restart_after_upload e env s Hp Hz Hr) as [_ Hd];
    [by rewrite <- Hm|]. rewrite <- Hm in Hd.
  destruct (iteration_calls w ts Hok Hstop) as (t & k & sys1 & Hsel & _ & _ & _ & ->);
    [by rewrite Hh|].
  rewrite catch_up_id in Hsel by lia. cbn [fst snd] in Hsel.
  rewrite select_at_no_wait in Hsel by lia.
  cbn [fst] in Hsel. simplify_eq. by rewrite Hnil, Hh.
Qed.

End Composed.

End Runs.

(** ** The theorems at the runs of [Scenario] *)

Lemma Run_returns_witness : stopped (sys (timed_run 21 switching ts0)) = true.
Proof.
  apply (Run_returns 20 21 switching ts0 stop_time);
    [apply switching_ok | apply ts0_ok | done | by vm_compute | lia].
Defined.

Lemma Run_goes_on_witness :
  done (sys (timed_run 5 failing ts0)) = false
  /\ stopped (sys (timed_run 5 failing ts0)) = false.
Proof. by apply (Run_goes_on 5 failing ts0). Defined.

Lemma cycle_starts_in_window_witness :
  exists t pick,
    started (iteration failing ts0) = [(t, pick)]
    /\ 100 <= t <= 100 + Z.max 0 (initialDelay (main (sys ts0)))
    /\ match pick with
       | WakeTimer => t = 100 + Z.max 0 (initialDelay (main (sys ts0)))
       | WakeDone => cancel_at failing = Some t
       | WakeEnabled => 0 < initialDelay (main (sys ts0))
       end.
Proof. by apply (cycle_starts_in_window failing ts0); [apply ts0_ok|..]. Defined.


Lemma early_return_retries_witness :
  started (iteration failing (iteration failing ts0))
  = [(first_timer + time.Second + period_Until, WakeTimer); (first_timer, WakeTimer)].
Proof.
  apply (early_return_retries failing ts0 first_timer WakeTimer);
    [apply failing_ok | apply ts0_ok | done | done | by vm_compute
    | by vm_compute | done].
Defined.

Lemma timed_watermark_monotone_witness :
  clock_ok 100 (cycle_envs switching (timed_run 3 switching ts0))
  /\ lastReported (main (sys ts0))
     <= lastReported (main (sys (timed_run 3 switching ts0))).
Proof.
  apply (timed_watermark_monotone start_env demo 3 switching ts0);
    [apply switching_ok | apply ts0_start | by vm_compute].
Defined.

Lemma restart_reports_at_once_witness :
  started (iteration failing ts_again) = [(now0 again, WakeTimer)].
Proof.
  apply (restart_reports_at_once again ok_env s0 failing ts_again);
    [by vm_compute | done | apply sample_half | by vm_compute | by vm_compute | done].
Defined.

(** The cadence of the uploads: with an interval of ten minutes and a draw
    of one half, the second upload starts 976 seconds after the first: the
    second of the first upload, the period of fifteen seconds, and a delay
    of sixteen minutes. *)
Example steady_cadence :
  started (timed_run 2 steady ts0)
  = [(first_timer + 976 * time.Second, WakeTimer); (first_timer, WakeTimer)].
Proof. by vm_compute. Qed.
