(* ===== verification/WellFormed.v ===== *)
(** * WellFormed: the types of the variables of [Run]

    The variables of [Run] have Go types the model does not enforce:
    [initialDelay] and [interval] are [time.Duration], an int64 count of
    nanoseconds, [enabledCh] is a channel of capacity 2, and the summary in
    the store is one of the shapes [UpdateStatus] is given.  [typed] says
    that a state respects them, and, so that the delays computed from the
    interval fit as well, that the interval is positive and at most a
    quarter of the largest duration.  The theorems: [Run] enters
    [wait.Until] in a typed state, and a cycle, a poll of the watcher and
    the cancellation keep the state typed, as long as the client never
    suggests an interval above that bound and the random source yields
    numbers of [[0, 1)]; on the clock of [Clock] the condition is one on
    what the world gives at each time ([world_typed]).  The jitter is the
    library's ([wait_Jitter]). *)

From Stdlib Require Import QArith Qround Lqa.
From stdpp Require Import base tactics strings list.
From S2P Require Import Prelude Timing Status Channel DryRun Uploader Scenario.
From S2P Require Import CycleSpec Startup Restart Delays RunLoop Clock Timed.

#[local] Open Scope Z_scope.

(** The largest interval whose delays all fit in a [time.Duration]. *)
Definition max_interval : Duration := maxDuration ÷ 4.

Section Types.
Context `{Errors} `{TimeFormat} {Heap R : Type} `{StatusReporter R}.
Implicit Types (env : Env Heap) (s : State Heap R) (sys : Sys Heap R).
Implicit Types (e : StartEnv (Heap := Heap)) (ev : Event Heap).

(** The interval [New] was given is positive and fits. *)
Definition config_typed (c0 : Controller.t Heap R) : Prop :=
  0 < Controller.interval c0 <= max_interval.

(** The interval the client suggests on the heap [h] fits. *)
Definition heap_typed (c0 : Controller.t Heap R) (h : Heap) : Prop :=
  match Controller.client c0 with
  | Some cl => (insightsclient.Enabled cl h).1.2 <= max_interval
  | None => True
  end.

(** What a cycle finds around it is typed. *)
Definition env_typed (c0 : Controller.t Heap R) env : Prop :=
  heap_typed c0 (heap env) /\ is_sample (rnd env).

(** What the start of [Run] finds around it is typed: the reporter holds
    a time that is not in the future. *)
Definition start_typed (c0 : Controller.t Heap R) e : Prop :=
  heap_typed c0 (heap0 e) /\ is_sample (rnd0 e) /\ is_sample (rnd1 e)
  /\ 0 <= LastReportedTime (Controller.reporter c0) <= now0 e.

Definition event_typed (c0 : Controller.t Heap R) ev : Prop :=
  match ev with Tick env => env_typed c0 env | _ => True end.

(** What the world gives a run on the clock is typed at every time. *)
Definition world_typed (c0 : Controller.t Heap R) (w : World Heap) : Prop :=
  forall t, heap_typed c0 (heap_at w t) /\ is_sample (draw w t).

(** The variables of [Run] respect their types. *)
Definition typed s : Prop :=
  config_typed (c s)
  /\ 0 < interval s <= max_interval
  /\ is_Duration (initialDelay s)
  /\ chan_ok (enabledCh s) /\ cap (enabledCh s) = 2%nat
  /\ status_ok (abs s).

#[export] Instance typed_dec s : Decision (typed s).
Proof. unfold typed, config_typed. apply _. Defined.

End Types.

(** ** The jitter of a negative duration *)

Lemma Qtrunc_ge (q : Q) : (q <= 0)%Q -> (q <= inject_Z (Qtrunc q))%Q.
Proof.
  intros Hq. unfold Qtrunc. destruct (Qlt_le_dec q 0); [apply Qle_ceiling|].
  rewrite (Qfloor_comp q 0) by lra. done.
Qed.

(** For a width [n / m] and a base [d] that is not positive:
    [(m + n) * d <= m * scaled d w r <= m * d]. *)
Lemma scaled_range_neg (d : Duration) (w r : Q) (n : Z) (m : positive) :
  (w == n # m)%Q -> 0 <= n -> d <= 0 -> is_sample r ->
  (Z.pos m + n) * d <= Z.pos m * scaled d w r /\ scaled d w r <= d.
Proof.
  intros Hw Hn Hd Hr.
  assert (0 <= w)%Q as Hw0 by (rewrite Hw; unfold Qle; simpl; lia).
  split; [|by apply scaled_nonpos].
  pose proof (Qtrunc_ge _ (share_nonpos d w r Hd Hw0 (proj1 Hr))) as Hq.
  pose proof (inject_Z_nonpos d Hd). destruct Hr as [Hr0 Hr1].
  assert (w * inject_Z d <= 0)%Q as Hx by nra.
  assert (w * inject_Z d <= r * w * inject_Z d)%Q as Hs
    by (rewrite <- Qmult_assoc; nra).
  assert (inject_Z d * ((Z.pos m + n) # m) <= inject_Z (scaled d w r))%Q as Hle.
  { unfold scaled. rewrite inject_Z_plus.
    assert ((Z.pos m + n) # m == 1 + w)%Q as ->
      by (rewrite Hw; unfold Qeq, Qplus; simpl; lia).
    lra. }
  revert Hle. unfold Qle, Qmult, inject_Z. cbn. lia.
Qed.

(** ** The start of [Run] *)

Section Start.
Context `{Errors} `{TimeFormat} {Heap R : Type} `{StatusReporter R}.
Implicit Types (env : Env Heap) (s : State Heap R) (sys : Sys Heap R).
Implicit Types (e : StartEnv (Heap := Heap)) (ev : Event Heap).

Lemma start_delay_fits (i : Duration) (last now : Time) (r0 r1 : Q) :
  0 < i <= max_interval -> 0 <= last <= now -> is_sample r0 -> is_sample r1 ->
  is_Duration (start_delay i last now r0 r1).
Proof.
  unfold max_interval. change (maxDuration ÷ 4) with 2305843009213693951.
  intros Hi Hl Hr0 Hr1. pose proof (quot8_bounds i ltac:(lia)) as [Hq Hq'].
  destruct (decide (last = 0 \/ last + i <= now)) as [Hf|Ha].
  - rewrite start_delay_fresh_eq by done. change jitter with wait.Jitter.
    pose proof (wait_Jitter_range (i ÷ 8) r0 Hq Hr0).
    unfold is_Duration, minDuration, maxDuration. lia.
  - rewrite start_delay_ahead_eq by lia. change jitter with wait.Jitter.
    unfold time.Sub. rewrite saturate_id
      by (unfold is_Duration, minDuration, maxDuration; lia).
    rewrite Jitter_scaled.
    pose proof (scaled_range_neg (now - (last + i)) (wait.Jitter_width 1.2) r1
                  6 5 ltac:(done) ltac:(lia) ltac:(lia) Hr1).
    unfold is_Duration, minDuration, maxDuration. lia.
Qed.

Lemma spec_period_fits (c0 : Controller.t Heap R) env (a : Abs) :
  config_typed c0 -> heap_typed c0 (heap env) -> 0 < period a <= max_interval ->
  0 < spec_period (config_of c0) env a <= max_interval.
Proof.
  unfold config_typed, heap_typed, spec_period, enabled_answer. cbn.
  destruct (Controller.client c0) as [cl|]; cbn; [|done].
  destruct (insightsclient.Enabled cl (heap env)) as [[? n] ?]. cbn.
  destruct (Z.ltb_spec 0 n); lia.
Qed.

End Start.

(** ** The cycle, the watcher and the cancellation *)

Section Preservation.
Context `{Errors} `{TimeFormat} {Heap R : Type} `{StatusReporter R} `{!Durable R}.
Implicit Types (env : Env Heap) (s : State Heap R) (sys : Sys Heap R).
Implicit Types (e : StartEnv (Heap := Heap)) (ev : Event Heap).

Lemma heap_typed_config (c0 c1 : Controller.t Heap R) (h : Heap) :
  config_of c0 = config_of c1 -> heap_typed c0 h -> heap_typed c1 h.
Proof. unfold heap_typed. by intros [= _ -> _]. Qed.

Lemma config_typed_config (c0 c1 : Controller.t Heap R) :
  config_of c0 = config_of c1 -> config_typed c0 -> config_typed c1.
Proof. unfold config_typed. by intros [= _ _ ->]. Qed.

(** A cycle keeps the variables typed. *)
Lemma step_typed env s : typed s -> env_typed (c s) env -> typed (step env s).
Proof.
  intros (Hc & Hi & Hd & Hch & Hcap & Hst) [Hh Hr].
  destruct (step_sim env s) as [Ha Hcfg], (step_chan_ok env s Hch) as [Hch' Hcap'].
  pose proof (f_equal period Ha) as Hp. rewrite spec_step_period in Hp.
  assert (0 < interval (step env s) <= max_interval) as Hi'
    by (cbn in Hp; rewrite Hp; by apply spec_period_fits).
  refine (conj _ (conj Hi' (conj _ (conj Hch' (conj _ _))))); [| |by rewrite Hcap'|].
  - by eapply config_typed_config.
  - eapply library_range_fits; [exact Hi' | exact Hd |].
    apply step_library_range; [lia | done].
  - rewrite Ha. by apply spec_step_status_ok.
Qed.

(** The watcher changes the channel only, and keeps it typed. *)
Lemma set_enabledCh_typed ch s :
  chan_ok ch -> cap ch = cap (enabledCh s) -> typed s -> typed (set_enabledCh ch s).
Proof.
  intros Hch Hcap (Hc & Hi & Hd & _ & Hcap' & Hst).
  refine (conj Hc (conj Hi (conj Hd (conj Hch (conj _ Hst))))). cbn.
  by rewrite Hcap.
Qed.

Lemma sys_step_config ev sys :
  config_of (c (main (sys_step ev sys))) = config_of (c (main sys)).
Proof.
  destruct ev as [h| |env]; cbn; [|done|].
  - by destruct (poll_main h sys) as (ch & -> & _).
  - unfold tick. destruct (done sys || stopped sys); [done|]. apply step_sim.
Qed.

Lemma sys_step_typed ev sys :
  typed (main sys) -> event_typed (c (main sys)) ev ->
  typed (main (sys_step ev sys)).
Proof.
  intros Ht Hev. destruct ev as [h| |env]; cbn in *; [|done|].
  - destruct (poll_main h sys) as (ch & -> & Hch).
    destruct Hch; [apply Ht|]. by apply set_enabledCh_typed.
  - unfold tick. destruct (done sys || stopped sys); [done|]. by apply step_typed.
Qed.

Lemma event_typed_config (c0 c1 : Controller.t Heap R) ev :
  config_of c0 = config_of c1 -> event_typed c0 ev -> event_typed c1 ev.
Proof.
  intros Hc. destruct ev as [| |env]; cbn; [done..|].
  intros [? ?]. split; [by eapply heap_typed_config | done].
Qed.

Lemma sys_run_typed (c0 : Controller.t Heap R) evs sys :
  config_of (c (main sys)) = config_of c0 -> typed (main sys) ->
  Forall (event_typed c0) evs -> typed (main (sys_run evs sys)).
Proof.
  intros Hc Ht Hevs. revert sys Hc Ht.
  induction Hevs as [|ev evs Hev _ IH]; intros sys Hc Ht; [done|].
  rewrite sys_run_cons. apply IH; [by rewrite sys_step_config|].
  apply sys_step_typed; [done|]. by eapply event_typed_config.
Qed.

(** [Run] enters [wait.Until] with its variables typed. *)
Lemma start_is_typed e (c0 : Controller.t Heap R) sys :
  start e c0 = Some sys -> config_typed c0 -> status_ok (abs (Run_vars c0)) ->
  start_typed c0 e -> typed (main sys).
Proof.
  intros Hs Hc Hst (Hh & Hr0 & Hr1 & Hl).
  destruct (start_inv e c0 sys Hs) as (Hch & _ & _ & _ & Hcfg).
  rewrite (start_main e c0 sys Hs) in *.
  destruct (startup_vars e (Run_vars c0)) as (Hlast & Hd & Hc').
  assert (0 < interval (startup e (Run_vars c0)).2 <= max_interval) as Hi.
  { rewrite startup_interval. unfold heap_typed, config_typed in *. cbn.
    destruct (Controller.client c0) as [cl|]; [|done]. cbn zeta.
    destruct (Z.ltb_spec 0 (insightsclient.Enabled cl (heap0 e)).1.2); lia. }
  assert (config_typed (c (startup e (Run_vars c0)).2)) as Hc2 by (by rewrite Hc').
  refine (conj Hc2 (conj Hi (conj _ (conj _ (conj _ _))))); rewrite ?Hch; try done.
  - rewrite Hd, Hlast. by apply start_delay_fits.
  - apply make_ok.
  - unfold status_ok, abs in *. cbn in *. by rewrite Hc'.
Qed.

(** ** The theorems *)

(** C9: the variables of [Run] keep their types: from the call of
    [wait.Until] on and under every interleaving of the watcher, the
    cancellation and the loop, [interval] is positive and at most a quarter
    of the largest [time.Duration], [initialDelay] is a [time.Duration],
    the channel has capacity 2 and holds no more, and the summary in the
    store is well formed, provided the configured interval and the
    intervals the client suggests are at most that quarter, the reporter
    starts with a time that is not in the future and the random source
    yields numbers of [[0, 1)]. *)
Theorem run_typed e (c0 : Controller.t Heap R) evs sys :
  start e c0 = Some sys -> config_typed c0 -> status_ok (abs (Run_vars c0)) ->
  start_typed c0 e -> Forall (event_typed c0) evs ->
  typed (main (sys_run evs sys)).
Proof.
  intros Hs Hc Hst He Hevs.
  destruct (start_inv e c0 sys Hs) as (_ & _ & _ & _ & Hcfg).
  eapply sys_run_typed; [done | by eapply start_is_typed | done].
Qed.

(** On the clock the same holds of a typed world: the hypothesis on the
    events becomes one on what the collaborators and the random source
    give at each time. *)
Theorem timed_run_typed e (c0 : Controller.t Heap R) n w ts :
  timed_start e c0 = Some ts -> config_typed c0 ->
  status_ok (abs (Run_vars c0)) -> start_typed c0 e -> world_typed c0 w ->
  typed (main (sys (timed_run n w ts))).
Proof.
  intros (Hs & _)%(timed_start_inv e c0 w) Hc Hst He Hw.
  destruct (timed_run_events n w ts) as (evs & -> & Hevs).
  destruct (start_inv e c0 _ Hs) as (_ & _ & _ & _ & Hcfg).
  eapply sys_run_typed; [done | by eapply start_is_typed |].
  eapply Forall_impl; [done|]. intros [h| |env]; cbn; try done.
  intros (t & k & ->). apply Hw.
Qed.

End Preservation.

(** ** The theorems at the run of [Scenario] *)

Lemma demo_typed : config_typed demo.
Proof. by vm_compute. Qed.

Lemma flip_flop_typed : Forall (event_typed demo) flip_flop.
Proof. repeat constructor; by vm_compute. Qed.

Lemma run_typed_witness : typed (main (sys_run flip_flop running)).
Proof.
  apply (run_typed start_env demo flip_flop running);
    [done | apply demo_typed | done | | apply flip_flop_typed].
  repeat split; by vm_compute.
Defined.

Lemma switching_typed : world_typed demo switching.
Proof.
  intros t. split; [|apply sample_half]. unfold heap_typed. cbn.
  by destruct (t <? switch_time).
Qed.

Lemma timed_run_typed_witness : typed (main (sys (timed_run 3 switching ts0))).
Proof.
  apply (timed_run_typed start_env demo 3 switching ts0 ts0_start demo_typed);
    [done | repeat split; by vm_compute | apply switching_typed].
Defined.
