(* ===== verification/Ghost.v ===== *)
(** * Ghost: the trace and the log do not steer the run

    The state of the closure in [Uploader] has two fields the source does
    not have, the trace of the collaborator calls ([calls]) and the lines
    printed ([logs]); and the environment of a cycle has two inputs that
    reach nothing but the log, the verbosity of the logger and the time at
    which the upload ended (printed by line 161 of insightsuploader.go).
    Here two states are equivalent ([same_vars]) when they agree on the
    variables of [Run], and two environments ([same_inputs]) when they
    agree on what the collaborators, the [select], the clock and the random
    source give.  The closure respects the two equivalences: the
    instrumentation of the model is ghost, and the program behaves the same
    at every verbosity, although below [klog.V(4)] the dry run does not
    read the bundle.  So do the watcher, the cancellation and the loop
    ([same_sys]), and the two goroutines on the clock ([same_ts], over
    worlds that differ in the verbosity only): the times at which the
    cycles start do not depend on what is logged. *)

From Stdlib Require Import QArith.
From stdpp Require Import base tactics strings list.
From S2P Require Import Prelude Timing Status Channel DryRun Uploader Scenario.
From S2P Require Import CycleSpec Startup Restart RunLoop Clock.

#[local] Open Scope Z_scope.

Section Ghost.
Context `{Errors} `{TimeFormat} `{Jitterer} {Heap R : Type} `{StatusReporter R}.
Implicit Types (env : Env Heap) (s : State Heap R) (sys : Sys Heap R).
Implicit Types (w : World Heap) (ts : TSys Heap R).

(** The two states hold the same variables of [Run]. *)
Definition same_vars s s' : Prop :=
  c s = c s' /\ initialDelay s = initialDelay s' /\ interval s = interval s'
  /\ lastReported s = lastReported s' /\ enabledCh s = enabledCh s'.

(** The two environments give the same to everything but the logger. *)
Definition same_inputs env env' : Prop :=
  heap env = heap env' /\ pick env = pick env' /\ cancelled env = cancelled env'
  /\ now env = now env' /\ rnd env = rnd env'.

(** The state without its trace and its log. *)
Definition erase s : State Heap R :=
  mkState (c s) (initialDelay s) (interval s) (lastReported s) (enabledCh s)
          [] [].

(** The environment with the logger silent and the end of the upload not
    observed. *)
Definition mute env : Env Heap :=
  mkEnv (heap env) (pick env) (cancelled env) (now env) (now env) (rnd env) 0.

(** The two systems agree on the variables of [Run] and on the state of
    the goroutines. *)
Definition same_sys sys sys' : Prop :=
  same_vars (main sys) (main sys') /\ watcher_seen_ sys = watcher_seen_ sys'
  /\ done sys = done sys' /\ stopped sys = stopped sys'.

(** The two worlds differ in the verbosity of the logger at most. *)
Definition same_world w w' : Prop :=
  heap_at w = heap_at w' /\ cancel_at w = cancel_at w' /\ busy w = busy w'
  /\ draw w = draw w'.

(** The two systems on the clock agree on all but the ghost fields: the
    same times, the same cycles so far. *)
Definition same_ts ts ts' : Prop :=
  same_sys (sys ts) (sys ts') /\ head ts = head ts'
  /\ next_poll ts = next_poll ts' /\ started ts = started ts'.

(** What a wait returns, up to the ghost fields. *)
Definition same_wait {A} (r r' : A * Sys Heap R * Time) : Prop :=
  r.1.1 = r'.1.1 /\ same_sys r.1.2 r'.1.2 /\ r.2 = r'.2.

(** The world with the logger silent. *)
Definition silent w : World Heap :=
  mkWorld (heap_at w) (cancel_at w) (busy w) (draw w) 0.

End Ghost.

Infix "≈" := same_vars (at level 70, no associativity) : stdpp_scope.

Section Facts.
Context `{Errors} `{TimeFormat} `{Jitterer} {Heap R : Type} `{StatusReporter R}.
Implicit Types (env : Env Heap) (s : State Heap R) (sys : Sys Heap R).
Implicit Types (w : World Heap) (ts : TSys Heap R).

#[export] Instance same_vars_equiv : Equivalence (same_vars (Heap := Heap) (R := R)).
Proof.
  unfold same_vars. split; [intros ? | intros ? ? ? | intros ? ? ? ? ?];
    intuition congruence.
Qed.

#[export] Instance same_inputs_equiv : Equivalence (same_inputs (Heap := Heap)).
Proof.
  unfold same_inputs. split; [intros ? | intros ? ? ? | intros ? ? ? ? ?];
    intuition congruence.
Qed.

Lemma erase_same s : erase s ≈ s.
Proof. by repeat split. Qed.

Lemma mute_same env : same_inputs (mute env) env.
Proof. by repeat split. Qed.

(** Equivalent states differ in the ghost fields only. *)
Lemma same_vars_ghost s s' :
  s ≈ s' ->
  s' = mkState (c s) (initialDelay s) (interval s) (lastReported s)
               (enabledCh s) (calls s') (logs s').
Proof. destruct s, s'. intros (? & ? & ? & ? & ?). cbn in *. by subst. Qed.

Lemma same_inputs_log env env' :
  same_inputs env env' ->
  env' = mkEnv (heap env) (pick env) (cancelled env) (now env) (finished env')
               (rnd env) (verbosity env').
Proof. destruct env, env'. intros (? & ? & ? & ? & ?). cbn in *. by subst. Qed.

(** A cycle from equivalent states in equivalent environments ends in
    equivalent states. *)
#[export] Instance step_proper :
  Proper (same_inputs ==> same_vars ==> same_vars) (step (Heap := Heap) (R := R)).
Proof.
  intros env env' ->%same_inputs_log s s' ->%same_vars_ghost.
  unfold same_vars, klog_V. run_proc; by repeat split.
Qed.

#[export] Instance steps_proper :
  Proper (Forall2 same_inputs ==> same_vars ==> same_vars)
         (steps (Heap := Heap) (R := R)).
Proof.
  intros envs envs' Hen. induction Hen as [|env env' envs envs' He _ IH];
    intros s s' Hs; [done|].
  apply IH. by apply step_proper.
Qed.

#[export] Instance abs_proper :
  Proper (same_vars ==> eq) (abs (Heap := Heap) (R := R)).
Proof. intros s s' ->%same_vars_ghost. by destruct s. Qed.

Lemma Forall2_mute (envs : list (Env Heap)) : Forall2 same_inputs (mute <$> envs) envs.
Proof. induction envs; constructor; auto using mute_same. Qed.

(** ** The goroutines *)

#[export] Instance same_sys_equiv : Equivalence (same_sys (Heap := Heap) (R := R)).
Proof.
  unfold same_sys. split; [intros ? | intros ? ? ? | intros ? ? ? ? ?];
    intuition (congruence || (by etrans) || done).
Qed.

#[export] Instance same_world_equiv : Equivalence (same_world (Heap := Heap)).
Proof.
  unfold same_world. split; [intros ? | intros ? ? ? | intros ? ? ? ? ?];
    intuition congruence.
Qed.

#[export] Instance same_ts_equiv : Equivalence (same_ts (Heap := Heap) (R := R)).
Proof.
  unfold same_ts. split; [intros ? | intros ? ? ? | intros ? ? ? ? ?];
    intuition (congruence || (by etrans) || done).
Qed.

Lemma same_sys_ghost sys sys' :
  same_sys sys sys' ->
  sys' = mkSys (mkState (c (main sys)) (initialDelay (main sys))
                        (interval (main sys)) (lastReported (main sys))
                        (enabledCh (main sys)) (calls (main sys'))
                        (logs (main sys')))
               (watcher_seen_ sys) (done sys) (stopped sys).
Proof.
  destruct sys, sys'. intros (Hm%same_vars_ghost & ? & ? & ?). cbn in *.
  subst. by rewrite <- Hm.
Qed.

Lemma same_world_verbose w w' :
  same_world w w' ->
  w' = mkWorld (heap_at w) (cancel_at w) (busy w) (draw w) (verbose w').
Proof. destruct w, w'. intros (? & ? & ? & ?). cbn in *. by subst. Qed.

Lemma silent_same w : same_world (silent w) w.
Proof. by repeat split. Qed.

#[export] Instance poll_proper :
  Proper (eq ==> same_sys ==> same_sys) (poll (Heap := Heap) (R := R)).
Proof.
  intros h _ <- sys sys' ->%same_sys_ghost. unfold poll, same_sys, same_vars.
  cbn. by destruct (watcher_seen_ sys) eqn:E, (Controller.client (c (main sys))).
Qed.

#[export] Instance cancel_proper :
  Proper (same_sys ==> same_sys) (cancel (Heap := Heap) (R := R)).
Proof. by intros sys sys' (? & ? & ? & ?). Qed.

#[export] Instance tick_proper :
  Proper (same_inputs ==> same_sys ==> same_sys) (tick (Heap := Heap) (R := R)).
Proof.
  intros env env' He sys sys' (Hm & Hs & Hd & Hst). unfold tick.
  rewrite <- Hd, <- Hst. destruct (_ || _); [done|].
  split; [by apply step_proper|]. by destruct He as (_ & _ & -> & _).
Qed.

Lemma same_sys_select sys sys' :
  same_sys sys sys' ->
  initialDelay (main sys) = initialDelay (main sys')
  /\ can_recv (enabledCh (main sys)) = can_recv (enabledCh (main sys')).
Proof. by intros ((_ & -> & _ & _ & ->) & _). Qed.

(** ** The goroutines on the clock *)

Section Clock.
Context (w w' : World Heap) (Hw : same_world w w').

Lemma env_at_time_same t pick :
  same_inputs (env_at_time w t pick) (env_at_time w' t pick).
Proof.
  rewrite (same_world_verbose _ _ Hw). by repeat split.
Qed.

Lemma polls_same_sys n p sys sys' :
  same_sys sys sys' -> same_sys (polls n w p sys) (polls n w' p sys').
Proof.
  revert p sys sys'. induction n as [|n IH]; intros p sys sys' Hs; [done|].
  cbn [polls]. apply IH. rewrite (proj1 Hw). by apply poll_proper.
Qed.

Lemma await_same_sys n p sys sys' :
  same_sys sys sys' -> same_wait (await n w p sys) (await n w' p sys').
Proof.
  revert p sys sys'. induction n as [|n IH]; intros p sys sys' Hs; [done|].
  cbn [await]. rewrite (proj1 Hw).
  pose proof (poll_proper _ (heap_at w' p) eq_refl _ _ Hs) as Hp.
  destruct (same_sys_select _ _ Hp) as [_ ->].
  destruct (can_recv _); [done | by apply IH].
Qed.

Lemma world_same_times t d :
  cancelled_by w' t = cancelled_by w t /\ deadline w' t d = deadline w t d
  /\ next_head w' t = next_head w t /\ busy w' t = busy w t.
Proof.
  destruct Hw as (_ & Hc & Hb & _). unfold cancelled_by, deadline, next_head.
  by rewrite Hc, Hb.
Qed.

Lemma select_at_same_sys t p sys sys' :
  same_sys sys sys' -> same_wait (select_at w t p sys) (select_at w' t p sys').
Proof.
  intros Hs. unfold select_at. destruct (same_sys_select _ _ Hs) as [<- <-].
  destruct (_ <=? _); [done|]. destruct (can_recv _); [done|].
  set (d := initialDelay (main sys)).
  destruct (world_same_times t d) as (_ & -> & _).
  destruct (await_same_sys (count_polls p (deadline w t d)) p sys sys' Hs)
    as (Ho & Hsys & Hp).
  destruct (await _ w _ _) as [[o sys1] p1], (await _ w' _ _) as [[o' sys1'] p1'].
  cbn in *. subst o' p1'. destruct o; [done|].
  by destruct (world_same_times (deadline w t d) 0) as (-> & _).
Qed.

Lemma iteration_same_ts ts ts' :
  same_ts ts ts' -> same_ts (iteration w ts) (iteration w' ts').
Proof.
  intros (Hs & Hh & Hp & Hst). unfold iteration, catch_up.
  rewrite <- Hh, <- Hp, <- Hst.
  pose proof (polls_same_sys (count_polls (next_poll ts) (head ts)) (next_poll ts)
                _ _ Hs) as Hs0.
  set (sys0 := polls _ w _ _) in *. set (sys0' := polls _ w' _ _) in *.
  pose proof Hs0 as (_ & _ & _ & <-).
  destruct (stopped sys0); [done|].
  destruct (world_same_times (head ts) 0) as (-> & _).
  destruct (cancelled_by w (head ts)).
  { split; [|done]. by apply tick_proper, cancel_proper; [apply env_at_time_same|]. }
  destruct (select_at_same_sys (head ts)
              (next_poll ts
               + Z.of_nat (count_polls (next_poll ts) (head ts)) * poll_period)
              _ _ Hs0) as (Ht & Hs1 & Hp1).
  destruct (select_at w _ _ sys0) as [[[t k] sys1] p1],
           (select_at w' _ _ sys0') as [[[t' k'] sys1'] p1'].
  cbn in Ht, Hs1, Hp1. injection Ht as <- <-. subst p1'.
  destruct (world_same_times t 0) as (_ & _ & _ & ->).
  destruct (world_same_times (t + busy w t) 0) as (_ & _ & -> & _).
  split; [|done]. by apply tick_proper; [apply env_at_time_same|].
Qed.

End Clock.

(** ** The theorems *)

(** The trace, the log and the verbosity are ghost: a run from the
    state without its trace and log, with the logger silent, ends with the
    same variables of [Run] as the run itself, the same controller with
    its reporter and its published summary, the same delay, interval and
    watermark, and the same channel. *)
Theorem run_ignores_ghost (envs : list (Env Heap)) s :
  steps (mute <$> envs) (erase s) ≈ steps envs s.
Proof. apply steps_proper; [apply Forall2_mute | apply erase_same]. Qed.

(** C15: the trace, the log and the verbosity do not steer the program:
    two runs on the clock from states that agree on the variables of
    [Run], in worlds that differ in the verbosity of the logger only, start
    their cycles at the same times, by the same cases of the [select], and
    end with the same variables of [Run], whatever number of iterations
    they make. *)
Theorem timed_run_ignores_ghost n w w' ts ts' :
  same_world w w' -> same_ts ts ts' ->
  same_ts (timed_run n w ts) (timed_run n w' ts').
Proof.
  intros Hw Hts. induction n as [|n IH]; [done|].
  rewrite !timed_run_S. by apply iteration_same_ts.
Qed.

End Facts.

(** ** The theorem at the run of [Scenario] *)

Lemma timed_run_ignores_ghost_witness :
  same_ts (timed_run 3 (silent switching) ts0) (timed_run 3 switching ts0).
Proof.
  apply (timed_run_ignores_ghost 3 (silent switching) switching ts0 ts0);
    [apply silent_same | reflexivity].
Defined.
