(* ===== verification/Wakeup.v ===== *)
(** * Wakeup: the watcher and the wait of the loop

    What the polls of the watcher do to the [select] of the closure on the
    clock of [Clock]: a poll that finds the answer it has seen changes
    nothing, one that finds the other answer leaves a wake-up, and a
    wake-up stays in the channel until the [select] takes it.  The
    theorems: a change of the enabled state that lasts a poll period ends
    the wait within a poll period; the wait never outlasts the first poll
    that finds a change, whether the loop is in its [select], in a cycle
    or in the period after it; and while nothing changes the wait ends by
    its timer and by nothing else.  The polls of [Clock] are the
    iterations of the goroutine of [Forever]: [polls_watcher] gives the
    state they leave as the one [Channel.watcher] computes from the
    answers at their times. *)

From Stdlib Require Import QArith.
From stdpp Require Import base tactics strings list.
From S2P Require Import Prelude Timing Status Channel DryRun Uploader Scenario.
From S2P Require Import Forever CycleSpec Startup Restart RunLoop Clock.

#[local] Open Scope Z_scope.

Section Change.
Context `{Errors} {Heap : Type}.

(** Of the polls at [p], [p + 2min], ... the one of number [k] is the
    first to find the answer [negb b]. *)
Definition first_change (w : World Heap) (cl : insightsclient.Client Heap)
    (b : bool) (p : Time) (k : nat) : Prop :=
  (forall j, (j < k)%nat -> enabled_at w cl (p + Z.of_nat j * poll_period) = b)
  /\ enabled_at w cl (p + Z.of_nat k * poll_period) = negb b.

End Change.

(** ** The watcher wakes the loop *)

Section Polls.
Context `{Errors} `{TimeFormat} `{Jitterer} {Heap R : Type} `{StatusReporter R}.
Implicit Types (sys : Sys Heap R) (t p : Time) (n : nat) (w : World Heap).
Implicit Types (ts : TSys Heap R) (e : StartEnv (Heap := Heap)).

Lemma first_change_O w cl b p : first_change w cl b p 0 -> enabled_at w cl p = negb b.
Proof. intros [_ Ha]. by rewrite Z.add_0_r in Ha. Qed.

Lemma first_change_add w cl b p n k :
  first_change w cl b p (n + k) ->
  (forall j, (j < n)%nat -> enabled_at w cl (p + Z.of_nat j * poll_period) = b)
  /\ first_change w cl b (p + Z.of_nat n * poll_period) k.
Proof.
  intros [Hb Ha]. split; [intros j Hj; apply Hb; lia|]. split.
  - intros j Hj. rewrite <- (Hb (n + j)%nat) by lia. f_equal. lia.
  - rewrite <- Ha. f_equal. lia.
Qed.

Lemma first_change_S w cl b p k :
  first_change w cl b p (S k) ->
  enabled_at w cl p = b /\ first_change w cl b (p + poll_period) k.
Proof.
  intros [Hb Hk]%(first_change_add w cl b p 1 k). split.
  - specialize (Hb O ltac:(lia)). by rewrite Z.add_0_r in Hb.
  - by rewrite Z.mul_1_l in Hk.
Qed.

(** A poll that finds the answer it has seen changes nothing; one that
    finds the other answer leaves a wake-up in the channel. *)
Lemma poll_unchanged h sys cl b :
  watches cl b sys -> (insightsclient.Enabled cl h).1.1 = b -> poll h sys = sys.
Proof.
  intros (Hs & Hc & _) Hb. unfold poll. rewrite Hs, Hc, Hb, watch_same.
  cbn [fst snd]. rewrite <- set_enabledCh_id, <- Hs. by destruct sys.
Qed.

Lemma poll_changed h sys cl b :
  watches cl b sys -> (insightsclient.Enabled cl h).1.1 = negb b ->
  can_recv (enabledCh (main (poll h sys))) = true.
Proof.
  intros (Hs & Hc & Hcap) Hb. unfold poll. rewrite Hs, Hc, Hb. unfold watch.
  destruct b; cbn; by apply try_send_can_recv.
Qed.

(** A poll is an iteration of the goroutine: [watch] on the answer of the
    client; [n] polls are the [watcher] of [Channel] on the answers at
    their times, the state from which [Forever.goroutine] goes on. *)
Lemma poll_watch h sys cl b :
  watches cl b sys ->
  let r := watch (insightsclient.Enabled cl h).1.1 b (enabledCh (main sys)) in
  watches cl r.1 (poll h sys) /\ enabledCh (main (poll h sys)) = r.2.
Proof.
  intros (Hs & Hc & Hcap). unfold poll, watches. rewrite Hs, Hc. cbn.
  by rewrite watch_cap.
Qed.

Lemma polls_watcher n w p sys cl b :
  watches cl b sys ->
  let r := watcher (answers_from (enabled_at w cl) p n) b (enabledCh (main sys)) in
  watches cl r.1 (polls n w p sys) /\ enabledCh (main (polls n w p sys)) = r.2.
Proof.
  cbn zeta. revert p sys b. induction n as [|n IH]; intros p sys b Hw; [done|].
  rewrite answers_from_S, watcher_cons. cbn [polls].
  destruct (poll_watch (heap_at w p) sys cl b Hw) as [Hw' Hch].
  fold (enabled_at w cl p) in Hw', Hch. rewrite watch_seen in Hw'.
  rewrite <- Hch. by apply IH.
Qed.

(** A wake-up in the channel stays there while the watcher polls. *)
Lemma poll_keeps_wake h sys :
  can_recv (enabledCh (main sys)) = true ->
  can_recv (enabledCh (main (poll h sys))) = true.
Proof.
  intros Hr. unfold poll.
  destruct (watcher_seen_ sys), (Controller.client (c (main sys))); try done.
  cbn. unfold watch, try_send, can_recv in *.
  destruct (negb _); [|done]. destruct (can_send _); [|done]. cbn.
  by destruct (buf (enabledCh (main sys))).
Qed.

Lemma polls_keep_wake n w p sys :
  can_recv (enabledCh (main sys)) = true ->
  can_recv (enabledCh (main (polls n w p sys))) = true.
Proof.
  revert p sys. induction n as [|n IH]; intros p sys Hr; [done|].
  by apply IH, poll_keeps_wake.
Qed.

(** If the poll number [k] of [n] is the first to find the other answer,
    the [n] polls leave a wake-up. *)
Lemma polls_wake n w p sys cl b k :
  watches cl b sys -> (k < n)%nat -> first_change w cl b p k ->
  can_recv (enabledCh (main (polls n w p sys))) = true.
Proof.
  intros Hw. revert n p.
  induction k as [|k IH]; intros [|n] p Hk Hc; try lia; cbn [polls].
  - by apply polls_keep_wake, (poll_changed _ _ cl b Hw), first_change_O.
  - apply first_change_S in Hc as [Hb Hc].
    rewrite (poll_unchanged _ _ cl b Hw) by done. apply IH; [lia | done].
Qed.

(** Polls that find the answer the watcher has seen change nothing. *)
Lemma polls_same n w p sys cl b :
  watches cl b sys ->
  (forall j, (j < n)%nat -> enabled_at w cl (p + Z.of_nat j * poll_period) = b) ->
  polls n w p sys = sys.
Proof.
  intros Hw. revert p. induction n as [|n IH]; intros p Hb; [done|].
  cbn [polls]. pose proof (Hb O ltac:(lia)) as Hp. rewrite Z.add_0_r in Hp.
  rewrite (poll_unchanged _ _ cl b Hw) by done.
  apply IH. intros j Hj. rewrite <- (Hb (S j)) by lia. f_equal. lia.
Qed.

(** The wait on an empty channel ends at the first poll that finds the
    other answer. *)
Lemma await_change n w p sys cl b k :
  watching cl b sys -> (k < n)%nat -> first_change w cl b p k ->
  (await n w p sys).1.1 = Some (p + Z.of_nat k * poll_period).
Proof.
  intros [Hw Hr]. revert n p.
  induction k as [|k IH]; intros [|n] p Hk Hc; try lia; cbn [await].
  - rewrite (poll_changed _ _ cl b Hw) by (by apply first_change_O).
    cbn. f_equal. lia.
  - apply first_change_S in Hc as [Hb Hc].
    rewrite (poll_unchanged _ _ cl b Hw), Hr by done.
    rewrite (IH n (p + poll_period)) by (done || lia). f_equal. lia.
Qed.

(** A [select] entered with a wake-up in the channel, or with no delay
    pending, does not wait. *)
Lemma select_at_pending w t p sys :
  can_recv (enabledCh (main sys)) = true -> (select_at w t p sys).1.1.1 = t.
Proof.
  intros Hr. unfold select_at. rewrite Hr. by destruct (_ <=? _).
Qed.

(** While the client answers what the watcher has seen, the polls change
    nothing and the [select] is left to its timer. *)
Lemma polls_quiet n w p sys cl b :
  watches cl b sys -> (forall u, enabled_at w cl u = b) -> polls n w p sys = sys.
Proof.
  intros Hw Hb. apply (polls_same _ _ _ _ cl b); auto.
Qed.

Lemma await_quiet n w p sys cl b :
  watching cl b sys -> (forall u, enabled_at w cl u = b) ->
  (await n w p sys).1 = (None, sys).
Proof.
  intros [Hw Hr] Hb. revert p. induction n as [|n IH]; intros p; [done|].
  cbn [await]. rewrite (poll_unchanged _ _ cl b Hw) by apply Hb.
  rewrite Hr. apply IH.
Qed.

Lemma select_at_quiet w t p sys cl b :
  watching cl b sys -> (forall u, enabled_at w cl u = b) ->
  0 < initialDelay (main sys) ->
  cancelled_by w (t + initialDelay (main sys)) = false ->
  (select_at w t p sys).1 = (t + initialDelay (main sys), WakeTimer, sys).
Proof.
  intros Hw Hb Hd Hc. unfold select_at.
  destruct (Z.leb_spec (initialDelay (main sys)) 0); [lia|].
  pose proof Hw as (_ & ->). rewrite deadline_timer, Hc by done.
  pose proof (await_quiet (count_polls p (t + initialDelay (main sys))) w p sys cl b
                Hw Hb) as Hq.
  destruct (await _ _ _ _) as [[o sys'] p']. cbn [fst] in Hq. by simplify_eq.
Qed.

(** With or without a delay pending: the timer of the [select], or none. *)
Lemma select_at_timer w t p sys cl b :
  watching cl b sys -> (forall u, enabled_at w cl u = b) ->
  cancelled_by w (t + Z.max 0 (initialDelay (main sys))) = false ->
  (select_at w t p sys).1 = (t + Z.max 0 (initialDelay (main sys)), WakeTimer, sys).
Proof.
  intros Hw Hb Hc. destruct (Z.le_gt_cases (initialDelay (main sys)) 0) as [Hd|Hd].
  - rewrite select_at_no_wait, Z.max_l, Z.add_0_r by done. done.
  - rewrite Z.max_r in * by lia. apply (select_at_quiet _ _ _ _ cl b); (done || lia).
Qed.

(** The [select] does not outlast the first poll that finds the other
    answer. *)
Lemma select_at_change w t p sys cl b k :
  watches cl b sys -> first_change w cl b p k ->
  (select_at w t p sys).1.1.1 <= Z.max t (p + Z.of_nat k * poll_period).
Proof.
  intros Hw Hk. unfold select_at. cbn zeta.
  destruct (Z.leb_spec (initialDelay (main sys)) 0); [cbn; lia|].
  destruct (can_recv (enabledCh (main sys))) eqn:Hr; [cbn; lia|].
  set (bd := deadline w t _). destruct (count_polls_spec p bd) as [Hn _].
  destruct (decide (k < count_polls p bd)%nat) as [Hlt|Hge].
  - pose proof (await_change _ w p sys cl b k (conj Hw Hr) Hlt Hk) as Ha.
    destruct (await _ w p sys) as [[o sys'] p']. cbn in Ha. subst o. cbn. lia.
  - pose proof (await_time (count_polls p bd) w p sys) as Ha.
    destruct (await _ w p sys) as [[[q|] sys'] p']; cbn [fst snd] in *;
      [destruct Ha as [? _]|]; clock_lia.
Qed.

Section Watcher.
Context (w : World Heap) (cl : insightsclient.Client Heap) (b : bool) (a : Time).
Hypothesis before : forall u, u < a -> enabled_at w cl u = b.
Hypothesis after : forall u, a <= u < a + poll_period -> enabled_at w cl u = negb b.

Lemma poll_same p sys : watching cl b sys -> p < a -> poll (heap_at w p) sys = sys.
Proof. intros [Hw _] Hp. apply (poll_unchanged _ _ cl b Hw), before, Hp. Qed.

Lemma poll_change p sys :
  watching cl b sys -> a <= p < a + poll_period ->
  can_recv (enabledCh (main (poll (heap_at w p) sys))) = true.
Proof. intros [Hw _] Hp. apply (poll_changed _ _ cl b Hw), after, Hp. Qed.

Lemma await_wakes n p sys :
  watching cl b sys -> p < a + poll_period ->
  a + poll_period <= p + Z.of_nat n * poll_period ->
  exists q, (await n w p sys).1.1 = Some q /\ a <= q < a + poll_period.
Proof.
  revert p. induction n as [|n IH]; intros p Hw Hp Hn; [lia|].
  cbn [await]. destruct (Z.lt_ge_cases p a) as [Hlt|Hge].
  - rewrite poll_same by done. pose proof Hw as (_ & ->).
    apply IH; [done | clock_lia..].
  - rewrite poll_change by (done || lia). exists p. cbn. split; [done|lia].
Qed.

Lemma select_at_wakes t p sys :
  watching cl b sys -> 0 < initialDelay (main sys) ->
  p < a + poll_period -> a + poll_period <= deadline w t (initialDelay (main sys)) ->
  exists q, (select_at w t p sys).1.1 = (q, WakeEnabled)
            /\ a <= q < a + poll_period.
Proof.
  intros Hw Hd Hp Ha. unfold select_at.
  destruct (Z.leb_spec (initialDelay (main sys)) 0); [lia|].
  pose proof Hw as (_ & ->).
  set (bd := deadline w t _) in *.
  destruct (await_wakes (count_polls p bd) p sys Hw Hp) as (q & Hq & ?).
  { destruct (count_polls_spec p bd). lia. }
  destruct (await _ w p sys) as [[o sys'] p']. cbn in Hq. subst o.
  by exists q.
Qed.

End Watcher.

(** ** The theorems *)

(** C8: a change of the enabled state that lasts a poll period wakes the
    loop within a poll period: when the client answers [b] before [a] and
    the opposite from [a] on, no poll is overdue and the timer of the
    [select] does not fire before [a + 2min], the closure leaves its
    [select] by the channel at a time in [[a, a + 2min)]. *)
Theorem wake_within_poll_period w ts cl b a :
  (forall u, u < a -> enabled_at w cl u = b) ->
  (forall u, a <= u < a + poll_period -> enabled_at w cl u = negb b) ->
  head_ok w ts -> stopped (sys ts) = false -> cancelled_by w (head ts) = false ->
  watching cl b (sys ts) -> 0 < initialDelay (main (sys ts)) ->
  head ts <= next_poll ts < a + poll_period ->
  a + poll_period <= deadline w (head ts) (initialDelay (main (sys ts))) ->
  exists q, started (iteration w ts) = (q, WakeEnabled) :: started ts
            /\ a <= q < a + poll_period.
Proof.
  intros Hb Ha Hok Hs Hc Hw Hd [Hp Hp'] Hdl.
  destruct (iteration_calls w ts Hok Hs Hc) as (t & k & sys1 & Hsel & _ & _ & _ & ->).
  rewrite catch_up_id in Hsel by done. cbn [fst snd] in Hsel.
  destruct (select_at_wakes w cl b a Hb Ha (head ts) (next_poll ts) (sys ts))
    as (q & Hq & ?); [done..|].
  exists q. rewrite Hsel in Hq. cbn in Hq. by simplify_eq.
Qed.

(** C28: the wait of the loop does not outlast the first poll of the
    watcher that finds the enabled state changed: wherever the loop is when
    the watcher has seen [b], in its [select], in a cycle or in the period
    after it, if the poll number [k] from the next is the first to find
    the other answer, the next call of the closure starts no later than
    that poll, or at the next test of the stop channel if that is later;
    and the closure asks the client again as it starts. *)
Theorem change_bounds_wait w ts cl b k :
  head_ok w ts -> stopped (sys ts) = false -> cancelled_by w (head ts) = false ->
  watches cl b (sys ts) -> first_change w cl b (next_poll ts) k ->
  exists t pick,
    started (iteration w ts) = (t, pick) :: started ts
    /\ head ts <= t <= Z.max (head ts) (next_poll ts + Z.of_nat k * poll_period).
Proof.
  intros Hok Hs Hc Hw Hk.
  destruct (iteration_calls w ts Hok Hs Hc) as (t & pick & sys1 & Hcl).
  destruct (closure_window w ts t pick sys1 Hc Hcl) as [[Ht _] _].
  destruct Hcl as (Hsel & _ & _ & _ & ->). exists t, pick. do 2 (split; [done|]).
  apply (f_equal (fun x => x.1.1)) in Hsel. cbn in Hsel. rewrite <- Hsel.
  unfold catch_up. set (n := count_polls (next_poll ts) (head ts)). cbn [fst snd].
  destruct (decide (k < n)%nat) as [Hlt|Hge].
  - rewrite select_at_pending; [lia|]. by apply (polls_wake _ _ _ _ cl b k).
  - replace k with (n + (k - n))%nat in Hk by lia.
    apply first_change_add in Hk as [Hb Hk].
    rewrite (polls_same _ _ _ _ cl b Hw Hb).
    etrans; [apply (select_at_change _ _ _ _ cl b (k - n) Hw Hk)|]. clock_lia.
Qed.

(** While the enabled state does not change and nobody cancels, the
    [select] of the closure ends by its timer: the cycle starts exactly the
    pending delay after the test of the stop channel, neither earlier nor
    later. *)
Theorem timer_ends_quiet_wait w ts cl b :
  (forall u, enabled_at w cl u = b) ->
  head_ok w ts -> stopped (sys ts) = false -> cancelled_by w (head ts) = false ->
  watching cl b (sys ts) -> 0 < initialDelay (main (sys ts)) ->
  cancelled_by w (head ts + initialDelay (main (sys ts))) = false ->
  started (iteration w ts)
  = (head ts + initialDelay (main (sys ts)), WakeTimer) :: started ts.
Proof.
  intros Hb Hok Hs Hc Hw Hd Hc'.
  destruct (iteration_calls w ts Hok Hs Hc) as (t & k & sys1 & Hsel & _ & _ & _ & ->).
  revert Hsel. unfold catch_up.
  rewrite (polls_quiet _ _ _ _ cl b) by (done || apply Hw). cbn [fst snd].
  rewrite (select_at_quiet _ _ _ _ cl b) by done. by intros [= <- <- <-].
Qed.

End Polls.

(** ** The theorems at the runs of [Scenario] *)

Lemma switching_before u :
  u < switch_time -> enabled_at switching script_client u = true.
Proof. intros Hu. unfold enabled_at. cbn. by destruct (Z.ltb_spec u switch_time); [|lia]. Qed.

Lemma switching_after u :
  switch_time <= u < switch_time + poll_period ->
  enabled_at switching script_client u = negb true.
Proof. intros Hu. unfold enabled_at. cbn. by destruct (Z.ltb_spec u switch_time); [lia|]. Qed.

Lemma wake_within_poll_period_witness :
  exists q, started (iteration switching ts0) = [(q, WakeEnabled)]
            /\ switch_time <= q < switch_time + poll_period.
Proof.
  apply (wake_within_poll_period switching ts0 script_client true switch_time);
    [apply switching_before | apply switching_after | apply ts0_ok
    | done | done | apply ts0_watching | by vm_compute | by vm_compute
    | by vm_compute].
Defined.

Lemma slow_change : first_change slow script_client true (next_poll ts1) 0.
Proof. split; [lia | by vm_compute]. Qed.

Lemma change_bounds_wait_witness :
  exists t pick,
    started (iteration slow ts1) = (t, pick) :: started ts1
    /\ head ts1 <= t <= Z.max (head ts1) (next_poll ts1 + Z.of_nat 0 * poll_period).
Proof.
  apply (change_bounds_wait slow ts1 script_client true 0);
    [intros Hd; by vm_compute in Hd | by vm_compute | done
    | repeat split; vm_compute; (done || lia) | apply slow_change].
Defined.

Lemma timer_ends_quiet_wait_witness :
  started (iteration failing ts0)
  = (head ts0 + initialDelay (main (sys ts0)), WakeTimer) :: started ts0.
Proof.
  apply (timer_ends_quiet_wait failing ts0 script_client true);
    [done | apply ts0_ok | done | done | apply ts0_watching | by vm_compute | done].
Defined.
