(* ===== verification/Rate.v ===== *)
(** * Rate: how often the cycles run, and how late the loop returns

    [wait.Until] sets its timer of fifteen seconds when the closure
    returns (line 185 of insightsuploader.go), so two calls of the closure
    are never closer than the time of the first and that period, whatever
    delay the closure computes and whatever wakes its [select].  This file
    states the pace of the loop on the clock of [Clock]:

    - a lower bound that always holds: the cycles of a run are at least a
      period apart, hence at most one more than [d / 15 s], rounded up,
      start in any window of length [d];
    - the case in which the lower bound is all there is: when the
      configured interval is not positive and the client suggests none,
      every delay the closure computes is at most zero and a cycle starts
      each time the timer of [wait.Until] fires;
    - the time at which [Run] returns: no earlier than the cancellation
      and no later than the longest cycle after it, because the [select]
      that sees the context done is followed by the rest of the closure. *)

From Stdlib Require Import QArith Sorted.
From stdpp Require Import base tactics strings list sorting.
From S2P Require Import Prelude Timing Status Channel DryRun Uploader Scenario.
From S2P Require Import CycleSpec Startup Restart RunLoop Clock Timed.

#[local] Open Scope Z_scope.

Section Rate.
Context `{Errors} `{TimeFormat} `{Jitterer} {Heap R : Type} `{StatusReporter R}.
Implicit Types (sys : Sys Heap R) (t u p : Time) (n : nat) (w : World Heap).
Implicit Types (ts : TSys Heap R) (e : StartEnv (Heap := Heap)).

(** The times at which the cycles left their [select], the latest first. *)
Definition starts ts : list Time := (started ts).*1.

(** [u] is no earlier than a period after the cycle that started at [t]
    returned. *)
Definition follows w u t : Prop := t + busy w t + period_Until <= u.

(** [u] is the instant at which the timer set after the cycle of [t]
    fires. *)
Definition at_once w u t : Prop := u = t + busy w t + period_Until.

(** The cycles so far keep the distance [rel], and so does the next test
    of the stop channel unless it finds the context done. *)
Definition paced (rel : relation Time) w ts : Prop :=
  Sorted rel (starts ts)
  /\ (cancelled_by w (head ts) = false -> HdRel rel (head ts) (starts ts)).

(** The cycles that started in [[a, b)]. *)
Definition starts_in (a b : Time) ts : list Time :=
  filter (fun t => a <= t < b) (starts ts).

(** The most cycles that fit in a window of length [d]: [d / 15 s],
    rounded up. *)
Definition max_starts (d : Duration) : Z := (d + period_Until - 1) / period_Until.

(** Neither the configuration nor the client gives the loop a positive
    interval. *)
Definition no_interval w (cfg : Config Heap) : Prop :=
  cfg_interval cfg <= 0
  /\ forall cl t, cfg_client cfg = Some cl ->
       (insightsclient.Enabled cl (heap_at w t)).1.2 <= 0.

(** The loop has nothing to wait for: no interval and no delay pending. *)
Definition restless w sys : Prop :=
  no_interval w (config_of (c (main sys)))
  /\ interval (main sys) <= 0 /\ initialDelay (main sys) <= 0.

(** No test of the stop channel is later than [B] after [stop], and the
    loop returned at a test no earlier than [stop]. *)
Definition timely (stop : Time) (B : Duration) ts : Prop :=
  head ts <= stop + B /\ (stopped (sys ts) = true -> stop <= head ts).

End Rate.

(** ** A controller without an interval *)

(** [New] with an interval of zero, and [Run] of it as it enters
    [wait.Until] at time 100. *)
Definition unset : Controller.t Script Time :=
  New script_summarizer (Some script_client) 0 0.

Definition ts_unset : TSys Script Time :=
  mkTSys (mkSys (startup start_env (Run_vars unset)).2 (Some true) false false)
         100 100 [].

(** ** The distance between two cycles *)

Section Pace.
Context `{Errors} `{TimeFormat} `{Jitterer} {Heap R : Type} `{StatusReporter R}.
Context (w : World Heap) (Hw : world_ok w).
Implicit Types (sys : Sys Heap R) (t u p : Time) (n : nat) (ts : TSys Heap R).

#[local] Instance follows_trans : Transitive (follows w).
Proof.
  intros u t v Hu Ht. unfold follows in *.
  pose proof (Hw t). clock_lia.
Qed.

Lemma follows_later u u' (l : list Time) :
  u <= u' -> HdRel (follows w) u l -> HdRel (follows w) u' l.
Proof. intros Hu. destruct 1; constructor. unfold follows in *. lia. Qed.

(** An iteration keeps the pace [rel] if the timer of [wait.Until] does
    and the [select] of the closure does. *)
Lemma iteration_paced (rel : relation Time) ts :
  (forall t, rel (t + busy w t + period_Until) t) ->
  (forall t pick sys1,
     calls_closure w ts t pick sys1 -> cancelled_by w (head ts) = false ->
     HdRel rel (head ts) (starts ts) -> HdRel rel t (starts ts)) ->
  head_ok w ts -> paced rel w ts -> paced rel w (iteration w ts).
Proof.
  intros Hrel Hsel Hok [Hs Hh]. unfold paced, starts.
  destruct (iteration_cases w ts Hok)
    as [(_ & _ & -> & ->)|[(_ & _ & _ & -> & ->)
                          |(_ & Hc & t & k & sys1 & Hcl)]]; [done..|].
  pose proof (Hsel t k sys1 Hcl Hc (Hh Hc)) as Ht.
  destruct Hcl as (_ & _ & _ & -> & ->). cbn. split; [by constructor|].
  intros ->%next_head_rest. by constructor.
Qed.

Lemma iteration_follows ts :
  head_ok w ts -> paced (follows w) w ts -> paced (follows w) w (iteration w ts).
Proof.
  intros Hok. apply iteration_paced; [intros t; unfold follows; lia | | done].
  intros t k sys1 Hcl Hc. apply follows_later.
  by destruct (closure_window w ts t k sys1 Hc Hcl) as [[? _] _].
Qed.

Lemma timed_run_follows n ts :
  head_ok w ts -> started ts = [] -> Sorted (follows w) (starts (timed_run n w ts)).
Proof.
  intros Hok Hnil.
  apply (timed_run_keeps (paced (follows w) w) w Hw iteration_follows n ts Hok).
  unfold paced, starts. rewrite Hnil. by split; constructor.
Qed.

(** Cycles a period apart that all start in [[a, b)]: each but the last
    takes a period of the window. *)
Lemma spaced_span (l : list Time) a :
  StronglySorted (follows w) l ->
  forall b, Forall (fun t => a <= t < b) l ->
    l = [] \/ Z.of_nat (length l) * period_Until < b - a + period_Until.
Proof.
  induction 1 as [|x l _ IH Hx]; intros b Hl; [by left|]. right.
  apply Forall_cons in Hl as [Hxb Hl].
  destruct (IH (x - period_Until + 1)) as [->|Hn]; [|cbn; lia|cbn [length]; lia].
  rewrite Forall_forall in *. intros t Ht. specialize (Hx t Ht).
  specialize (Hl t Ht). unfold follows in Hx. pose proof (Hw t). lia.
Qed.

Lemma starts_in_span n ts a b :
  head_ok w ts -> started ts = [] ->
  starts_in a b (timed_run n w ts) = []
  \/ Z.of_nat (length (starts_in a b (timed_run n w ts))) * period_Until
     < b - a + period_Until.
Proof.
  intros Hok Hnil. unfold starts_in. apply spaced_span.
  - apply StronglySorted_filter, Sorted_StronglySorted;
      [apply follows_trans | by apply timed_run_follows].
  - apply Forall_forall. by intros t [? _]%list_elem_of_filter.
Qed.

End Pace.

(** ** A loop without an interval *)

Section Flood.
Context `{Errors} `{TimeFormat} `{Jitterer} {Heap R : Type} `{StatusReporter R}.
Context `{!Durable R}.
Context (w : World Heap) (Hr : forall t, is_sample (draw w t)).
Implicit Types (sys : Sys Heap R) (t u p : Time) (n : nat) (ts : TSys Heap R).
Implicit Types (e : StartEnv (Heap := Heap)).

(** Without a positive interval every path of the closure leaves a delay
    of at most zero. *)
Lemma step_no_interval (env : Env Heap) (s : State Heap R) :
  is_sample (rnd env) -> cfg_interval (config_of (c s)) <= 0 ->
  (forall cl, Controller.client (c s) = Some cl ->
     (insightsclient.Enabled cl (heap env)).1.2 <= 0) ->
  interval s <= 0 ->
  interval (step env s) <= 0 /\ initialDelay (step env s) <= 0.
Proof.
  intros Hs Hc Hcl Hi.
  assert (interval (step env s) <= 0) as Hi'.
  { destruct (step_sim env s) as [Ha _]. apply (f_equal period) in Ha.
    rewrite spec_step_period in Ha. cbn in Ha. rewrite Ha.
    unfold spec_period, enabled_answer. cbn.
    destruct (Controller.client (c s)) as [cl|]; cbn; [|done].
    specialize (Hcl cl eq_refl).
    destruct (insightsclient.Enabled cl (heap env)) as [[? n] ?]. cbn in *.
    by destruct (Z.ltb_spec 0 n); [lia|]. }
  split; [done|]. rewrite step_delay. cbn zeta.
  pose proof (quot8_nonpos _ Hi').
  destruct (path _ _ _); unfold waited; try case_match; try lia;
    match goal with |- context [jitter ?d ?f ?r] =>
      pose proof (jitter_nonpos d f r ltac:(done) Hs) end; lia.
Qed.

Lemma polled_restless sys sys' : polled sys sys' -> restless w sys -> restless w sys'.
Proof.
  intros Hp. destruct (polled_abs _ _ Hp) as (Ha & Hc & _ & Hd).
  pose proof (f_equal period Ha) as Hi. cbn in Hi.
  unfold restless. by rewrite Hc, Hd, Hi.
Qed.

Lemma restless_calls ts t pick sys1 :
  restless w (sys ts) -> calls_closure w ts t pick sys1 ->
  t = head ts /\ pick = WakeTimer.
Proof.
  intros Hrl (Hsel & _).
  apply (polled_restless _ _ (catch_up_polled w ts)) in Hrl as (_ & _ & Hd).
  rewrite select_at_no_wait in Hsel by done. by simplify_eq/=.
Qed.

Lemma iteration_restless ts :
  head_ok w ts -> restless w (sys ts) -> restless w (sys (iteration w ts)).
Proof.
  intros Hok Hrl.
  destruct (iteration_cases w ts Hok)
    as [(_ & -> & _)|[(_ & _ & -> & _)|(_ & _ & t & k & sys1 & Hcl)]].
  1,2: by apply (polled_restless _ _ (catch_up_polled w ts)) in Hrl.
  destruct Hcl as (_ & Hp & -> & _).
  apply (polled_restless _ _ Hp) in Hrl as ([Hc Hcl] & Hi & _).
  unfold restless, no_interval. cbn [main].
  destruct (step_sim (env_at_time w t k) (main sys1)) as [_ ->].
  split; [done|]. apply step_no_interval; [apply Hr | done | | done].
  intros cl Hcl'. by apply Hcl.
Qed.

Lemma iteration_at_once ts :
  head_ok w ts ->
  restless w (sys ts) /\ paced (at_once w) w ts ->
  restless w (sys (iteration w ts)) /\ paced (at_once w) w (iteration w ts).
Proof.
  intros Hok [Hrl Hp]. split; [by apply iteration_restless|].
  apply iteration_paced; [done | | done | done].
  by intros t k sys1 [-> _]%restless_calls.
Qed.

(** [Run] of a controller without an interval enters the loop with
    nothing to wait for. *)
Lemma start_restless e c0 ts :
  timed_start e c0 = Some ts -> is_sample (rnd0 e) -> is_sample (rnd1 e) ->
  no_interval w (config_of c0) ->
  (forall cl, Controller.client c0 = Some cl ->
     (insightsclient.Enabled cl (heap0 e)).1.2 <= 0) ->
  restless w (sys ts).
Proof.
  intros (Hs & _)%(timed_start_inv e c0 w) Hr0 Hr1 Hn Hcl.
  destruct (start_inv e c0 _ Hs) as (_ & _ & _ & _ & Hcfg).
  unfold restless. rewrite (start_main e c0 _ Hs) in *.
  destruct (startup_vars e (Run_vars c0)) as (_ & Hd & _).
  assert (interval (startup e (Run_vars c0)).2 <= 0) as Hi.
  { rewrite startup_interval. cbn. destruct Hn as [Hn _].
    destruct (Controller.client c0) as [cl|]; [|done]. cbn zeta.
    specialize (Hcl cl eq_refl).
    by destruct (Z.ltb_spec 0 (insightsclient.Enabled cl (heap0 e)).1.2); [lia|]. }
  rewrite Hcfg, Hd. auto using start_delay_nonpos.
Qed.

End Flood.

(** ** The time at which the loop returns *)

Section Shutdown.
Context `{Errors} `{TimeFormat} `{Jitterer} {Heap R : Type} `{StatusReporter R}.
Context (w : World Heap) (stop : Time) (B : Duration).
Context (Hw : world_ok w) (Hb : forall t, busy w t <= B).
Context (Hca : cancel_at w = Some stop).
Implicit Types (sys : Sys Heap R) (t u p : Time) (n : nat) (ts : TSys Heap R).

Lemma iteration_timely ts :
  head_ok w ts -> timely stop B ts -> timely stop B (iteration w ts).
Proof.
  intros Hok [Hh Hs]. unfold timely.
  destruct (iteration_cases w ts Hok)
    as [(_ & -> & -> & _)|[(_ & Hc & -> & -> & _)
                          |(_ & Hc & t & k & sys1 & Hcl)]].
  - by destruct (polled_flags _ _ (catch_up_polled w ts)) as (_ & -> & _).
  - split; [done|]. intros _. unfold cancelled_by in Hc. rewrite Hca in Hc.
    by apply Z.leb_le.
  - destruct Hcl as (Hsel & _ & -> & -> & _). cbn. split; [|done].
    pose proof (select_at_by_stop w (head ts) _ (catch_up w ts).1 stop Hca Hc
                  (catch_up_next_poll w ts)) as Ht.
    rewrite Hsel in Ht. cbn in Ht. pose proof (Hw t). pose proof (Hb t).
    unfold next_head. rewrite Hca.
    destruct (Z.leb_spec stop (t + busy w t + period_Until)); clock_lia.
Qed.

Lemma timed_run_timely n ts :
  head_ok w ts -> stopped (sys ts) = false -> head ts <= stop + B ->
  timely stop B (timed_run n w ts).
Proof.
  intros Hok Hs Hh.
  apply (timed_run_keeps (timely stop B) w Hw iteration_timely n ts Hok).
  split; [done | congruence].
Qed.

End Shutdown.

(** ** The theorems *)

Section Theorems.
Context `{Errors} `{TimeFormat} `{Jitterer} {Heap R : Type} `{StatusReporter R}.
Implicit Types (w : World Heap) (ts : TSys Heap R) (e : StartEnv (Heap := Heap)).

(** C17: two cycles of a run are never closer than the time the first takes
    and the period of [wait.Until]: a cycle starts at least fifteen
    seconds after the one before it returned, whatever delay that one
    computed and whatever ended the [select]. *)
Theorem cycles_apart w ts n i u t :
  world_ok w -> head_ok w ts -> started ts = [] ->
  starts (timed_run n w ts) !! i = Some u ->
  starts (timed_run n w ts) !! S i = Some t ->
  t + busy w t + period_Until <= u.
Proof.
  intros Hw Hok Hnil. apply (Sorted_lookup_S (follows w)).
  by apply timed_run_follows.
Qed.

(** C16: the rate of the cycles is bounded: in a window of length [d] at
    most [d / 15 s], rounded up, cycles start, whatever the collaborators
    answer and however often the watcher wakes the loop. *)
Theorem cycles_in_window w ts n a b :
  world_ok w -> head_ok w ts -> started ts = [] -> a <= b ->
  Z.of_nat (length (starts_in a b (timed_run n w ts))) <= max_starts (b - a).
Proof.
  intros Hw Hok Hnil Hab. unfold max_starts.
  destruct (starts_in_span w Hw n ts a b Hok Hnil) as [->|Hn].
  - cbn. apply Z.div_pos; clock_lia.
  - apply Z.div_le_lower_bound; clock_lia.
Qed.

(** C7: [Run] returns in time: once the context is cancelled at [stop],
    and if no cycle takes longer than [B], the loop of [wait.Until]
    returns at a test of the stop channel that is no earlier than [stop]
    and no later than [stop + B]; the lateness is the cycle that the
    [select] starts when it sees the context done. *)
Theorem Run_returns_by w ts stop B n m :
  world_ok w -> (forall t, busy w t <= B) -> cancel_at w = Some stop ->
  head_ok w ts -> stopped (sys ts) = false -> head ts <= stop + B ->
  stop - head ts <= Z.of_nat n * period_Until -> (n < m)%nat ->
  stopped (sys (timed_run m w ts)) = true
  /\ stop <= head (timed_run m w ts) <= stop + B.
Proof.
  intros Hw Hb Hca Hok Hs Hh Hn Hm.
  pose proof (returns_after n m w ts stop Hw Hca Hok Hn Hm) as Hst.
  destruct (timed_run_timely w stop B Hw Hb Hca m ts Hok Hs Hh) as [? Hlo].
  auto.
Qed.

(** C22: a controller made with an interval that is not positive, whose
    client suggests none, reports without pause: every delay the closure
    computes is at most zero, so each cycle starts the instant the timer
    of [wait.Until] fires, fifteen seconds after the one before it
    returned, and its [select] is never entered. *)
Theorem no_interval_no_pause `{!Durable R} e c0 w ts n i u t :
  world_ok w -> (forall t, is_sample (draw w t)) ->
  is_sample (rnd0 e) -> is_sample (rnd1 e) ->
  timed_start e c0 = Some ts -> no_interval w (config_of c0) ->
  (forall cl, Controller.client c0 = Some cl ->
     (insightsclient.Enabled cl (heap0 e)).1.2 <= 0) ->
  starts (timed_run n w ts) !! i = Some u ->
  starts (timed_run n w ts) !! S i = Some t ->
  u = t + busy w t + period_Until.
Proof.
  intros Hw Hr Hr0 Hr1 Hst Hn Hcl.
  pose proof (start_restless w e c0 ts Hst Hr0 Hr1 Hn Hcl) as Hrl.
  destruct (timed_start_inv e c0 w ts Hst) as (_ & Hok & Hnil & _).
  apply (Sorted_lookup_S (at_once w)).
  apply (timed_run_keeps _ w Hw (iteration_at_once w Hr) n ts Hok).
  split; [done|]. unfold paced, starts. rewrite Hnil. by split; constructor.
Qed.

End Theorems.

(** ** The theorems at the runs of [Scenario] *)

Lemma steady_samples t : is_sample (draw steady t).
Proof. apply sample_half. Qed.

Lemma cycles_apart_witness :
  first_timer + busy steady first_timer + period_Until
  <= first_timer + 976 * time.Second.
Proof.
  by apply (cycles_apart steady ts0 2 0 _ _ steady_ok (ts0_ok steady) eq_refl).
Defined.

Lemma cycles_in_window_witness :
  Z.of_nat (length (starts_in 100 (100 + time.Minute) (timed_run 9 failing ts_unset)))
  <= max_starts (100 + time.Minute - 100).
Proof.
  apply (cycles_in_window failing ts_unset 9 100 (100 + time.Minute) failing_ok);
    [by intros Hd | done | by vm_compute].
Defined.

Lemma Run_returns_by_witness :
  stopped (sys (timed_run 21 switching ts0)) = true
  /\ stop_time <= head (timed_run 21 switching ts0) <= stop_time + time.Second.
Proof.
  apply (Run_returns_by switching ts0 stop_time time.Second 20 21 switching_ok);
    [by intros t | done | apply ts0_ok | done | by vm_compute | by vm_compute | lia].
Defined.

Lemma ts_unset_start : timed_start start_env unset = Some ts_unset.
Proof. by vm_compute. Qed.

Lemma steady_no_interval : no_interval steady (config_of unset).
Proof. split; [done|]. by intros cl t [= <-]. Qed.

Lemma no_interval_no_pause_witness :
  100 + 16 * time.Second = 100 + busy steady 100 + period_Until.
Proof.
  apply (no_interval_no_pause start_env unset steady ts_unset 2 0 _ _ steady_ok
           steady_samples sample_half sample_half ts_unset_start steady_no_interval);
    [by intros cl [= <-] | by vm_compute | by vm_compute].
Defined.

(** Without an interval the controller uploads four times a minute: the
    uploads of the first minute of [ts_unset] start at 100, 116, 132 and
    148 seconds, each a second of upload and a period after the one
    before. *)
Example unset_uploads :
  starts_in 100 (100 + time.Minute) (timed_run 9 steady ts_unset)
  = [100 + 48 * time.Second; 100 + 32 * time.Second; 100 + 16 * time.Second; 100].
Proof. by vm_compute. Qed.
