(* ===== verification/Cadence.v ===== *)
(** * Cadence: the period of the reports

    After an upload or a dry run the closure sets [initialDelay] to
    [wait.Jitter(interval, 1.2)] (line 184 of insightsuploader.go), returns,
    [wait.Until] waits its fifteen seconds (line 185) and calls the closure
    again, which waits for [initialDelay] in its [select] (line 97).  While
    the enabled state does not change nothing else ends that [select], so
    the next report starts after the time the cycle took, the period of
    [wait.Until] and the jittered interval: the period of the reports is
    longer than the interval by the first two. *)

From Stdlib Require Import QArith.
From stdpp Require Import base tactics strings list.
From S2P Require Import Prelude Timing Status Channel DryRun Uploader Scenario.
From S2P Require Import CycleSpec Startup Restart RunLoop Clock Timed Wakeup.

#[local] Open Scope Z_scope.

Section Paths.
Context `{Errors}.

(** The paths of the closure that reach its last statement,
    [initialDelay = wait.Jitter(interval, 1.2)]. *)
Definition reports (p : Path) : bool :=
  match p with Uploaded | DryRun _ _ => true | _ => false end.

End Paths.

(** ** While the enabled state does not change *)

Section Quiet.
Context `{Errors} `{TimeFormat} `{Jitterer} {Heap R : Type} `{StatusReporter R}.
Context `{!Durable R}.
Context (w : World Heap) (cl : insightsclient.Client Heap) (b : bool).
Hypothesis quiet : forall u, enabled_at w cl u = b.
Implicit Types (sys : Sys Heap R) (t p : Time) (n : nat) (ts : TSys Heap R).

(** The polls during the [select] leave the system as it is. *)
Lemma select_at_keeps t p sys : watching cl b sys -> (select_at w t p sys).1.2 = sys.
Proof.
  intros Hw. unfold select_at. destruct (_ <=? _); [done|].
  pose proof Hw as (_ & ->).
  pose proof (await_quiet (count_polls p (deadline w t (initialDelay (main sys))))
                w p sys cl b Hw quiet) as Hq.
  destruct (await _ _ _ _) as [[o sys'] p']. cbn in Hq. by simplify_eq.
Qed.

(** A cycle leaves the channel empty and the watcher where it was. *)
Lemma step_watching (env : Env Heap) sys d st :
  watching cl b sys ->
  watching cl b (mkSys (step env (main sys)) (watcher_seen_ sys) d st).
Proof.
  intros ((Hs & Hc & Hcap) & Hr). destruct (step_sim env (main sys)) as [_ Hcfg].
  apply (f_equal cfg_client) in Hcfg. cbn in Hcfg.
  unfold watching, watches. cbn [main watcher_seen_].
  rewrite step_channel, Hcfg. unfold can_recv in *.
  by destruct (woke _ _), (buf (enabledCh (main sys))).
Qed.

Lemma iteration_watching ts :
  head_ok w ts -> watching cl b (sys ts) -> watching cl b (sys (iteration w ts)).
Proof.
  intros Hok Hw.
  assert ((catch_up w ts).1 = sys ts) as Hcu
    by (apply (polls_quiet _ _ _ _ cl b); [apply Hw | done]).
  destruct (iteration_cases w ts Hok)
    as [(_ & -> & _)|[(_ & _ & -> & _)|(_ & _ & t & k & sys1 & Hcl)]].
  - by rewrite Hcu.
  - by rewrite Hcu.
  - destruct Hcl as (Hsel & _ & -> & _). apply (f_equal snd) in Hsel.
    cbn [snd] in Hsel. rewrite Hcu, select_at_keeps in Hsel by done. subst sys1.
    by apply step_watching.
Qed.

(** The call that follows a call at [t]: after the time of the cycle, the
    period of [wait.Until] and the delay the cycle left, by the timer. *)
Lemma next_cycle_after ts t pick :
  world_ok w -> head_ok w ts ->
  stopped (sys ts) = false -> cancelled_by w (head ts) = false ->
  watching cl b (sys ts) ->
  started (iteration w ts) = (t, pick) :: started ts ->
  let d := Z.max 0 (initialDelay (main (sys (iteration w ts)))) in
  cancelled_by w (t + busy w t + period_Until + d) = false ->
  started (iteration w (iteration w ts))
  = (t + busy w t + period_Until + d, WakeTimer) :: (t, pick) :: started ts.
Proof.
  intros Hwo Hok Hs Hc Hw Hst d Hc'.
  pose proof (iteration_watching ts Hok Hw) as Hw'.
  destruct (iteration_calls w ts Hok Hs Hc)
    as (t' & k & sys1 & _ & _ & Hsys & Hh & Hst').
  rewrite Hst' in Hst. simplify_eq.
  assert (cancelled_by w (t + busy w t + period_Until) = false) as Hc1
    by (apply (cancelled_by_mono w _ (t + busy w t + period_Until + d));
        [unfold d; lia | done]).
  rewrite next_head_period in Hh by done.
  destruct (iteration_calls w (iteration w ts))
    as (t2 & k2 & sys2 & Hsel & _ & _ & _ & ->);
    [by apply iteration_head_ok | by rewrite Hsys | by rewrite Hh |].
  unfold catch_up in Hsel.
  rewrite (polls_quiet _ _ _ _ cl b), Hh in Hsel by (done || apply Hw').
  cbn [fst snd] in Hsel.
  rewrite (select_at_timer _ _ _ _ cl b) in Hsel by done.
  simplify_eq. by rewrite Hst'.
Qed.

(** Without a cancellation every [select] is left by its timer. *)
Lemma iteration_by_timer ts :
  cancel_at w = None -> head_ok w ts ->
  watching cl b (sys ts) /\ Forall (fun x => x.2 = WakeTimer) (started ts) ->
  watching cl b (sys (iteration w ts))
  /\ Forall (fun x => x.2 = WakeTimer) (started (iteration w ts)).
Proof.
  intros Hca Hok [Hw Hf]. split; [by apply iteration_watching|].
  destruct (iteration_cases w ts Hok)
    as [(_ & _ & _ & ->)|[(_ & _ & _ & _ & ->)|(_ & _ & t & k & sys1 & Hcl)]];
    [done..|].
  destruct Hcl as (Hsel & _ & _ & _ & ->). constructor; [|done]. cbn.
  unfold catch_up in Hsel.
  rewrite (polls_quiet _ _ _ _ cl b) in Hsel by (done || apply Hw).
  cbn [fst snd] in Hsel.
  rewrite (select_at_timer _ _ _ _ cl b) in Hsel;
    [by simplify_eq | done | done | by unfold cancelled_by; rewrite Hca].
Qed.

End Quiet.

(** ** The theorems *)

Section Theorems.
Context `{Errors} `{TimeFormat} `{Jitterer} {Heap R : Type} `{StatusReporter R}.
Context `{!Durable R}.
Implicit Types (w : World Heap) (ts : TSys Heap R).

(** C14: the period of the reports: while the enabled state does not
    change, the call of the closure that follows an upload or a dry run
    starts after the time the cycle took, the fifteen seconds of
    [wait.Until] and the delay [wait.Jitter(interval, 1.2)], by the timer
    of its [select] and by nothing else; the delay is at least the
    interval and at most the interval times one plus the width of the
    jitter. *)
Theorem upload_cadence w cl b ts t pick :
  world_ok w -> (forall u, enabled_at w cl u = b) ->
  head_ok w ts -> stopped (sys ts) = false -> cancelled_by w (head ts) = false ->
  watching cl b (sys ts) -> is_sample (draw w t) ->
  started (iteration w ts) = (t, pick) :: started ts ->
  reports (path (config_of (c (main (sys ts)))) (env_at_time w t pick)
                (abs (main (sys ts)))) = true ->
  let i := interval (main (sys (iteration w ts))) in
  let d := jitter i 1.2 (draw w t) in
  0 < i -> cancelled_by w (t + busy w t + period_Until + d) = false ->
  started (iteration w (iteration w ts))
  = (t + busy w t + period_Until + d, WakeTimer) :: (t, pick) :: started ts
  /\ i <= d /\ (inject_Z d <= inject_Z i * (1 + width 1.2))%Q.
Proof.
  intros Hw Hq Hok Hs Hc Hwa Hr Hst Hp i d Hi Hc'.
  pose proof (iteration_delay w ts t pick Hok Hs Hc Hst) as Hd. cbn zeta in Hd.
  assert (initialDelay (main (sys (iteration w ts))) = d) as Hd'
    by (rewrite Hd; by destruct (path _ _ _)).
  pose proof (jitter_ge i 1.2%Q (draw w t) ltac:(lia) Hr) as Hge. fold d in Hge.
  split; [|split; [done | apply jitter_le; (done || lia)]].
  rewrite (next_cycle_after w cl b Hq ts t pick) by (rewrite ?Hd', ?Z.max_r; done || lia).
  by rewrite Hd', Z.max_r by lia.
Qed.

(** While the enabled state does not change and nobody cancels, no
    [select] of a run is cut short: every cycle starts by the timer. *)
Theorem quiet_run_by_timers w cl b ts n :
  world_ok w -> (forall u, enabled_at w cl u = b) -> cancel_at w = None ->
  head_ok w ts -> watching cl b (sys ts) -> started ts = [] ->
  Forall (fun x => x.2 = WakeTimer) (started (timed_run n w ts)).
Proof.
  intros Hw Hq Hca Hok Hwa Hnil.
  apply (timed_run_keeps _ w Hw
           (fun ts Hok => iteration_by_timer w cl b Hq ts Hca Hok) n ts Hok).
  split; [done|]. by rewrite Hnil.
Qed.

End Theorems.

(** ** The theorems at the run of [Scenario] *)

Lemma steady_quiet u : enabled_at steady script_client u = true.
Proof. done. Qed.

Lemma upload_cadence_witness :
  started (iteration steady (iteration steady ts0))
  = [(first_timer + busy steady first_timer + period_Until
      + jitter (interval (main (sys (iteration steady ts0)))) 1.2
               (draw steady first_timer), WakeTimer);
     (first_timer, WakeTimer)]
  /\ interval (main (sys (iteration steady ts0)))
     <= jitter (interval (main (sys (iteration steady ts0)))) 1.2
               (draw steady first_timer)
  /\ (inject_Z (jitter (interval (main (sys (iteration steady ts0)))) 1.2
                       (draw steady first_timer))
      <= inject_Z (interval (main (sys (iteration steady ts0)))) * (1 + width 1.2))%Q.
Proof.
  apply (upload_cadence steady script_client true ts0 first_timer WakeTimer
           steady_ok steady_quiet (ts0_ok steady));
    [done | done | apply ts0_watching | apply sample_half | by vm_compute
    | by vm_compute | by vm_compute | done].
Defined.

Lemma quiet_run_by_timers_witness :
  Forall (fun x => x.2 = WakeTimer) (started (timed_run 5 steady ts0)).
Proof.
  by apply (quiet_run_by_timers steady script_client true ts0 5 steady_ok
              steady_quiet eq_refl (ts0_ok steady) ts0_watching).
Defined.
