(* ===== verification/Start.v ===== *)
(** * Start: the command that starts the operator

    [NewOperator] ([src/pkg/cmd/start/start.go]) builds the [cobra] command
    whose [Run] seeds the random source, sets up logging and profiling,
    loads the configuration and hands the operator to the controller
    builder, with a context that is cancelled when a watched file changes.
    The libraries it calls are not part of the sources: a call is an
    [Action] of the trace of the process, and what the fallible calls
    return is a field of the [Host] the command runs on.  [klog.Fatal] ends
    the process ([Exit]), so the calls deferred before it do not run. *)

From stdpp Require Import base tactics strings list.
From S2P Require Import Prelude Timing Status Channel DryRun Uploader Scenario.
From S2P Require Import CycleSpec Delays.

#[local] Open Scope Z_scope.

Module controller.

(** [controller.Support], the fields [NewOperator] sets. *)
Record Support : Type := mkSupport {
  StoragePath : string;
  Interval : Duration;
  Endpoint : string;
}.

End controller.

(** [operator := &controller.Support{...}], lines 20-24. *)
Definition operator : controller.Support :=
  controller.mkSupport "/var/lib/support-operator" (10 * time.Minute)
    "https://cloud.redhat.com/api/ingress/v1/upload".

Section Command.
Context `{Errors}.

(** The calls of the command on its libraries. *)
Inductive Action : Type :=
| Seed (n : Z)
| InitLogs
| FlushLogs
| BehaviorOnPanic (mode : string)
| OnPanicHandler
| Profile (mode : string)
| ProfileStop
| StartProfiler
| Config
| AddDefaultRotationToConfig
| GoCancelOnChange
| BuilderRun (ctx : Context)
| Fatal (err : error).

(** What the command finds around it: the clock, the two environment
    variables, the error of each fallible call, and whether a watched file
    changes while the builder runs. *)
Record Host : Type := mkHost {
  UnixNano : Z;
  OPENSHIFT_ON_PANIC : string;
  OPENSHIFT_PROFILE : string;
  Config_err : option error;
  Rotation_err : option error;
  Run_err : option error;
  changed : bool;
}.

(** The process: the calls made so far, latest first, and whether [ctx2]
    has been cancelled. *)
Record Process : Type := mkProcess {
  trace : list Action;
  cancelled2 : bool;
}.

Definition log (a : Action) (p : Process) : Process :=
  mkProcess (a :: trace p) (cancelled2 p).

Definition act (a : Action) : Proc Process unit := modify (log a).

(** [klog.Fatal(err)]: the error is logged and the process exits. *)
Definition klog_Fatal {A} (err : error) : Proc Process A :=
  bind (act (Fatal err)) (fun _ => Exit).

(** The goroutine of lines 51-58: [cancel()] is called when
    [exitOnChangeReactorCh] or [ctx.Done()] is ready; [ctx] is
    [context.Background()], whose [Done()] is never ready. *)
Definition cancel_on_change (h : Host) (p : Process) : Process :=
  mkProcess (trace p) (changed h).

(** The function [Run] of the command, lines 29-69. *)
Definition command_Run (h : Host) : Proc Process unit :=
  (act (Seed (UnixNano h)) ;;
   act InitLogs ;;
   defer (log FlushLogs) (
     act (BehaviorOnPanic (OPENSHIFT_ON_PANIC h)) ;;
     defer (log OnPanicHandler) (
       act (Profile (OPENSHIFT_PROFILE h)) ;;
       defer (log ProfileStop) (
         act StartProfiler ;;
         act Config ;;
         match Config_err h with
         | Some err => klog_Fatal err
         | None =>
             act AddDefaultRotationToConfig ;;
             match Rotation_err h with
             | Some err => klog_Fatal err
             | None =>
                 let ctx := Background in
                 let ctx2 := WithCancel ctx in
                 act GoCancelOnChange ;;
                 act (BuilderRun ctx2) ;;
                 modify (cancel_on_change h) ;;
                 match Run_err h with
                 | Some err => klog_Fatal err
                 | None => ret tt
                 end
             end
         end))))%proc.

End Command.

Module cobra.
Section Command.
Context `{Errors}.

(** [cobra.Command], the fields [NewOperator] sets. *)
Record Command : Type := mkCommand {
  Use : string;
  Short : string;
  Run : Host -> Proc Process unit;
}.

End Command.
End cobra.

(** [func NewOperator() *cobra.Command], lines 19-74. *)
Definition NewOperator `{Errors} : cobra.Command :=
  cobra.mkCommand "start" "Start the operator" command_Run.

Section Behaviour.
Context `{Errors}.

(** The calls before the configuration is loaded. *)
Definition setup (h : Host) : list Action :=
  [Seed (UnixNano h); InitLogs; BehaviorOnPanic (OPENSHIFT_ON_PANIC h);
   Profile (OPENSHIFT_PROFILE h); StartProfiler].

(** The calls from the load of the configuration to the return of the
    builder or to the first fatal error. *)
Definition launch (h : Host) : list Action :=
  Config ::
  match Config_err h with
  | Some err => [Fatal err]
  | None =>
      AddDefaultRotationToConfig ::
      match Rotation_err h with
      | Some err => [Fatal err]
      | None =>
          [GoCancelOnChange; BuilderRun (WithCancel Background)] ++
          match Run_err h with Some err => [Fatal err] | None => [] end
      end
  end.

(** The first error among the fallible calls. *)
Definition fatal (h : Host) : option error :=
  match Config_err h, Rotation_err h with
  | Some err, _ => Some err
  | None, Some err => Some err
  | None, None => Run_err h
  end.

(** The calls deferred by the command, in the order they run. *)
Definition deferred : list Action := [ProfileStop; OnPanicHandler; FlushLogs].

End Behaviour.

(** A host on which the configuration cannot be loaded. *)
Definition broken_host : Host :=
  mkHost 1573214400000000000 "" "" (Some disk_error) None None false.

(** ** The run of the command *)

Section Facts.
Context `{Errors}.
Implicit Types (h : Host) (p : Process).

Lemma command_Run_eq h p :
  command_Run h p =
    (match fatal h with Some _ => Exited | None => Next tt end,
     mkProcess
       (rev (setup h ++ launch h ++
             match fatal h with Some _ => [] | None => deferred end) ++ trace p)
       (match Config_err h, Rotation_err h with
        | None, None => changed h
        | _, _ => cancelled2 p
        end)).
Proof.
  unfold command_Run, fatal, launch, setup, deferred, klog_Fatal, act.
  destruct p. by destruct (Config_err h), (Rotation_err h), (Run_err h).
Qed.

Lemma launch_fatal h err : fatal h = Some err -> last (launch h) = Some (Fatal err).
Proof.
  unfold fatal, launch.
  destruct (Config_err h), (Rotation_err h), (Run_err h); intros; by simplify_eq.
Qed.

Lemma launch_not_deferred h a : a ∈ setup h ++ launch h -> a ∉ deferred.
Proof.
  unfold setup, launch, deferred.
  destruct (Config_err h), (Rotation_err h), (Run_err h); cbn;
    rewrite ?elem_of_cons, ?elem_of_nil; intros Ha Hd; destruct_or?; by simplify_eq.
Qed.


(** C37: an error of [cfg.Config], of [AddDefaultRotationToConfig] or of
    [builder.Run] ends the process in [klog.Fatal]: the call of [Fatal] is
    the last of the process, and none of the deferred calls
    ([logs.FlushLogs], the panic handler, [Profile.Stop]) runs. *)
Theorem fatal_skips_deferred h p err :
  fatal h = Some err ->
  (command_Run h p).1 = Exited
  /\ head (trace (command_Run h p).2) = Some (Fatal err)
  /\ exists new, trace (command_Run h p).2 = rev new ++ trace p
       /\ Forall (fun a => a ∉ deferred) new.
Proof.
  intros Hf. rewrite command_Run_eq, Hf. cbn [fst snd trace].
  rewrite app_nil_r. split; [done|]. split.
  - rewrite rev_app_distr, <- app_assoc.
    pose proof (launch_fatal h err Hf) as Hl.
    destruct (launch h) as [|a l] using rev_ind; [done|].
    rewrite last_snoc in Hl. simplify_eq. by rewrite rev_app_distr.
  - eexists. split; [done|]. apply Forall_forall, launch_not_deferred.
Qed.

End Facts.

(** ** The default interval in the scheduler *)

Section Defaults.
Context `{Errors} `{TimeFormat} {Heap R : Type} `{StatusReporter R} `{!Durable R}.
Implicit Types (env : Env Heap) (s : State Heap R).

Lemma spec_period_default env s :
  Controller.interval (c s) = controller.Interval operator ->
  interval s = controller.Interval operator ->
  match Controller.client (c s) with
  | Some cl => (insightsclient.Enabled cl (heap env)).1.2 <= 0
  | None => True
  end ->
  interval (step env s) = 10 * time.Minute.
Proof.
  intros Hc Hi Hcl. destruct (step_sim env s) as [Ha _].
  apply (f_equal period) in Ha. rewrite spec_step_period in Ha. cbn in Ha.
  rewrite Ha. unfold spec_period, enabled_answer. cbn.
  destruct (Controller.client (c s)) as [cl|]; cbn; [|by rewrite Hi].
  destruct (insightsclient.Enabled cl (heap env)) as [[? n] ?]; cbn in *.
  destruct (Z.ltb_spec 0 n); [lia | by rewrite Hc].
Qed.

(** With the interval [NewOperator] configures, ten minutes, and a
    client that suggests none, every cycle works with ten minutes and
    leaves a delay in the range of its path that fits a
    [time.Duration]. *)
Theorem default_interval_delays env s :
  Controller.interval (c s) = controller.Interval operator ->
  interval s = controller.Interval operator ->
  match Controller.client (c s) with
  | Some cl => (insightsclient.Enabled cl (heap env)).1.2 <= 0
  | None => True
  end ->
  is_sample (rnd env) -> is_Duration (initialDelay s) ->
  interval (step env s) = 10 * time.Minute
  /\ library_range (path (config_of (c s)) env (abs s)) (10 * time.Minute)
       (initialDelay s) (initialDelay (step env s))
  /\ is_Duration (initialDelay (step env s)).
Proof.
  intros Hc Hi Hcl Hr Hd. pose proof (spec_period_default env s Hc Hi Hcl) as Hp.
  pose proof (step_library_range env s) as Hl. rewrite Hp in Hl.
  specialize (Hl ltac:(done) Hr). split; [done|]. split; [done|].
  eapply library_range_fits; [|exact Hd|exact Hl]. by vm_compute.
Qed.

End Defaults.

(** ** The theorems at a host *)

Lemma fatal_skips_deferred_witness :
  (command_Run broken_host (mkProcess [] false)).1 = Exited
  /\ head (trace (command_Run broken_host (mkProcess [] false)).2)
     = Some (Fatal disk_error)
  /\ exists new,
       trace (command_Run broken_host (mkProcess [] false)).2 = rev new ++ []
       /\ Forall (fun a => a ∉ deferred) new.
Proof. apply (fatal_skips_deferred broken_host (mkProcess [] false)). reflexivity. Defined.

Lemma default_interval_delays_witness :
  interval (step ok_env s0) = 10 * time.Minute
  /\ library_range (path (config_of (c s0)) ok_env (abs s0)) (10 * time.Minute)
       (initialDelay s0) (initialDelay (step ok_env s0))
  /\ is_Duration (initialDelay (step ok_env s0)).
Proof.
  apply (default_interval_delays (R := Time) ok_env s0);
    [reflexivity | reflexivity | by vm_compute | exact sample_half | by vm_compute].
Defined.
